(** * Trao Weather backend: a shallow embedding of the Express handlers

    The backend is a layered service: controllers call services, services
    call repositories or third-party HTTP APIs, repositories call the
    document store.  Every handler is embedded as a function in a small
    state-and-exception monad over a [World] that carries the two
    collections, the ObjectId generator and the log of outgoing HTTP calls.
    The answers of the third parties (OpenWeather geocoding and weather,
    the generative-language endpoint, bcrypt, the JWT library) and the
    process environment are read from an [Env] record.

    Conventions of the embedding.
    - A JavaScript string is a [string] of bytes (UTF-8).  Case mapping and
      white space are those of the ASCII range.
    - A JavaScript number that holds a temperature is an exact rational
      ([Q]); binary floating-point rounding is not part of the model.
    - [createdAt] is the position of a document in its collection
      (documents are appended); [updatedAt] is not kept. *)

From Stdlib Require Import List String Ascii Bool Arith NArith ZArith QArith Qround Lia.
From Stdlib Require Import DecimalString DecimalN Lqa.
Import ListNotations.

Set Implicit Arguments.
Open Scope string_scope.

(* ===================================================================== *)
(** ** JavaScript values and string primitives *)
(* ===================================================================== *)

Module JS.

(** JSON values as they arrive in a request body or an error payload. *)
#[local] Set Warnings "-register-all".
Inductive JVal : Type :=
| JNull
| JBool (b : bool)
| JNum (q : Q)
| JStr (s : string)
| JArr (l : list JVal)
| JObj (fields : list (string * JVal)).

(** [!!v] for a property that may be missing ([None] is [undefined]). *)
Definition truthy (v : option JVal) : bool :=
  match v with
  | None => false
  | Some JNull => false
  | Some (JBool b) => b
  | Some (JNum q) => negb (Qeq_bool q 0)
  | Some (JStr s) => negb (s =? "")
  | Some (JArr _) => true
  | Some (JObj _) => true
  end.

(** Truthiness of a string-or-undefined. *)
Definition truthyStr (v : option string) : bool :=
  match v with
  | None => false
  | Some s => negb (s =? "")
  end.

(** [v === n] for a number literal [n]. *)
Definition strictEqNum (v : option JVal) (n : Q) : bool :=
  match v with
  | Some (JNum q) => Qeq_bool q n
  | _ => false
  end.

(** [v === s] for a string literal [s]. *)
Definition strictEqStr (v : option JVal) (s : string) : bool :=
  match v with
  | Some (JStr t) => t =? s
  | _ => false
  end.

Definition isUpper (c : ascii) : bool := Ascii.leb "A" c && Ascii.leb c "Z".
Definition isLower (c : ascii) : bool := Ascii.leb "a" c && Ascii.leb c "z".
Definition isDigit (c : ascii) : bool := Ascii.leb "0" c && Ascii.leb c "9".
Definition isLetter (c : ascii) : bool := isUpper c || isLower c.

Definition isHexDigit (c : ascii) : bool :=
  isDigit c || (Ascii.leb "a" c && Ascii.leb c "f") || (Ascii.leb "A" c && Ascii.leb c "F").

(** White space removed by [String.prototype.trim]: TAB, LF, VT, FF, CR, SP. *)
Definition isSpace (c : ascii) : bool :=
  let n := nat_of_ascii c in ((9 <=? n)%nat && (n <=? 13)%nat) || (n =? 32)%nat.

(** Line terminators, which [.] does not match. *)
Definition isLineTerminator (c : ascii) : bool :=
  let n := nat_of_ascii c in (n =? 10)%nat || (n =? 13)%nat.

Definition lowerChar (c : ascii) : ascii :=
  if isUpper c then ascii_of_nat (nat_of_ascii c + 32) else c.

Definition upperChar (c : ascii) : ascii :=
  if isLower c then ascii_of_nat (nat_of_ascii c - 32) else c.

Fixpoint mapString (f : ascii -> ascii) (s : string) : string :=
  match s with
  | EmptyString => EmptyString
  | String c s' => String (f c) (mapString f s')
  end.

Definition toLowerCase (s : string) : string := mapString lowerChar s.
Definition toUpperCase (s : string) : string := mapString upperChar s.

Fixpoint trimStart (s : string) : string :=
  match s with
  | EmptyString => EmptyString
  | String c s' => if isSpace c then trimStart s' else s
  end.

Fixpoint trimEnd (s : string) : string :=
  match s with
  | EmptyString => EmptyString
  | String c s' =>
      let t := trimEnd s' in
      if isSpace c && (t =? "") then EmptyString else String c t
  end.

Definition trim (s : string) : string := trimEnd (trimStart s).

(** [s.split(sep)] for a one-character separator. *)
Fixpoint split (sep : ascii) (s : string) : list string :=
  match s with
  | EmptyString => [EmptyString]
  | String c s' =>
      if Ascii.eqb c sep then EmptyString :: split sep s'
      else match split sep s' with
           | h :: t => String c h :: t
           | [] => [String c EmptyString]
           end
  end.

(** [l.join(sep)]. *)
Definition join (sep : string) (l : list string) : string := String.concat sep l.

Fixpoint forallb_string (p : ascii -> bool) (s : string) : bool :=
  match s with
  | EmptyString => true
  | String c s' => p c && forallb_string p s'
  end.

(** [/^[A-Za-z]{2}$/.test(s)] *)
Definition testTwoLetters (s : string) : bool :=
  match s with
  | String a (String b EmptyString) => isLetter a && isLetter b
  | _ => false
  end.

(** [Array.from(new Set(l))]: first occurrences, in insertion order. *)
Fixpoint dedup {A} (eqb : A -> A -> bool) (seen : list A) (l : list A) : list A :=
  match l with
  | [] => []
  | x :: l' =>
      if existsb (eqb x) seen then dedup eqb seen l'
      else x :: dedup eqb (x :: seen) l'
  end.

(** *** Numbers *)

Definition digitVal (c : ascii) : Z := Z.of_nat (nat_of_ascii c - 48).

(** Value and number of digits of a run of decimal digits. *)
Fixpoint digitsVal (acc : Z) (s : string) : Z :=
  match s with
  | EmptyString => acc
  | String c s' => digitsVal (10 * acc + digitVal c) s'
  end.

Fixpoint takeDigits (s : string) : string * string :=
  match s with
  | EmptyString => (EmptyString, EmptyString)
  | String c s' =>
      if isDigit c then let (d, r) := takeDigits s' in (String c d, r)
      else (EmptyString, s)
  end.

(** [parseFloat] on decimal literals [-?digits(.digits)?] followed by
    anything; [None] is [NaN].  Exponents, a leading [+] or [.], leading
    white space and [Infinity] are not produced by the callers here. *)
Definition parseFloat (s : string) : option Q :=
  let (neg, body) :=
    match s with
    | String "-" r => (true, r)
    | _ => (false, s)
    end in
  let (ip, rest) := takeDigits body in
  match ip with
  | EmptyString => None
  | _ =>
      let fp :=
        match rest with
        | String "." r => fst (takeDigits r)
        | _ => EmptyString
        end in
      let den := Z.pow 10 (Z.of_nat (String.length fp)) in
      let num := digitsVal (digitsVal 0 ip) fp in
      let q := Qmake num (Z.to_pos den) in
      Some (if neg then Qopp q else q)
  end.

Definition natToString (n : Z) : string :=
  NilZero.string_of_uint (N.to_uint (Z.to_N n)).

(** [x.toFixed(1)]: the sign, then the integer [n] nearest to [10*|x|]
    (the larger one on a tie) written with one decimal. *)
Definition toFixed1 (x : Q) : string :=
  let neg := negb (Qle_bool 0 x) in
  let a := if neg then Qopp x else x in
  let n := Qfloor (a * 10 + (1 # 2))%Q in
  (if neg then "-" else "") ++ natToString (n / 10)%Z ++ "." ++ natToString (n mod 10)%Z.

End JS.

(* ===================================================================== *)
(** ** A backtracking matcher for the regular expressions of the source *)
(* ===================================================================== *)

Module Regex.

(** The constructs that occur in the source: literals, [.], [\d],
    sequence, the greedy [?] and [+], the lazy [*?], capturing groups. *)
Inductive regex : Type :=
| RLit (l : string)
| RDot
| RDigit
| RSeq (r1 r2 : regex)
| ROpt (r : regex)
| RPlus (r : regex)
| RStarLazy (r : regex)
| RGroup (i : nat) (r : regex).

(** Captures, most recent binding first. *)
Definition Caps : Type := list (nat * string).

Fixpoint capture (i : nat) (c : Caps) : option string :=
  match c with
  | [] => None
  | (j, s) :: c' => if Nat.eqb i j then Some s else capture i c'
  end.

Fixpoint stripPrefix (l s : string) : option string :=
  match l, s with
  | EmptyString, _ => Some s
  | String a l', String b s' => if Ascii.eqb a b then stripPrefix l' s' else None
  | String _ _, EmptyString => None
  end.

Definition Cont : Type := string -> Caps -> option Caps.

(** [r*?] over a matcher [step] for [r]: first try to go on with no
    further iteration, then with one more; an iteration that consumes
    nothing is not repeated. *)
Fixpoint lazyStar (step : string -> Caps -> Cont -> option Caps) (k : Cont)
         (fuel : nat) (s : string) (caps : Caps) {struct fuel} : option Caps :=
  match k s caps with
  | Some c => Some c
  | None =>
      match fuel with
      | O => None
      | S fuel' =>
          step s caps
            (fun s' c' =>
               if (String.length s' <? String.length s)%nat
               then lazyStar step k fuel' s' c' else None)
      end
  end.

(** [r*] over a matcher [step] for [r]: first try one more iteration,
    then to go on with none. *)
Fixpoint greedyStar (step : string -> Caps -> Cont -> option Caps) (k : Cont)
         (fuel : nat) (s : string) (caps : Caps) {struct fuel} : option Caps :=
  match fuel with
  | O => k s caps
  | S fuel' =>
      match step s caps
              (fun s' c' =>
                 if (String.length s' <? String.length s)%nat
                 then greedyStar step k fuel' s' c' else None) with
      | Some c => Some c
      | None => k s caps
      end
  end.

(** [rmatch r s caps k]: match [r] at the head of [s], then hand the rest
    of the input to the continuation [k]; alternatives are tried in the
    priority order of a backtracking engine and the first success wins.
    The loops run on the length of the input as fuel, which they cannot
    exhaust since every iteration consumes a character. *)
Fixpoint rmatch (r : regex) (s : string) (caps : Caps) (k : Cont) {struct r}
  : option Caps :=
  match r with
  | RLit l =>
      match stripPrefix l s with
      | Some s' => k s' caps
      | None => None
      end
  | RDot =>
      match s with
      | String c s' => if JS.isLineTerminator c then None else k s' caps
      | EmptyString => None
      end
  | RDigit =>
      match s with
      | String c s' => if JS.isDigit c then k s' caps else None
      | EmptyString => None
      end
  | RSeq r1 r2 => rmatch r1 s caps (fun s' c' => rmatch r2 s' c' k)
  | ROpt r1 =>
      match rmatch r1 s caps k with
      | Some c => Some c
      | None => k s caps
      end
  | RPlus r1 =>
      rmatch r1 s caps
        (fun s1 c1 => greedyStar (rmatch r1) k (String.length s1) s1 c1)
  | RStarLazy r1 => lazyStar (rmatch r1) k (String.length s) s caps
  | RGroup i r1 =>
      rmatch r1 s caps
        (fun s' c' =>
           k s' ((i, substring 0 (String.length s - String.length s') s) :: c'))
  end.

(** [s.match(r)] for a regex without the [g] flag: the leftmost match. *)
Fixpoint search (r : regex) (s : string) : option Caps :=
  match rmatch r s [] (fun _ c => Some c) with
  | Some c => Some c
  | None =>
      match s with
      | EmptyString => None
      | String _ s' => search r s'
      end
  end.

Fixpoint seq (rs : list regex) : regex :=
  match rs with
  | [] => RLit ""
  | [r] => r
  | r :: rs' => RSeq r (seq rs')
  end.

End Regex.

(* ===================================================================== *)
(** ** Documents, errors, the world and the handler monad *)
(* ===================================================================== *)

(** A BSON ObjectId, by its 96-bit value. *)
Definition ObjectId : Type := N.

Definition hexVal (c : ascii) : N :=
  let n := N_of_ascii c in
  if JS.isDigit c then n - 48
  else if Ascii.leb "a" c then n - 87
  else n - 55.

Fixpoint hexValue (acc : N) (s : string) : N :=
  match s with
  | EmptyString => acc
  | String c s' => hexValue (16 * acc + hexVal c) s'
  end.

(** The ObjectId a string of 24 hexadecimal digits denotes; the driver
    refuses any other string. *)
Definition ObjectId_parse (s : string) : option ObjectId :=
  if (String.length s =? 24)%nat && JS.forallb_string JS.isHexDigit s
  then Some (hexValue 0 s) else None.

(** models/city.model.ts, [ICity]. *)
Record ICity : Type := mkCity {
  city_id : ObjectId;
  userId : ObjectId;
  name : string;
  nameNormalized : string;
  country : option string;
  apiCityId : option string;
  isFavorite : bool
}.

(** models/user.model.ts, [IUser]. *)
Record IUser : Type := mkUser {
  user_id : ObjectId;
  user_name : string;
  email : string;
  passwordHash : string
}.

(** What an HTTP error response carries, as far as the handlers look:
    [err.response.status], [err.response.data.cod] and
    [err.response.data.message]. *)
Record HttpErrorResponse : Type := mkHttpError {
  err_status : nat;
  err_cod : option JS.JVal;
  err_message : option JS.JVal
}.

(** Thrown values. *)
Inductive Exn : Type :=
| AxiosError (response : option HttpErrorResponse)
| JsError (message : string)
| TypeError
| BSONError
| ValidationError
| DuplicateKeyError.

Inductive Result (A : Type) : Type :=
| Ok (a : A)
| Throw (e : Exn).
Arguments Ok {A} a.
Arguments Throw {A} e.

(** services/geo.service.ts, [ResolvedLocation]. *)
Record ResolvedLocation : Type := mkLocation {
  loc_name : string;
  loc_country : option string;
  lat : Q;
  lon : Q
}.

(** services/weather.service.ts, [WeatherData].  [temperature] is
    [data.main?.temp], which may be [undefined]. *)
Record WeatherData : Type := mkWeather {
  cityName : string;
  weather_country : option string;
  temperature : option Q;
  description : string;
  icon : string
}.

(** The part of the generative endpoint's answer the service reads:
    [response.data.candidates[i].content.parts[j].text]. *)
Record GeminiPart : Type := mkPart { part_text : option string }.
Record GeminiCandidate : Type := mkCandidate { content_parts : option (list GeminiPart) }.
Record GeminiResponse : Type := mkGemini { candidates : option (list GeminiCandidate) }.

(** Outgoing HTTP requests, by endpoint and query. *)
Inductive ExtCall : Type :=
| GeoDirect (q : string)
| WeatherCurrent (q : string)
| GenerateContent (prompt : string).

(** The process environment and the third parties. *)
Record Env : Type := mkEnv {
  OPENWEATHER_API_KEY : option string;
  GEMINI_API_KEY : option string;
  JWT_SECRET : option string;
  geo_direct : string -> Result (list ResolvedLocation);
  weather_current : string -> Result WeatherData;
  generate_content : string -> Result GeminiResponse;
  bcrypt_hash : string -> string;
  bcrypt_compare : string -> string -> bool;
  jwt_sign : string -> string -> string;
  jwt_verify : string -> string -> option string
}.

(** The two collections. *)
Record Db : Type := mkDb {
  cities : list ICity;
  users : list IUser
}.

Record World : Type := mkWorld {
  db : Db;
  nextObjectId : ObjectId;
  calls : list ExtCall
}.

Definition M (A : Type) : Type := World -> Result A * World.

Definition ret {A} (a : A) : M A := fun w => (Ok a, w).

Definition throw {A} (e : Exn) : M A := fun w => (Throw e, w).

Definition bind {A B} (m : M A) (k : A -> M B) : M B :=
  fun w =>
    match m w with
    | (Ok a, w') => k a w'
    | (Throw e, w') => (Throw e, w')
    end.

(** [try { m } catch (err) { h err }] *)
Definition tryCatch {A} (m : M A) (h : Exn -> M A) : M A :=
  fun w =>
    match m w with
    | (Ok a, w') => (Ok a, w')
    | (Throw e, w') => h e w'
    end.

Definition getDb : M Db := fun w => (Ok (db w), w).

Definition putDb (d : Db) : M unit :=
  fun w => (Ok tt, mkWorld d (nextObjectId w) (calls w)).

(** An outgoing request is logged before its answer is looked up. *)
Definition httpCall {A} (c : ExtCall) (answer : Result A) : M A :=
  fun w => (answer, mkWorld (db w) (nextObjectId w) (calls w ++ [c])).

Declare Scope handler_scope.
Delimit Scope handler_scope with handler.
Notation "x <- m ;; k" := (bind m (fun x => k))
  (at level 100, m at next level, right associativity) : handler_scope.
Notation "m ;;; k" := (bind m (fun _ => k))
  (at level 100, right associativity) : handler_scope.
Notation "'try' m 'catch' e '=>' h" := (tryCatch m (fun e => h))
  (at level 100, e name, m at level 99, h at level 100) : handler_scope.
Open Scope handler_scope.

(** [new Types.ObjectId(s)] throws on a string that is not an ObjectId. *)
Definition ObjectId_of (s : string) : M ObjectId :=
  match ObjectId_parse s with
  | Some o => ret o
  | None => throw BSONError
  end.

(** [new Types.ObjectId()]: the driver never hands out the same value
    twice; here the values come from a counter. *)
Definition ObjectId_fresh : M ObjectId :=
  fun w => (Ok (nextObjectId w), mkWorld (db w) (N.succ (nextObjectId w)) (calls w)).

(** [_id.toString()]: 24 lower-case hexadecimal digits. *)
Definition hexDigit (n : N) : ascii :=
  if (n <? 10)%N then ascii_of_N (48 + n) else ascii_of_N (87 + n).

Fixpoint hexString (digits : nat) (n : N) (acc : string) : string :=
  match digits with
  | O => acc
  | S d => hexString d (n / 16)%N (String (hexDigit (n mod 16)%N) acc)
  end.

Definition ObjectId_toString (o : ObjectId) : string := hexString 24 o EmptyString.

(** The JSON view of a city that the city endpoints answer with. *)
Record CityView : Type := mkView {
  view_id : string;
  view_name : string;
  view_country : option string;
  view_isFavorite : bool
}.

(** An HTTP response: [res.status(n).json(body)]. *)
Inductive Body : Type :=
| Message (m : string)
| CityJson (v : CityView)
| CityListJson (l : list CityView)
| SuggestJson (l : list (string * option string))
| WeatherJson (w : WeatherData)
| UserJson (id : string) (name email : string)
| LoginJson (token : string) (id : string) (name email : string)
| InsightJson (answer : string) (usedFallback : bool)
| MeJson (userId : string)
| NoBody.

Record Response : Type := mkResponse {
  status : nat;
  body : Body
}.

(** The request fields the handlers read, with the types the handlers
    declare for them; [isFavorite] stays a JSON value since the handler
    coerces it. *)
Record Request : Type := mkRequest {
  authorization : option string;
  user : option string;
  params_id : string;
  query_name : option string;
  query_country : option string;
  body_name : option string;
  body_country : option string;
  body_isFavorite : option JS.JVal;
  body_question : option string;
  body_email : option string;
  body_password : option string
}.

Definition json (code : nat) (b : Body) : M Response := ret (mkResponse code b).

(** [a === b] on strings that may be [undefined]. *)
Definition strictEqOpt (a b : option string) : bool :=
  match a, b with
  | Some x, Some y => x =? y
  | None, None => true
  | _, _ => false
  end.

(* ===================================================================== *)
(** ** models/city.model.ts and models/user.model.ts *)
(* ===================================================================== *)

Module CityModel.

(** The key of the unique compound index
    [{ userId: 1, nameNormalized: 1, country: 1 }]; a missing country is
    indexed as null. *)
Definition indexKey (c : ICity) : ObjectId * string * option string :=
  (userId c, nameNormalized c, country c).

Definition keyEqb (a b : ObjectId * string * option string) : bool :=
  let '(u1, n1, c1) := a in
  let '(u2, n2, c2) := b in
  N.eqb u1 u2 && (n1 =? n2) && strictEqOpt c1 c2.

(** [new CityModel({...})]: a fresh [_id], the [lowercase] setter on
    [nameNormalized], the default of [isFavorite]. *)
Definition create (uid : ObjectId) (nm nn : string) (ctry api : option string) : M ICity :=
  oid <- ObjectId_fresh ;;
  ret (mkCity oid uid nm (JS.toLowerCase nn) ctry api false).

(** The [required] validators: a required string must not be empty. *)
Definition validate (c : ICity) : bool :=
  negb (name c =? "") && negb (nameNormalized c =? "").

(** [doc.save()] of a new document: validation, then the insert, which
    the unique index refuses on a key already present. *)
Definition save (c : ICity) : M ICity :=
  if negb (validate c) then throw ValidationError
  else
    d <- getDb ;;
    if existsb (fun c' => keyEqb (indexKey c') (indexKey c)) (cities d)
    then throw DuplicateKeyError
    else putDb (mkDb (cities d ++ [c]) (users d)) ;;; ret c.

Definition matches (cid uid : ObjectId) (c : ICity) : bool :=
  N.eqb (city_id c) cid && N.eqb (userId c) uid.

(** [find({ userId }).sort({ createdAt: -1 })] *)
Definition findByUser (uid : ObjectId) : M (list ICity) :=
  d <- getDb ;;
  ret (rev (filter (fun c => N.eqb (userId c) uid) (cities d))).

(** [findOne({ _id, userId })] *)
Definition findOne (cid uid : ObjectId) : M (option ICity) :=
  d <- getDb ;;
  ret (find (matches cid uid) (cities d)).

Fixpoint removeFirst (p : ICity -> bool) (l : list ICity) : list ICity :=
  match l with
  | [] => []
  | c :: l' => if p c then l' else c :: removeFirst p l'
  end.

(** [deleteOne({ _id, userId })] *)
Definition deleteOne (cid uid : ObjectId) : M unit :=
  d <- getDb ;;
  putDb (mkDb (removeFirst (matches cid uid) (cities d)) (users d)).

Definition setFavorite (v : bool) (c : ICity) : ICity :=
  mkCity (city_id c) (userId c) (name c) (nameNormalized c) (country c) (apiCityId c) v.

Fixpoint updateFirst (p : ICity -> bool) (f : ICity -> ICity) (l : list ICity)
  : option ICity * list ICity :=
  match l with
  | [] => (None, [])
  | c :: l' =>
      if p c then (Some (f c), f c :: l')
      else let (r, l'') := updateFirst p f l' in (r, c :: l'')
  end.

(** [findOneAndUpdate({ _id, userId }, { isFavorite }, { new: true })] *)
Definition findOneAndUpdate (cid uid : ObjectId) (v : bool) : M (option ICity) :=
  d <- getDb ;;
  let (r, l) := updateFirst (matches cid uid) (setFavorite v) (cities d) in
  putDb (mkDb l (users d)) ;;; ret r.

End CityModel.

Module UserModel.

(** [findOne({ email })] *)
Definition findOne (e : string) : M (option IUser) :=
  d <- getDb ;;
  ret (find (fun u => email u =? e) (users d)).

(** [UserModel.create(data)]: required fields, unique [email]. *)
Definition create (nm e h : string) : M IUser :=
  oid <- ObjectId_fresh ;;
  let u := mkUser oid nm e h in
  if (nm =? "") || (e =? "") || (h =? "") then throw ValidationError
  else
    d <- getDb ;;
    if existsb (fun u' => email u' =? e) (users d)
    then throw DuplicateKeyError
    else putDb (mkDb (cities d) (users d ++ [u])) ;;; ret u.

End UserModel.

(* ===================================================================== *)
(** ** repositories *)
(* ===================================================================== *)

Module CityRepository.

Definition listCitiesForUser (uid : string) : M (list ICity) :=
  u <- ObjectId_of uid ;;
  CityModel.findByUser u.

(** The argument of [createCityForUser]. *)
Record Payload : Type := mkPayload {
  p_userId : string;
  p_name : string;
  p_nameNormalized : string;
  p_country : option string;
  p_apiCityId : option string
}.

Definition createCityForUser (city : Payload) : M ICity :=
  u <- ObjectId_of (p_userId city) ;;
  doc <- CityModel.create u (p_name city) (p_nameNormalized city)
           (p_country city) (p_apiCityId city) ;;
  CityModel.save doc.

Definition findCityByIdForUser (cityId uid : string) : M (option ICity) :=
  c <- ObjectId_of cityId ;;
  u <- ObjectId_of uid ;;
  CityModel.findOne c u.

Definition deleteCityForUser (cityId uid : string) : M unit :=
  c <- ObjectId_of cityId ;;
  u <- ObjectId_of uid ;;
  CityModel.deleteOne c u.

Definition updateCityFavoriteForUser (cityId uid : string) (v : bool) : M (option ICity) :=
  c <- ObjectId_of cityId ;;
  u <- ObjectId_of uid ;;
  CityModel.findOneAndUpdate c u v.

End CityRepository.

Module UserRepository.

Definition findUserByEmail (e : string) : M (option IUser) := UserModel.findOne e.

Definition createUser (nm e h : string) : M IUser := UserModel.create nm e h.

End UserRepository.

(* ===================================================================== *)
(** ** services *)
(* ===================================================================== *)

Module GeoService.

Definition getApiConfig (env : Env) : M string :=
  match OPENWEATHER_API_KEY env with
  | Some k =>
      if k =? "" then throw (JsError "OPENWEATHER_API_KEY is not defined in environment variables")
      else ret k
  | None => throw (JsError "OPENWEATHER_API_KEY is not defined in environment variables")
  end.

(** Resolve a city name (with optional country code) to the locations
    the geocoder lists for it. *)
Definition resolveCity (env : Env) (nm : string) (countryCode : option string)
  : M (list ResolvedLocation) :=
  _ <- getApiConfig env ;;
  let q := match countryCode with
           | Some cc => if cc =? "" then nm else nm ++ "," ++ cc
           | None => nm
           end in
  data <- httpCall (GeoDirect q) (geo_direct env q) ;;
  ret (map (fun item => mkLocation (loc_name item) (loc_country item) (lat item) (lon item)) data).

(** The filter of [resolveExactCity]. *)
Definition isExact (target : string) (item : ResolvedLocation) : bool :=
  negb (loc_name item =? "") && (JS.toLowerCase (JS.trim (loc_name item)) =? target).

Definition resolveExactCity (env : Env) (nm : string) (countryCode : option string)
  : M (list ResolvedLocation) :=
  raw <- resolveCity env nm countryCode ;;
  let target := JS.toLowerCase (JS.trim nm) in
  ret (filter (isExact target) raw).

End GeoService.

Module WeatherService.

Definition getApiConfig (env : Env) : M string :=
  match OPENWEATHER_API_KEY env with
  | Some k =>
      if k =? "" then throw (JsError "OPENWEATHER_API_KEY is not defined in environment variables")
      else ret k
  | None => throw (JsError "OPENWEATHER_API_KEY is not defined in environment variables")
  end.

Definition query (city : ICity) : string :=
  if JS.truthyStr (country city)
  then name city ++ "," ++ match country city with Some c => c | None => "" end
  else name city.

Definition fetchWeatherForCity (env : Env) (city : ICity) : M WeatherData :=
  _ <- getApiConfig env ;;
  let q := query city in
  httpCall (WeatherCurrent q) (weather_current env q).

End WeatherService.

Module AuthService.

Definition getJwtSecret (env : Env) : M string :=
  match JWT_SECRET env with
  | Some k =>
      if k =? "" then throw (JsError "JWT_SECRET is not defined in environment variables")
      else ret k
  | None => throw (JsError "JWT_SECRET is not defined in environment variables")
  end.

Definition registerUser (env : Env) (nm e password : string) : M IUser :=
  existing <- UserRepository.findUserByEmail e ;;
  match existing with
  | Some _ => throw (JsError "EMAIL_TAKEN")
  | None =>
      let h := bcrypt_hash env password in
      UserRepository.createUser nm e h
  end.

Definition loginUser (env : Env) (e password : string) : M (string * IUser) :=
  u <- UserRepository.findUserByEmail e ;;
  match u with
  | None => throw (JsError "INVALID_CREDENTIALS")
  | Some usr =>
      if negb (bcrypt_compare env password (passwordHash usr))
      then throw (JsError "INVALID_CREDENTIALS")
      else
        secret <- getJwtSecret env ;;
        let token := jwt_sign env (ObjectId_toString (user_id usr)) secret in
        ret (token, usr)
  end.

End AuthService.

Module AiService.

Definition noDataAnswer : string :=
  "I don't have any weather data yet. Add cities and load their weather, then try asking for insights again.".

Definition summaryHeader : string :=
  "Here is a quick heuristic summary based on your cities:".

Definition notConfiguredNote : string :=
  String "010" (String "010"
    "AI provider is not configured or not reachable, so this is a simple heuristic summary instead of a full AI answer.").

Definition degC : string := "°C".

Definition newline : string := String "010" EmptyString.

(** [/City: (.*?)(?: \((.*?)\))? \| (-?\d+(?:\.\d+)?)°C/] *)
Definition lineRegex : Regex.regex :=
  Regex.seq
    [ Regex.RLit "City: ";
      Regex.RGroup 1 (Regex.RStarLazy Regex.RDot);
      Regex.ROpt (Regex.seq [ Regex.RLit " ("; Regex.RGroup 2 (Regex.RStarLazy Regex.RDot);
                              Regex.RLit ")" ]);
      Regex.RLit " | ";
      Regex.RGroup 3
        (Regex.seq [ Regex.ROpt (Regex.RLit "-");
                     Regex.RPlus Regex.RDigit;
                     Regex.ROpt (Regex.seq [ Regex.RLit "."; Regex.RPlus Regex.RDigit ]) ]);
      Regex.RLit degC ].

Record Reading : Type := mkReading { city : string; temp : Q }.

(** One turn of the parsing loop: the reading a line contributes, if any. *)
Definition parseLine (line : string) : option Reading :=
  match Regex.search lineRegex line with
  | None => None
  | Some m =>
      let cityMatch := Regex.capture 1 m in
      let tempMatch := Regex.capture 3 m in
      if negb (JS.truthyStr cityMatch) || negb (JS.truthyStr tempMatch) then None
      else
        match cityMatch, tempMatch with
        | Some c, Some t =>
            match JS.parseFloat t with
            | Some q => Some (mkReading (JS.trim c) q)
            | None => None
            end
        | _, _ => None
        end
  end.

Fixpoint parseLines (lines : list string) : list Reading :=
  match lines with
  | [] => []
  | l :: rest =>
      match parseLine l with
      | Some r => r :: parseLines rest
      | None => parseLines rest
      end
  end.

(** [[...temps].sort((a, b) => a.temp - b.temp)]; the sort is stable. *)
Fixpoint insert (x : Reading) (l : list Reading) : list Reading :=
  match l with
  | [] => [x]
  | y :: l' =>
      if Qle_bool (temp x) (temp y) then x :: y :: l'
      else y :: insert x l'
  end.

Fixpoint sort (l : list Reading) : list Reading :=
  match l with
  | [] => []
  | x :: l' => insert x (sort l')
  end.

Definition sumTemps (l : list Reading) : Q :=
  fold_left (fun acc t => acc + temp t)%Q l 0%Q.

Definition average (l : list Reading) : Q :=
  (sumTemps l / inject_Z (Z.of_nat (List.length l)))%Q.

Definition nonEmptyLines (weatherSummary : string) : list string :=
  filter (fun l => negb (String.length l =? 0)%nat)
         (map JS.trim (JS.split "010" weatherSummary)).

Definition coldestLine (r : Reading) : string :=
  newline ++ "- Coldest city: " ++ city r ++ " at " ++ JS.toFixed1 (temp r) ++ degC ++ ".".

Definition warmestLine (r : Reading) : string :=
  newline ++ "- Warmest city: " ++ city r ++ " at " ++ JS.toFixed1 (temp r) ++ degC ++ ".".

Definition averageLine (avg : Q) : string :=
  newline ++ "- Average temperature across your cities: " ++ JS.toFixed1 avg ++ degC ++ ".".

Record AiInsightResponse : Type := mkInsight { answer : string; usedFallback : bool }.

(** Simple heuristic fallback that parses temperatures and provides a
    quick summary. *)
Definition heuristicFallback (question weatherSummary : string) : AiInsightResponse :=
  let lines := nonEmptyLines weatherSummary in
  match lines with
  | [] => mkInsight noDataAnswer true
  | _ =>
      let temps := parseLines lines in
      let summary := summaryHeader in
      let summary :=
        match temps with
        | [] => summary
        | _ =>
            let sorted := sort temps in
            match hd_error sorted, last (map Some sorted) None with
            | Some coldest, Some warmest =>
                summary ++ coldestLine coldest ++ warmestLine warmest
                        ++ averageLine (average sorted)
            | _, _ => summary
            end
        end in
      mkInsight (summary ++ notConfiguredNote) true
  end.

Definition buildPrompt (question weatherSummary : string) : string :=
  JS.join newline
    [ "Here is the user's saved cities and their current weather readings:";
      weatherSummary;
      "";
      "Using ONLY this information, answer the user's question.";
      "If the question cannot be answered from this data, explain briefly what is missing.";
      "";
      "User question: " ++ question ].

Definition partText (p : GeminiPart) : string :=
  match part_text p with
  | Some t => t
  | None => ""
  end.

Definition getAiInsight (env : Env) (question weatherSummary : string) : M AiInsightResponse :=
  if negb (JS.truthyStr (GEMINI_API_KEY env))
  then ret (heuristicFallback question weatherSummary)
  else
    try
      (let prompt := buildPrompt question weatherSummary in
       response <- httpCall (GenerateContent prompt) (generate_content env prompt) ;;
       let firstCandidate :=
         match candidates response with
         | Some (c :: _) => Some c
         | _ => None
         end in
       let parts :=
         match firstCandidate with
         | Some c => content_parts c
         | None => None
         end in
       let text :=
         match parts with
         | Some (p :: ps) =>
             Some (JS.trim (JS.join (newline ++ newline) (map partText (p :: ps))))
         | _ => None
         end in
       let answer :=
         match text with
         | Some t => if (0 <? String.length t)%nat then t
                     else "I couldn't generate insights right now."
         | None => "I couldn't generate insights right now."
         end in
       ret (mkInsight answer false))
    catch err => ret (heuristicFallback question weatherSummary).

End AiService.

(* ===================================================================== *)
(** ** controllers/city.controller.ts *)
(* ===================================================================== *)

Module CityController.

Import CityRepository.

Definition view (c : ICity) : CityView :=
  mkView (ObjectId_toString (city_id c)) (name c) (country c) (isFavorite c).

(** [m.country?.toUpperCase() === country] *)
Definition inCountryOf (ctry : option string) (m : ResolvedLocation) : bool :=
  strictEqOpt (option_map JS.toUpperCase (loc_country m)) ctry.

(** Suggest cities based on the provided name and country. *)
Definition suggestCities (env : Env) (req : Request) : M Response :=
  try
    match user req with
    | None => json 401 (Message "Unauthorized")
    | Some _ =>
        let nm := option_map JS.trim (query_name req) in
        let ctry :=
          match option_map (fun c => JS.toUpperCase (JS.trim c)) (query_country req) with
          | Some c => if c =? "" then None else Some c
          | None => None
          end in
        match nm with
        | None => json 400 (Message "Query parameter 'name' is required")
        | Some n =>
            if n =? "" then json 400 (Message "Query parameter 'name' is required")
            else
              exactMatches <- GeoService.resolveExactCity env n ctry ;;
              let filtered :=
                if JS.truthyStr ctry then filter (inCountryOf ctry) exactMatches
                else exactMatches in
              json 200 (SuggestJson (map (fun m => (loc_name m, loc_country m)) filtered))
        end
    end
  catch err => json 500 (Message "Failed to fetch city suggestions").

(** List all cities saved by the user. *)
Definition listCities (env : Env) (req : Request) : M Response :=
  try
    match user req with
    | None => json 401 (Message "Unauthorized")
    | Some uid =>
        l <- listCitiesForUser uid ;;
        json 200 (CityListJson (map view l))
    end
  catch err => json 500 (Message "Internal server error").

(** [status === 404 || code === 404 || message === "city not found"]
    on [err?.response]. *)
Definition cityNotFound (err : Exn) : bool :=
  match err with
  | AxiosError (Some r) =>
      (err_status r =? 404)%nat
      || JS.strictEqNum (err_cod r) (404 # 1)
      || JS.strictEqStr (err_message r) "city not found"
  | _ => false
  end.

(** Validate that OpenWeather can actually return weather for this city:
    the answer is the rejection to send, if any. *)
Definition validateWeather (env : Env) (payload : Payload) : M (option Response) :=
  try
    (oid <- ObjectId_fresh ;;
     uid <- ObjectId_of (p_userId payload) ;;
     _ <- WeatherService.fetchWeatherForCity env
            (mkCity oid uid (p_name payload) (p_nameNormalized payload)
                    (p_country payload) None false) ;;
     ret None)
  catch err =>
    if cityNotFound err
    then ret (Some (mkResponse 400
           (Message "We couldn't load weather for this city. It may not exist or be supported.")))
    else ret None.

(** The tail of both branches of [createCity], which has it twice with
    the same text: validate the weather, then save the city and answer
    201 with its view. *)
Definition saveValidated (env : Env) (payload : Payload) : M Response :=
  rejected <- validateWeather env payload ;;
  match rejected with
  | Some r => ret r
  | None =>
      c <- createCityForUser payload ;;
      json 201 (CityJson (view c))
  end.

(** [const normalizedName = name.trim()] *)
Definition normalizedName (req : Request) : string :=
  JS.trim (match body_name req with Some n => n | None => "" end).

(** [const normalizedCountry =
      country && country.trim() ? country.trim().toUpperCase() : undefined] *)
Definition normalizedCountry (req : Request) : option string :=
  if JS.truthyStr (body_country req)
     && JS.truthyStr (option_map JS.trim (body_country req))
  then option_map (fun c => JS.toUpperCase (JS.trim c)) (body_country req)
  else None.

(** Create a new city for the user. *)
Definition createCity (env : Env) (req : Request) : M Response :=
  try
    match user req with
    | None => json 401 (Message "Unauthorized")
    | Some uid =>
        if negb (JS.truthyStr (body_name req))
           || negb (JS.truthyStr (option_map JS.trim (body_name req)))
        then json 400 (Message "City name is required")
        else
          let normalizedName := normalizedName req in
          let normalizedCountry := normalizedCountry req in
          if JS.truthyStr normalizedCountry
             && negb (match normalizedCountry with
                      | Some c => JS.testTwoLetters c
                      | None => false
                      end)
          then json 400 (Message "Country code must be a valid 2-letter ISO code")
          else
            try
              (exactMatches <- GeoService.resolveExactCity env normalizedName normalizedCountry ;;
               if JS.truthyStr normalizedCountry then
                 let inCountry := filter (inCountryOf normalizedCountry) exactMatches in
                 match inCountry with
                 | [] =>
                     json 400 (Message
                       "We couldn't find that city in the specified country. Please check the name and country code.")
                 | best :: _ =>
                     let payload :=
                       mkPayload uid (loc_name best) (JS.toLowerCase (loc_name best))
                                 (option_map JS.toUpperCase (loc_country best)) None in
                     saveValidated env payload
                 end
               else
                 match exactMatches with
                 | [] =>
                     json 400 (Message "We couldn't find that city. Please check the spelling.")
                 | best :: _ =>
                     let distinctCountries :=
                       JS.dedup strictEqOpt []
                         (filter JS.truthyStr
                            (map (fun m => option_map JS.toUpperCase (loc_country m))
                                 exactMatches)) in
                     if (1 <? List.length distinctCountries)%nat
                     then json 400 (Message
                            "This city exists in multiple countries. Please provide a country code.")
                     else
                       let payload :=
                         mkPayload uid (loc_name best) (JS.toLowerCase (loc_name best))
                                   (if JS.truthyStr (loc_country best)
                                    then option_map JS.toUpperCase (loc_country best)
                                    else None) None in
                       saveValidated env payload
                 end)
            catch err => json 400 (Message "City already exists in your list")
    end
  catch err => json 500 (Message "Internal server error").

(** Delete a city from the user's list. *)
Definition deleteCity (env : Env) (req : Request) : M Response :=
  try
    match user req with
    | None => json 401 (Message "Unauthorized")
    | Some uid =>
        deleteCityForUser (params_id req) uid ;;;
        json 204 NoBody
    end
  catch err => json 500 (Message "Internal server error").

(** Toggle the favorite status of a city. *)
Definition toggleFavorite (env : Env) (req : Request) : M Response :=
  try
    match user req with
    | None => json 401 (Message "Unauthorized")
    | Some uid =>
        c <- updateCityFavoriteForUser (params_id req) uid (JS.truthy (body_isFavorite req)) ;;
        match c with
        | None => json 404 (Message "City not found")
        | Some c' => json 200 (CityJson (view c'))
        end
    end
  catch err => json 500 (Message "Internal server error").

(** Get the weather for a specific city. *)
Definition getCityWeather (env : Env) (req : Request) : M Response :=
  try
    match user req with
    | None => json 401 (Message "Unauthorized")
    | Some uid =>
        c <- findCityByIdForUser (params_id req) uid ;;
        match c with
        | None => json 404 (Message "City not found")
        | Some c' =>
            try
              (w <- WeatherService.fetchWeatherForCity env c' ;;
               json 200 (WeatherJson w))
            catch err =>
              match err with
              | AxiosError (Some r) =>
                  if (err_status r =? 404)%nat || JS.strictEqNum (err_cod r) (404 # 1)
                  then json 404 (Message
                         "Weather data not found for this city. Please check the name and country code.")
                  else json 502 (Message "Failed to fetch weather data from provider")
              | _ => json 502 (Message "Failed to fetch weather data from provider")
              end
        end
    end
  catch err => json 500 (Message "Internal server error").

End CityController.

(* ===================================================================== *)
(** ** controllers/auth.controller.ts and controllers/ai.controller.ts *)
(* ===================================================================== *)

Module AuthController.

Definition isError (err : Exn) (m : string) : bool :=
  match err with
  | JsError m' => m' =? m
  | _ => false
  end.

Definition register (env : Env) (req : Request) : M Response :=
  try
    if negb (JS.truthyStr (body_name req))
       || negb (JS.truthyStr (body_email req))
       || negb (JS.truthyStr (body_password req))
    then json 400 (Message "name, email and password are required")
    else
      match body_name req, body_email req, body_password req with
      | Some nm, Some e, Some pw =>
          u <- AuthService.registerUser env nm e pw ;;
          json 201 (UserJson (ObjectId_toString (user_id u)) (user_name u) (email u))
      | _, _, _ => throw TypeError
      end
  catch err =>
    if isError err "EMAIL_TAKEN"
    then json 409 (Message "Email is already registered")
    else json 500 (Message "Internal server error").

Definition login (env : Env) (req : Request) : M Response :=
  try
    if negb (JS.truthyStr (body_email req)) || negb (JS.truthyStr (body_password req))
    then json 400 (Message "email and password are required")
    else
      match body_email req, body_password req with
      | Some e, Some pw =>
          r <- AuthService.loginUser env e pw ;;
          let (token, u) := r in
          json 200 (LoginJson token (ObjectId_toString (user_id u)) (user_name u) (email u))
      | _, _ => throw TypeError
      end
  catch err =>
    if isError err "INVALID_CREDENTIALS"
    then json 401 (Message "Invalid email or password")
    else json 500 (Message "Internal server error").

End AuthController.

Module AiController.

(** The line pushed for a city whose weather was loaded;
    [toFixed] on a missing temperature is a [TypeError]. *)
Definition weatherLine (w : WeatherData) : M string :=
  match temperature w with
  | None => throw TypeError
  | Some t =>
      ret ("City: " ++ cityName w
           ++ (if JS.truthyStr (weather_country w)
               then " (" ++ match weather_country w with Some c => c | None => "" end ++ ")"
               else "")
           ++ " | " ++ JS.toFixed1 t ++ AiService.degC ++ ", " ++ description w)
  end.

(** The loop over the user's cities. *)
Fixpoint collectLines (env : Env) (l : list ICity) (lines : list string) : M (list string) :=
  match l with
  | [] => ret lines
  | c :: rest =>
      lines' <- (try
                   (w <- WeatherService.fetchWeatherForCity env c ;;
                    line <- weatherLine w ;;
                    ret (lines ++ [line])%list)
                 catch err => ret lines) ;;
      collectLines env rest lines'
  end.

Definition getInsights (env : Env) (req : Request) : M Response :=
  match user req with
  | None => json 401 (Message "Unauthorized")
  | Some uid =>
      if negb (JS.truthyStr (body_question req))
         || negb (JS.truthyStr (option_map JS.trim (body_question req)))
      then json 400 (Message "Question is required")
      else
        let question := match body_question req with Some q => q | None => "" end in
        try
          (l <- CityRepository.listCitiesForUser uid ;;
           match l with
           | [] => json 400 (Message "You don't have any cities yet. Add some cities first.")
           | _ =>
               lines <- collectLines env l [] ;;
               let weatherSummary := JS.join AiService.newline lines in
               aiResult <- AiService.getAiInsight env (JS.trim question) weatherSummary ;;
               json 200 (InsightJson (AiService.answer aiResult) (AiService.usedFallback aiResult))
           end)
        catch err => json 500 (Message "Failed to generate AI insights")
  end.

End AiController.

(* ===================================================================== *)
(** ** middleware/auth.middleware.ts and app.ts *)
(* ===================================================================== *)

Definition withUser (req : Request) (uid : string) : Request :=
  mkRequest (authorization req) (Some uid) (params_id req) (query_name req)
            (query_country req) (body_name req) (body_country req)
            (body_isFavorite req) (body_question req) (body_email req) (body_password req).

Definition authMiddleware (env : Env) (req : Request) (next : Request -> M Response)
  : M Response :=
  try
    match authorization req with
    | None => json 401 (Message "Missing Authorization header")
    | Some header =>
        if header =? "" then json 401 (Message "Missing Authorization header")
        else
          let pieces := JS.split " " header in
          let scheme := nth_error pieces 0 in
          let token := nth_error pieces 1 in
          if negb (strictEqOpt scheme (Some "Bearer")) || negb (JS.truthyStr token)
          then json 401 (Message "Invalid Authorization header format")
          else
            match JWT_SECRET env with
            | None => throw (JsError "JWT_SECRET is not defined in environment variables")
            | Some secret =>
                if secret =? ""
                then throw (JsError "JWT_SECRET is not defined in environment variables")
                else
                  match jwt_verify env (match token with Some t => t | None => "" end) secret with
                  | None => throw (JsError "invalid token")
                  | Some uid => next (withUser req uid)
                  end
            end
    end
  catch err => json 401 (Message "Unauthorized").

Inductive Route : Type :=
| GetHealth
| PostAuthRegister
| PostAuthLogin
| GetMe
| GetCities
| PostCities
| GetCitiesSuggest
| DeleteCitiesId
| PatchCitiesIdFavorite
| GetCitiesIdWeather
| PostAiInsights.

Definition app (env : Env) (route : Route) (req : Request) : M Response :=
  match route with
  | GetHealth => json 200 (Message "ok")
  | PostAuthRegister => AuthController.register env req
  | PostAuthLogin => AuthController.login env req
  | GetMe =>
      authMiddleware env req
        (fun r => match user r with
                  | None => json 401 (Message "Unauthorized")
                  | Some uid => json 200 (MeJson uid)
                  end)
  | GetCities => authMiddleware env req (CityController.listCities env)
  | PostCities => authMiddleware env req (CityController.createCity env)
  | GetCitiesSuggest => authMiddleware env req (CityController.suggestCities env)
  | DeleteCitiesId => authMiddleware env req (CityController.deleteCity env)
  | PatchCitiesIdFavorite => authMiddleware env req (CityController.toggleFavorite env)
  | GetCitiesIdWeather => authMiddleware env req (CityController.getCityWeather env)
  | PostAiInsights => authMiddleware env req (AiController.getInsights env)
  end.

Definition emptyWorld : World := mkWorld (mkDb [] []) 0%N [].

(** The worlds the server can be in: it starts with empty collections and
    serves requests one after the other, whatever the third parties
    answer. *)
Inductive reachable : World -> Prop :=
| reach_start : reachable emptyWorld
| reach_request : forall w env route req,
    reachable w -> reachable (snd (app env route req w)).

Unset Implicit Arguments.
(* ===================================================================== *)
(** ** Vocabulary of the statements *)
(* ===================================================================== *)

(** The world after one more outgoing request. *)
Definition logCall (w : World) (c : ExtCall) : World :=
  mkWorld (db w) (nextObjectId w) (calls w ++ [c]).

(** The world after one more ObjectId was drawn. *)
Definition drawId (w : World) : World :=
  mkWorld (db w) (N.succ (nextObjectId w)) (calls w).

Definition withCities (w : World) (l : list ICity) : World :=
  mkWorld (mkDb l (users (db w))) (nextObjectId w) (calls w).

Definition hasApiKey (env : Env) : bool := JS.truthyStr (OPENWEATHER_API_KEY env).

Definition keyMissing : Exn :=
  JsError "OPENWEATHER_API_KEY is not defined in environment variables".

(** The [q] parameter of the geocoding request. *)
Definition geoQuery (nm : string) (countryCode : option string) : string :=
  match countryCode with
  | Some cc => if cc =? "" then nm else nm ++ "," ++ cc
  | None => nm
  end.

(** The document [createCityForUser] builds in world [w]. *)
Definition newCity (w : World) (u : ObjectId) (p : CityRepository.Payload) : ICity :=
  mkCity (nextObjectId w) u (CityRepository.p_name p)
         (JS.toLowerCase (CityRepository.p_nameNormalized p))
         (CityRepository.p_country p) (CityRepository.p_apiCityId p) false.

(** The index key and the validity of the document a payload gives. *)
Definition payloadKey (u : ObjectId) (p : CityRepository.Payload)
  : ObjectId * string * option string :=
  (u, JS.toLowerCase (CityRepository.p_nameNormalized p), CityRepository.p_country p).

Definition payloadValid (p : CityRepository.Payload) : bool :=
  negb (CityRepository.p_name p =? "")
  && negb (JS.toLowerCase (CityRepository.p_nameNormalized p) =? "").

(** The [q] parameter of the weather request that validates a payload. *)
Definition payloadQuery (p : CityRepository.Payload) : string :=
  if JS.truthyStr (CityRepository.p_country p)
  then CityRepository.p_name p ++ ","
       ++ match CityRepository.p_country p with Some c => c | None => "" end
  else CityRepository.p_name p.

Definition rejection : Response :=
  mkResponse 400 (Message "We couldn't load weather for this city. It may not exist or be supported.").

Definition hasKey (l : list ICity) (k : ObjectId * string * option string) : bool :=
  existsb (fun c' => CityModel.keyEqb (CityModel.indexKey c') k) l.

(** What holds of the City collection in every world the server reaches. *)
Record Inv (w : World) : Prop := mkInv {
  inv_bound : Forall (fun c => (city_id c < nextObjectId w)%N) (cities (db w));
  inv_ids : NoDup (map city_id (cities (db w)));
  inv_unique : NoDup (map CityModel.indexKey (cities (db w)));
  inv_normalized :
    Forall (fun c => nameNormalized c = JS.toLowerCase (name c)) (cities (db w))
}.

(** The writes a single request can perform. *)
Inductive effect (w w' : World) : Prop :=
| eff_none :
    db w' = db w -> (nextObjectId w <= nextObjectId w')%N -> effect w w'
| eff_insert (c : ICity) :
    db w' = mkDb (cities (db w) ++ [c]) (users (db w)) ->
    ~ In (CityModel.indexKey c) (map CityModel.indexKey (cities (db w))) ->
    nameNormalized c = JS.toLowerCase (name c) ->
    (nextObjectId w <= city_id c)%N -> (city_id c < nextObjectId w')%N ->
    effect w w'
| eff_delete (cid uid : ObjectId) :
    db w' = mkDb (CityModel.removeFirst (CityModel.matches cid uid) (cities (db w)))
                 (users (db w)) ->
    (nextObjectId w <= nextObjectId w')%N -> effect w w'
| eff_favorite (cid uid : ObjectId) (v : bool) :
    db w' = mkDb (snd (CityModel.updateFirst (CityModel.matches cid uid)
                         (CityModel.setFavorite v) (cities (db w))))
                 (users (db w)) ->
    (nextObjectId w <= nextObjectId w')%N -> effect w w'
| eff_user (u : IUser) :
    db w' = mkDb (cities (db w)) (users (db w) ++ [u]) ->
    (nextObjectId w <= nextObjectId w')%N -> effect w w'.

Definition duplicateAnswer : Response :=
  mkResponse 400 (Message "City already exists in your list").

(** The geocoder's answers that [resolveExactCity] keeps for a typed name. *)
Definition exactMatches (nm : string) (raw : list ResolvedLocation) : list ResolvedLocation :=
  filter (GeoService.isExact (JS.toLowerCase (JS.trim nm))) raw.

(** Document [c] was built from an exact match of the geocoder's answer to
    the request. *)
Definition createdFrom (env : Env) (req : Request) (c : ICity) : Prop :=
  exists uid raw best,
    user req = Some uid
    /\ ObjectId_parse uid = Some (userId c)
    /\ geo_direct env (geoQuery (CityController.normalizedName req)
                                (CityController.normalizedCountry req)) = Ok raw
    /\ In best (exactMatches (CityController.normalizedName req) raw)
    /\ name c = loc_name best
    /\ nameNormalized c = JS.toLowerCase (loc_name best)
    /\ isFavorite c = false.

(** The upper-cased country of an answer, when it has one. *)
Definition countryCode (m : ResolvedLocation) : option string :=
  option_map JS.toUpperCase (loc_country m).

Definition headNotSpace (s : string) : Prop :=
  match s with
  | EmptyString => True
  | String c _ => JS.isSpace c = false
  end.



Definition storedUser (w : World) (e : string) : option IUser :=
  find (fun u => email u =? e) (users (db w)).

(** The line [getInsights] pushes for a city, if its weather loads. *)
Definition loadedLine (env : Env) (c : ICity) : list string :=
  match fst ((w <- WeatherService.fetchWeatherForCity env c ;;
              AiController.weatherLine w) emptyWorld) with
  | Ok line => [line]
  | Throw _ => []
  end.

Definition loadedLines (env : Env) (l : list ICity) : list string :=
  flat_map (loadedLine env) l.

(** Whether the weather validation of [createCity] refuses on this answer. *)
Definition reportsNotFound (r : Result WeatherData) : bool :=
  match r with
  | Ok _ => false
  | Throw e => CityController.cityNotFound e
  end.

(** The environment with another weather service. *)
Definition withWeather (env : Env) (f : string -> Result WeatherData) : Env :=
  mkEnv (OPENWEATHER_API_KEY env) (GEMINI_API_KEY env) (JWT_SECRET env)
        (geo_direct env) f (generate_content env)
        (bcrypt_hash env) (bcrypt_compare env) (jwt_sign env) (jwt_verify env).

(** The cities [listCitiesForUser] returns, newest first. *)
Definition citiesOf (w : World) (u : ObjectId) : list ICity :=
  rev (filter (fun c => N.eqb (userId c) u) (cities (db w))).








(* ===================================================================== *)
(** ** A sample deployment, for running the handlers *)
(* ===================================================================== *)

Module Sample.

Definition alice : string := "aaaaaaaaaaaaaaaaaaaaaaaa".
Definition bob : string := "bbbbbbbbbbbbbbbbbbbbbbbb".

Definition locations (q : string) : Result (list ResolvedLocation) :=
  if q =? "Paris" then
    Ok [ mkLocation "Paris" (Some "FR") (4885 # 100) (235 # 100);
         mkLocation "Paris" (Some "US") (3366 # 100) (-9555 # 100);
         mkLocation "Parish" (Some "US") (4340 # 100) (-7612 # 100) ]
  else if q =? "Paris,FR" then
    Ok [ mkLocation "Paris" (Some "FR") (4885 # 100) (235 # 100) ]
  else if q =? "oslo" then
    Ok [ mkLocation "Oslo" (Some "NO") (5991 # 100) (1075 # 100) ]
  else if q =? "Lima" then
    Ok [ mkLocation "Lima" (Some "PE") (-1204 # 100) (-7702 # 100) ]
  else if q =? "Atlantis" then
    Ok [ mkLocation "Atlanta" (Some "US") (3374 # 100) (-8438 # 100) ]
  else if q =? "Thule" then
    Ok [ mkLocation "Thule" (Some "GL") (7646 # 100) (-6882 # 100) ]
  else Ok [].

Definition notFound : Exn :=
  AxiosError (Some (mkHttpError 404 (Some (JS.JStr "404")) (Some (JS.JStr "city not found")))).

Definition unavailable : Exn :=
  AxiosError (Some (mkHttpError 503 None None)).

Definition weather (q : string) : Result WeatherData :=
  if q =? "Oslo,NO" then Ok (mkWeather "Oslo" (Some "NO") (Some (-35 # 10)) "snow" "13d")
  else if q =? "Paris,FR" then Ok (mkWeather "Paris" (Some "FR") (Some (123 # 10)) "clear sky" "01d")
  else if q =? "Lima,PE" then Throw unavailable
  else Throw notFound.

Definition hash (password : string) : string := "$2a$10$" ++ password.

Definition env : Env :=
  mkEnv (Some "openweather-key") None (Some "jwt-secret")
        locations weather (fun _ => Throw (AxiosError None))
        hash (fun password h => h =? hash password)
        (fun uid secret => secret ++ "." ++ uid)
        (fun token secret =>
           if prefix (secret ++ ".") token
           then Some (substring (String.length secret + 1) (String.length token) token)
           else None).

Definition blank : Request :=
  mkRequest None None "" None None None None None None None None.

(** [POST /cities] with a name and an optional country, past the guard. *)
Definition createReq (uid nm : string) (ctry : option string) : Request :=
  mkRequest None (Some uid) "" None None (Some nm) ctry None None None None.

(** The same request as it reaches the server, with its bearer token. *)
Definition signedCreateReq (uid nm : string) (ctry : option string) : Request :=
  mkRequest (Some ("Bearer jwt-secret." ++ uid)) None "" None None (Some nm) ctry
            None None None None.

(** [DELETE /cities/:id], past the guard. *)
Definition deleteReq (uid id : string) : Request :=
  mkRequest None (Some uid) id None None None None None None None None.

(** [PATCH /cities/:id/favorite], past the guard. *)
Definition favoriteReq (uid id : string) (v : option JS.JVal) : Request :=
  mkRequest None (Some uid) id None None None None v None None None.

(** [POST /ai/insights], past the guard. *)
Definition insightsReq (uid question : string) : Request :=
  mkRequest None (Some uid) "" None None None None None (Some question) None None.

(** [POST /auth/login] *)
Definition loginReq (e password : option string) : Request :=
  mkRequest None None "" None None None None None None e password.

(** Alice has saved Oslo. *)
Definition world1 : World :=
  Eval vm_compute in snd (CityController.createCity env (createReq alice " oslo " None) emptyWorld).

Definition oslo : ICity :=
  mkCity 1%N (hexValue 0%N alice) "Oslo" "oslo" (Some "NO") None false.

Definition osloId : string := "000000000000000000000001".

(** Alice has saved Oslo, then Lima, whose weather is unavailable. *)
Definition world2 : World :=
  Eval vm_compute in snd (CityController.createCity env (createReq alice "Lima" None) world1).

Definition lima : ICity :=
  mkCity 3%N (hexValue 0%N alice) "Lima" "lima" (Some "PE") None false.

Definition carol : IUser :=
  mkUser 7%N "Carol" "carol@example.org" (hash "correct horse").

Definition world3 : World := mkWorld (mkDb [] [carol]) 8%N [].

End Sample.

(* ===================================================================== *)
(** ** Vocabulary for the guard, the accounts and the routes *)
(* ===================================================================== *)

(** A string in which a character does not occur. *)
Definition lacks (sep : ascii) (s : string) : bool :=
  JS.forallb_string (fun c => negb (Ascii.eqb c sep)) s.

(** A string without the separator of the Authorization header. *)
Definition noSpace (s : string) : bool := lacks " " s.

(** What may follow the token in the header: nothing, or a space and
    anything. *)
Definition spaceAhead (s : string) : Prop :=
  match s with
  | EmptyString => True
  | String c _ => c = " "%char
  end.

(** The routes mounted behind [authMiddleware]. *)
Definition guarded (route : Route) : bool :=
  match route with
  | GetHealth | PostAuthRegister | PostAuthLogin => false
  | _ => true
  end.

(** The request with another Authorization header. *)
Definition withAuthorization (req : Request) (h : option string) : Request :=
  mkRequest h (user req) (params_id req) (query_name req)
            (query_country req) (body_name req) (body_country req)
            (body_isFavorite req) (body_question req) (body_email req) (body_password req).

Definition unauthorized (m : string) : Response := mkResponse 401 (Message m).

(** The account [registerUser] stores in world [w]. *)
Definition newUser (env : Env) (w : World) (nm e password : string) : IUser :=
  mkUser (nextObjectId w) nm e (bcrypt_hash env password).

(** The world after an account was appended. *)
Definition withUserAdded (w : World) (u : IUser) : World :=
  mkWorld (mkDb (cities (db w)) (users (db w) ++ [u])) (N.succ (nextObjectId w)) (calls w).

(** The required fields of an account are filled in. *)
Definition filledIn (u : IUser) : Prop :=
  user_name u <> "" /\ email u <> "" /\ passwordHash u <> "".

(** [POST /auth/register] *)
Definition registerReq (nm e password : option string) : Request :=
  mkRequest None None "" None None nm None None None e password.

(** The worlds the server gets to from [w] by serving further requests. *)
Inductive later (w : World) : World -> Prop :=
| later_now : later w w
| later_request : forall w' env route req,
    later w w' -> later w (snd (app env route req w')).

Definition serverError : Response := mkResponse 500 (Message "Internal server error").

Definition cityMissing : Response := mkResponse 404 (Message "City not found").

(** The test of [getCityWeather] on what the weather call threw:
    [status === 404 || code === 404]. *)
Definition weatherMissing (err : Exn) : bool :=
  match err with
  | AxiosError (Some r) => (err_status r =? 404)%nat || JS.strictEqNum (err_cod r) (404 # 1)
  | _ => false
  end.

(** The answer of [getCityWeather] to what the weather call gave. *)
Definition weatherAnswer (r : Result WeatherData) : Response :=
  match r with
  | Ok d => mkResponse 200 (WeatherJson d)
  | Throw e =>
      if weatherMissing e
      then mkResponse 404 (Message
             "Weather data not found for this city. Please check the name and country code.")
      else mkResponse 502 (Message "Failed to fetch weather data from provider")
  end.

(** The collection without the document of a given id. *)
Definition without (cid : ObjectId) (l : list ICity) : list ICity :=
  filter (fun d => negb (N.eqb (city_id d) cid)) l.

(** [GET /cities/:id/weather], past the guard. *)
Definition weatherReq (uid id : string) : Request :=
  mkRequest None (Some uid) id None None None None None None None None.

(** [GET /cities], past the guard. *)
Definition listReq (uid : string) : Request :=
  mkRequest None (Some uid) "" None None None None None None None None.


(** The country [createCity] stores for an answer of the geocoder. *)
Definition storedCountry (m : ResolvedLocation) : option string :=
  if JS.truthyStr (loc_country m) then option_map JS.toUpperCase (loc_country m) else None.

(** The document [createCity] stores in world [w] for owner [u] and the
    answer [best] of the geocoder. *)
Definition cityFor (w : World) (u : ObjectId) (best : ResolvedLocation) : ICity :=
  mkCity (N.succ (nextObjectId w)) u (loc_name best) (JS.toLowerCase (loc_name best))
         (storedCountry best) None false.




(** The cities of the users other than [u]. *)
Definition othersOf (w : World) (u : ObjectId) : list ICity :=
  filter (fun c => negb (N.eqb (userId c) u)) (cities (db w)).


(** The routes that only read the store. *)
Definition readOnly (route : Route) : bool :=
  match route with
  | GetHealth | PostAuthLogin | GetMe | GetCities | GetCitiesSuggest
  | GetCitiesIdWeather | PostAiInsights => true
  | PostAuthRegister | PostCities | DeleteCitiesId | PatchCitiesIdFavorite => false
  end.

(** The routes that send nothing to a third party. *)
Definition localOnly (route : Route) : bool :=
  match route with
  | GetHealth | PostAuthRegister | PostAuthLogin | GetMe | GetCities
  | DeleteCitiesId | PatchCitiesIdFavorite => true
  | PostCities | GetCitiesSuggest | GetCitiesIdWeather | PostAiInsights => false
  end.

(** The outgoing weather requests for a list of cities, in order. *)
Definition weatherCalls (env : Env) (l : list ICity) : list ExtCall :=
  if hasApiKey env then map (fun c => WeatherCurrent (WeatherService.query c)) l else [].

(** The outgoing request of [getAiInsight], when a key is configured. *)
Definition insightCalls (env : Env) (question weatherSummary : string) : list ExtCall :=
  if JS.truthyStr (GEMINI_API_KEY env)
  then [GenerateContent (AiService.buildPrompt question weatherSummary)]
  else [].

Definition noInsight : string := "I couldn't generate insights right now.".





(** The documents of [u], in the order of the collection. *)
Definition ownedBy (u : ObjectId) (l : list ICity) : list ICity :=
  filter (fun c => N.eqb (userId c) u) l.

(* ===================================================================== *)
(** ** frontend/src/app/dashboard/page.tsx: the list of the dashboard *)
(* ===================================================================== *)

Module Dashboard.

(** The dashboard keeps the cities as the server sent them:
    [{ id, name, country?, isFavorite }]. *)
Definition City : Type := CityView.

(** [setCities((prev) => [city, ...prev])] of [handleAddCity] *)
Definition afterAdd (city : City) (prev : list City) : list City := city :: prev.

(** [setCities((prev) => prev.filter((c) => c.id !== cityId))] of
    [handleDeleteCity] *)
Definition afterDelete (cityId : string) (prev : list City) : list City :=
  filter (fun c => negb (view_id c =? cityId)) prev.

(** [setCities((prev) => prev.map((c) => (c.id === city.id ? updated : c)))]
    of [handleToggleFavorite] *)
Definition afterToggle (city updated : City) (prev : list City) : list City :=
  map (fun c => if view_id c =? view_id city then updated else c) prev.

(** The body [handleToggleFavorite] sends: [{ isFavorite: !city.isFavorite }] *)
Definition toggleBody (city : City) : option JS.JVal :=
  Some (JS.JBool (negb (view_isFavorite city))).

End Dashboard.

(** What [GET /cities] shows a user. *)
Definition shownTo (w : World) (u : ObjectId) : list CityView :=
  map CityController.view (citiesOf w u).

(* ===================================================================== *)
(** ** frontend/src/lib/api.ts *)
(* ===================================================================== *)

Module Api.





(** The Authorization header the helper adds for a token. *)
Definition authorizationFor (token : option string) : option string :=
  match token with
  | Some t => if t =? "" then None else Some ("Bearer " ++ t)
  | None => None
  end.


End Api.


(* ===================================================================== *)
(** ** The sample deployment with a generative provider *)
(* ===================================================================== *)

Module Scenario.

(** The provider answers with two candidates; the first has three parts,
    one of them without text. *)
Definition gemini (prompt : string) : Result GeminiResponse :=
  Ok (mkGemini
        (Some [ mkCandidate (Some [ mkPart (Some " Oslo is coldest.");
                                    mkPart None;
                                    mkPart (Some "Pack a coat. ") ]);
                mkCandidate (Some [ mkPart (Some "Lima is warmest.") ]) ])).

Definition env : Env :=
  mkEnv (Some "openweather-key") (Some "gemini-key") (Some "jwt-secret")
        Sample.locations Sample.weather gemini
        Sample.hash (bcrypt_compare Sample.env) (jwt_sign Sample.env) (jwt_verify Sample.env).

(** The sample deployment without its OpenWeather key. *)
Definition keyless : Env :=
  mkEnv None None (Some "jwt-secret")
        Sample.locations Sample.weather (generate_content Sample.env)
        Sample.hash (bcrypt_compare Sample.env) (jwt_sign Sample.env) (jwt_verify Sample.env).

(** The store of [Sample.world2] when Bob has saved a city as well. *)
Definition quito : ICity :=
  mkCity 2%N (hexValue 0%N Sample.bob) "Quito" "quito" (Some "EC") None true.

Definition shared : World :=
  withCities Sample.world2 (quito :: cities (db Sample.world2)).

(** A request of Alice that every city and AI route can read. *)
Definition aliceReq : Request :=
  mkRequest None (Some Sample.alice) Sample.osloId (Some "Paris") None (Some "Paris")
            None (Some (JS.JBool true)) (Some "Which is coldest?") None None.

End Scenario.
(* ===================================================================== *)
(** ** Facts about the primitives *)
(* ===================================================================== *)

Lemma lowerChar_idem (c : ascii) : JS.lowerChar (JS.lowerChar c) = JS.lowerChar c.
Proof. destruct c as [[] [] [] [] [] [] [] []]; reflexivity. Qed.

Lemma toLowerCase_idem (s : string) : JS.toLowerCase (JS.toLowerCase s) = JS.toLowerCase s.
Proof.
  unfold JS.toLowerCase.
  induction s as [|c s IH]; simpl; [reflexivity|].
  now rewrite lowerChar_idem, IH.
Qed.

Lemma toLowerCase_empty (s : string) : JS.toLowerCase s = "" -> s = "".
Proof. destruct s; simpl; [reflexivity | discriminate]. Qed.

Lemma strictEqOpt_eq (a b : option string) : strictEqOpt a b = true <-> a = b.
Proof.
  destruct a as [x|], b as [y|]; simpl; try (split; congruence).
  rewrite String.eqb_eq. split; congruence.
Qed.

Lemma keyEqb_eq (a b : ObjectId * string * option string) :
  CityModel.keyEqb a b = true <-> a = b.
Proof.
  destruct a as [[u1 n1] c1], b as [[u2 n2] c2]; unfold CityModel.keyEqb.
  rewrite !andb_true_iff, N.eqb_eq, String.eqb_eq, strictEqOpt_eq.
  split; [intros [[-> ->] ->]; reflexivity | intros [= -> -> ->]; auto].
Qed.

Lemma key_absent (k : ObjectId * string * option string) (l : list ICity) :
  existsb (fun c' => CityModel.keyEqb (CityModel.indexKey c') k) l = false ->
  ~ In k (map CityModel.indexKey l).
Proof.
  intros H Hin. apply in_map_iff in Hin as (c & Hk & Hc).
  assert (existsb (fun c' => CityModel.keyEqb (CityModel.indexKey c') k) l = true) as E.
  { apply existsb_exists. exists c. split; [assumption|]. now apply keyEqb_eq. }
  congruence.
Qed.

Lemma key_present (k : ObjectId * string * option string) (l : list ICity) :
  In k (map CityModel.indexKey l) ->
  existsb (fun c' => CityModel.keyEqb (CityModel.indexKey c') k) l = true.
Proof.
  intros Hin. apply in_map_iff in Hin as (c & Hk & Hc).
  apply existsb_exists. exists c. split; [assumption|]. now apply keyEqb_eq.
Qed.

Section ListOps.

Variable p : ICity -> bool.

Lemma removeFirst_incl (l : list ICity) (c : ICity) :
  In c (CityModel.removeFirst p l) -> In c l.
Proof.
  induction l as [|d l IH]; simpl; [tauto|].
  destruct (p d); simpl; intuition.
Qed.

Lemma removeFirst_NoDup {K} (f : ICity -> K) (l : list ICity) :
  NoDup (map f l) -> NoDup (map f (CityModel.removeFirst p l)).
Proof.
  induction l as [|d l IH]; simpl; intros H; [assumption|].
  inversion H as [|? ? Hd Hl]; subst.
  destruct (p d); simpl; [assumption|].
  constructor; [|auto].
  intros Hin. apply Hd. apply in_map_iff in Hin as (c & <- & Hc).
  apply in_map. eapply removeFirst_incl; eassumption.
Qed.

Lemma removeFirst_Forall (P : ICity -> Prop) (l : list ICity) :
  Forall P l -> Forall P (CityModel.removeFirst p l).
Proof.
  rewrite !Forall_forall. intros H c Hc. apply H. now apply removeFirst_incl.
Qed.

Lemma removeFirst_none (l : list ICity) :
  (forall c, In c l -> p c = false) -> CityModel.removeFirst p l = l.
Proof.
  induction l as [|d l IH]; simpl; intros H; [reflexivity|].
  rewrite (H d) by auto. f_equal. apply IH. auto.
Qed.

Variable f : ICity -> ICity.

Lemma updateFirst_map {K} (g : ICity -> K) (l : list ICity) :
  (forall c, g (f c) = g c) ->
  map g (snd (CityModel.updateFirst p f l)) = map g l.
Proof.
  intros Hg. induction l as [|d l IH]; simpl; [reflexivity|].
  destruct (p d); simpl; [now rewrite Hg|].
  destruct (CityModel.updateFirst p f l) as [r l']; simpl in *. now rewrite IH.
Qed.

Lemma updateFirst_Forall (P : ICity -> Prop) (l : list ICity) :
  (forall c, P c -> P (f c)) ->
  Forall P l -> Forall P (snd (CityModel.updateFirst p f l)).
Proof.
  intros HP. induction l as [|d l IH]; simpl; intros H; [constructor|].
  inversion H; subst.
  destruct (p d); simpl; [constructor; auto|].
  destruct (CityModel.updateFirst p f l) as [r l']; simpl in *. constructor; auto.
Qed.

Lemma updateFirst_none (l : list ICity) :
  (forall c, In c l -> p c = false) -> CityModel.updateFirst p f l = (None, l).
Proof.
  induction l as [|d l IH]; simpl; intros H; [reflexivity|].
  rewrite (H d) by auto. rewrite IH by auto. reflexivity.
Qed.

(** Updating twice with a function that keeps the filter and is
    idempotent is updating once. *)
Lemma updateFirst_twice (l : list ICity) :
  (forall c, p (f c) = p c) -> (forall c, f (f c) = f c) ->
  CityModel.updateFirst p f (snd (CityModel.updateFirst p f l))
  = CityModel.updateFirst p f l.
Proof.
  intros Hp Hf. induction l as [|d l IH]; simpl; [reflexivity|].
  destruct (p d) eqn:E; simpl.
  - now rewrite Hp, E, Hf.
  - destruct (CityModel.updateFirst p f l) as [r l'] eqn:E'; simpl in *.
    now rewrite E, IH.
Qed.

End ListOps.

(* ===================================================================== *)
(** ** How the building blocks run *)
(* ===================================================================== *)

Lemma ObjectId_of_run (s : string) (w : World) :
  ObjectId_of s w
  = (match ObjectId_parse s with Some o => Ok o | None => Throw BSONError end, w).
Proof. unfold ObjectId_of. destruct (ObjectId_parse s); reflexivity. Qed.

Lemma geo_getApiConfig_run (env : Env) (w : World) :
  GeoService.getApiConfig env w
  = (if hasApiKey env
     then Ok (match OPENWEATHER_API_KEY env with Some k => k | None => "" end)
     else Throw keyMissing, w).
Proof.
  unfold GeoService.getApiConfig, hasApiKey, JS.truthyStr.
  destruct (OPENWEATHER_API_KEY env) as [k|]; [|reflexivity].
  destruct (k =? ""); reflexivity.
Qed.

Lemma weather_getApiConfig_run (env : Env) (w : World) :
  WeatherService.getApiConfig env w
  = (if hasApiKey env
     then Ok (match OPENWEATHER_API_KEY env with Some k => k | None => "" end)
     else Throw keyMissing, w).
Proof.
  unfold WeatherService.getApiConfig, hasApiKey, JS.truthyStr.
  destruct (OPENWEATHER_API_KEY env) as [k|]; [|reflexivity].
  destruct (k =? ""); reflexivity.
Qed.

Lemma map_location_id (l : list ResolvedLocation) :
  map (fun item => mkLocation (loc_name item) (loc_country item) (lat item) (lon item)) l = l.
Proof. induction l as [|[] l IH]; simpl; [reflexivity | now rewrite IH]. Qed.

Lemma resolveExactCity_run (env : Env) (nm : string) (cc : option string) (w : World) :
  GeoService.resolveExactCity env nm cc w
  = if hasApiKey env
    then match geo_direct env (geoQuery nm cc) with
         | Ok raw =>
             (Ok (filter (GeoService.isExact (JS.toLowerCase (JS.trim nm))) raw),
              logCall w (GeoDirect (geoQuery nm cc)))
         | Throw e => (Throw e, logCall w (GeoDirect (geoQuery nm cc)))
         end
    else (Throw keyMissing, w).
Proof.
  unfold GeoService.resolveExactCity, GeoService.resolveCity, bind.
  rewrite geo_getApiConfig_run. fold (geoQuery nm cc).
  destruct (hasApiKey env); [|reflexivity].
  unfold httpCall, ret, logCall.
  destruct (geo_direct env (geoQuery nm cc)); [|reflexivity].
  now rewrite map_location_id.
Qed.

Lemma fetchWeatherForCity_run (env : Env) (c : ICity) (w : World) :
  WeatherService.fetchWeatherForCity env c w
  = if hasApiKey env
    then (weather_current env (WeatherService.query c),
          logCall w (WeatherCurrent (WeatherService.query c)))
    else (Throw keyMissing, w).
Proof.
  unfold WeatherService.fetchWeatherForCity, bind.
  rewrite weather_getApiConfig_run.
  destruct (hasApiKey env); reflexivity.
Qed.

Lemma validateWeather_run (env : Env) (p : CityRepository.Payload) (w : World) :
  CityController.validateWeather env p w
  = match ObjectId_parse (CityRepository.p_userId p) with
    | None => (Ok None, drawId w)
    | Some u =>
        if hasApiKey env
        then (match weather_current env (payloadQuery p) with
              | Ok _ => Ok None
              | Throw e => if CityController.cityNotFound e then Ok (Some rejection) else Ok None
              end, logCall (drawId w) (WeatherCurrent (payloadQuery p)))
        else (Ok None, drawId w)
    end.
Proof.
  unfold CityController.validateWeather, tryCatch, bind, ObjectId_fresh.
  rewrite ObjectId_of_run. fold (drawId w).
  destruct (ObjectId_parse (CityRepository.p_userId p)) as [u|]; [|reflexivity].
  rewrite fetchWeatherForCity_run.
  change (WeatherService.query _) with (payloadQuery p).
  destruct (hasApiKey env); [|reflexivity].
  destruct (weather_current env _) as [d|e]; [reflexivity|].
  unfold ret, rejection. destruct (CityController.cityNotFound e); reflexivity.
Qed.

Lemma createCityForUser_run (p : CityRepository.Payload) (w : World) :
  CityRepository.createCityForUser p w
  = match ObjectId_parse (CityRepository.p_userId p) with
    | None => (Throw BSONError, w)
    | Some u =>
        if negb (payloadValid p) then (Throw ValidationError, drawId w)
        else if hasKey (cities (db w)) (payloadKey u p) then (Throw DuplicateKeyError, drawId w)
        else (Ok (newCity w u p), withCities (drawId w) (cities (db w) ++ [newCity w u p]))
    end.
Proof.
  unfold CityRepository.createCityForUser, bind. rewrite ObjectId_of_run.
  destruct (ObjectId_parse (CityRepository.p_userId p)) as [u|]; [|reflexivity].
  unfold CityModel.create, bind, ObjectId_fresh, ret. fold (newCity w u p). cbv zeta.
  unfold CityModel.save.
  change (CityModel.validate (newCity w u p)) with (payloadValid p).
  destruct (negb (payloadValid p)); [reflexivity|].
  unfold bind, getDb. cbn [db].
  change (existsb _ (cities (db w))) with (hasKey (cities (db w)) (payloadKey u p)).
  destruct (hasKey _ _); reflexivity.
Qed.

Lemma saveValidated_run (env : Env) (p : CityRepository.Payload) (w : World) :
  CityController.saveValidated env p w
  = match ObjectId_parse (CityRepository.p_userId p) with
    | None => (Throw BSONError, drawId w)
    | Some u =>
        let w1 := if hasApiKey env
                  then logCall (drawId w) (WeatherCurrent (payloadQuery p))
                  else drawId w in
        if hasApiKey env && reportsNotFound (weather_current env (payloadQuery p))
        then (Ok rejection, w1)
        else if negb (payloadValid p) then (Throw ValidationError, drawId w1)
        else if hasKey (cities (db w)) (payloadKey u p)
             then (Throw DuplicateKeyError, drawId w1)
             else (Ok (mkResponse 201 (CityJson (CityController.view (newCity w1 u p)))),
                   withCities (drawId w1) (cities (db w) ++ [newCity w1 u p]))
    end.
Proof.
  unfold CityController.saveValidated, bind. rewrite validateWeather_run.
  destruct (ObjectId_parse (CityRepository.p_userId p)) as [u|] eqn:Eu.
  - destruct (hasApiKey env); cbn [andb].
    + destruct (weather_current env (payloadQuery p)) as [d|e]; cbn [reportsNotFound].
      * rewrite createCityForUser_run, Eu. cbv zeta.
        destruct (negb (payloadValid p)); [reflexivity|].
        cbn [db logCall drawId]. destruct (hasKey _ _); reflexivity.
      * destruct (CityController.cityNotFound e); [reflexivity|].
        rewrite createCityForUser_run, Eu. cbv zeta.
        destruct (negb (payloadValid p)); [reflexivity|].
        cbn [db logCall drawId]. destruct (hasKey _ _); reflexivity.
    + rewrite createCityForUser_run, Eu. cbv zeta.
      destruct (negb (payloadValid p)); [reflexivity|].
      cbn [db logCall drawId]. destruct (hasKey _ _); reflexivity.
  - rewrite createCityForUser_run, Eu. reflexivity.
Qed.

Lemma db_logCall (w : World) (c : ExtCall) : db (logCall w c) = db w.
Proof. reflexivity. Qed.

Lemma db_drawId (w : World) : db (drawId w) = db w.
Proof. reflexivity. Qed.

Lemma nextObjectId_logCall (w : World) (c : ExtCall) :
  nextObjectId (logCall w c) = nextObjectId w.
Proof. reflexivity. Qed.

Lemma updateCityFavoriteForUser_run (cityId uid : string) (v : bool) (w : World) :
  CityRepository.updateCityFavoriteForUser cityId uid v w
  = match ObjectId_parse cityId, ObjectId_parse uid with
    | Some c, Some u =>
        let r := CityModel.updateFirst (CityModel.matches c u) (CityModel.setFavorite v)
                   (cities (db w)) in
        (Ok (fst r), withCities w (snd r))
    | _, _ => (Throw BSONError, w)
    end.
Proof.
  unfold CityRepository.updateCityFavoriteForUser, bind. rewrite ObjectId_of_run.
  destruct (ObjectId_parse cityId) as [c|]; [|reflexivity].
  rewrite ObjectId_of_run.
  destruct (ObjectId_parse uid) as [u|]; [|reflexivity].
  unfold CityModel.findOneAndUpdate, bind, getDb. cbv zeta.
  destruct (CityModel.updateFirst _ _ _) as [r l]; reflexivity.
Qed.

Lemma deleteCityForUser_run (cityId uid : string) (w : World) :
  CityRepository.deleteCityForUser cityId uid w
  = match ObjectId_parse cityId, ObjectId_parse uid with
    | Some c, Some u =>
        (Ok tt, withCities w (CityModel.removeFirst (CityModel.matches c u) (cities (db w))))
    | _, _ => (Throw BSONError, w)
    end.
Proof.
  unfold CityRepository.deleteCityForUser, bind. rewrite ObjectId_of_run.
  destruct (ObjectId_parse cityId) as [c|]; [|reflexivity].
  rewrite ObjectId_of_run.
  destruct (ObjectId_parse uid) as [u|]; reflexivity.
Qed.

Lemma listCitiesForUser_run (uid : string) (w : World) :
  CityRepository.listCitiesForUser uid w
  = match ObjectId_parse uid with
    | Some u => (Ok (rev (filter (fun c => N.eqb (userId c) u) (cities (db w)))), w)
    | None => (Throw BSONError, w)
    end.
Proof.
  unfold CityRepository.listCitiesForUser, bind. rewrite ObjectId_of_run.
  destruct (ObjectId_parse uid); reflexivity.
Qed.

Lemma findCityByIdForUser_run (cityId uid : string) (w : World) :
  CityRepository.findCityByIdForUser cityId uid w
  = match ObjectId_parse cityId, ObjectId_parse uid with
    | Some c, Some u => (Ok (find (CityModel.matches c u) (cities (db w))), w)
    | _, _ => (Throw BSONError, w)
    end.
Proof.
  unfold CityRepository.findCityByIdForUser, bind. rewrite ObjectId_of_run.
  destruct (ObjectId_parse cityId) as [c|]; [|reflexivity].
  rewrite ObjectId_of_run.
  destruct (ObjectId_parse uid) as [u|]; reflexivity.
Qed.

(** Stepping through a handler: rewrite with the run equations, then split
    on the next test the handler makes. *)
Ltac run_block :=
  first
    [ rewrite resolveExactCity_run
    | rewrite saveValidated_run
    | rewrite validateWeather_run
    | rewrite createCityForUser_run
    | rewrite updateCityFavoriteForUser_run
    | rewrite deleteCityForUser_run
    | rewrite listCitiesForUser_run
    | rewrite fetchWeatherForCity_run ].

Ltac split_on x :=
  lazymatch x with
  | context [match _ with _ => _ end] => fail
  | hasKey _ _ => destruct x eqn:?
  | hasApiKey _ => destruct x eqn:?
  | context [reportsNotFound] => destruct x eqn:?
  | ObjectId_parse _ => destruct x eqn:?
  | user _ => destruct x eqn:?
  | geo_direct _ _ => destruct x eqn:?
  | weather_current _ _ => destruct x eqn:?
  | filter _ _ => destruct x eqn:?
  | _ => destruct x
  end.

Ltac split_test :=
  match goal with
  | |- context [match ?x with _ => _ end] => split_on x
  | |- context [if ?x then _ else _] => split_on x
  end.

Ltac use_parsed :=
  repeat match goal with
         | H : ObjectId_parse ?s = _ |- context [ObjectId_parse ?s] => rewrite H
         | H : hasApiKey ?e = _ |- context [hasApiKey ?e] => rewrite H
         end.

Ltac use_known :=
  repeat match goal with
         | H : ?x = _ |- context [match ?x with _ => _ end] => rewrite H
         | H : ?x = _ |- context [if ?x then _ else _] => rewrite H
         end.

Ltac run_handler :=
  unfold tryCatch, bind, json, ret, throw;
  cbv beta iota zeta; cbn [fst snd];
  repeat (first [run_block; rewrite ?db_logCall, ?db_drawId; use_parsed
                | progress use_known
                | split_test];
          cbv beta iota zeta; cbn [fst snd]).

Lemma createCity_effect (env : Env) (req : Request) (w : World) :
  effect w (snd (CityController.createCity env req w)).
Proof.
  unfold CityController.createCity.
  run_handler.
  all: try (apply eff_none; cbn; [reflexivity | lia]).
  all: match goal with
       | H : hasKey _ _ = false |- effect _ (withCities _ (_ ++ [?c])%list) =>
           apply (@eff_insert _ _ c);
           [ reflexivity
           | apply key_absent; exact H
           | cbn; now rewrite toLowerCase_idem
           | cbn; lia
           | cbn; lia ]
       end.
Qed.

Lemma deleteCity_effect (env : Env) (req : Request) (w : World) :
  effect w (snd (CityController.deleteCity env req w)).
Proof.
  unfold CityController.deleteCity.
  run_handler.
  all: try (apply eff_none; cbn; [reflexivity | lia]).
  all: match goal with
       | |- effect _ (withCities _ (CityModel.removeFirst (CityModel.matches ?c ?u) _)) =>
           apply (@eff_delete _ _ c u); cbn; [reflexivity | lia]
       end.
Qed.

Lemma toggleFavorite_effect (env : Env) (req : Request) (w : World) :
  effect w (snd (CityController.toggleFavorite env req w)).
Proof.
  unfold CityController.toggleFavorite.
  run_handler.
  all: try (apply eff_none; cbn; [reflexivity | lia]).
  all: match goal with
       | |- effect _ (withCities _ (snd (CityModel.updateFirst (CityModel.matches ?c ?u)
                                          (CityModel.setFavorite ?v) _))) =>
           apply (@eff_favorite _ _ c u v); cbn; [reflexivity | lia]
       end.
Qed.

Lemma listCities_effect (env : Env) (req : Request) (w : World) :
  effect w (snd (CityController.listCities env req w)).
Proof.
  unfold CityController.listCities.
  run_handler.
  all: apply eff_none; cbn; [reflexivity | lia].
Qed.

Lemma suggestCities_effect (env : Env) (req : Request) (w : World) :
  effect w (snd (CityController.suggestCities env req w)).
Proof.
  unfold CityController.suggestCities.
  run_handler.
  all: apply eff_none; cbn; [reflexivity | lia].
Qed.

Lemma getCityWeather_effect (env : Env) (req : Request) (w : World) :
  effect w (snd (CityController.getCityWeather env req w)).
Proof.
  unfold CityController.getCityWeather, tryCatch, bind, json, ret.
  destruct (user req) as [uid|]; [|apply eff_none; cbn; [reflexivity | lia]].
  rewrite findCityByIdForUser_run.
  run_handler.
  all: apply eff_none; cbn; [reflexivity | lia].
Qed.

Lemma collectLines_frame (env : Env) (l : list ICity) :
  forall (lines : list string) (w : World),
    db (snd (AiController.collectLines env l lines w)) = db w
    /\ nextObjectId (snd (AiController.collectLines env l lines w)) = nextObjectId w.
Proof.
  induction l as [|c l IH]; intros lines w; [split; reflexivity|].
  cbn [AiController.collectLines]. unfold bind, tryCatch.
  rewrite fetchWeatherForCity_run.
  destruct (hasApiKey env); [|apply IH].
  destruct (weather_current env (WeatherService.query c)) as [d|e].
  - unfold AiController.weatherLine.
    destruct (temperature d); cbn;
      match goal with
      | |- context [AiController.collectLines env l ?x ?y] => destruct (IH x y) as [-> ->]
      end; split; reflexivity.
  - cbn. match goal with
         | |- context [AiController.collectLines env l ?x ?y] => destruct (IH x y) as [-> ->]
         end. split; reflexivity.
Qed.

Lemma getAiInsight_frame (env : Env) (q s : string) (w : World) :
  db (snd (AiService.getAiInsight env q s w)) = db w
  /\ nextObjectId (snd (AiService.getAiInsight env q s w)) = nextObjectId w.
Proof.
  unfold AiService.getAiInsight.
  destruct (negb (JS.truthyStr (GEMINI_API_KEY env))); [split; reflexivity|].
  unfold tryCatch, bind, httpCall, ret.
  destruct (generate_content env _); split; reflexivity.
Qed.

(** [getAiInsight] catches whatever the provider call throws. *)
Lemma getAiInsight_total (env : Env) (q s : string) (w : World) :
  exists r, fst (AiService.getAiInsight env q s w) = Ok r.
Proof.
  unfold AiService.getAiInsight.
  destruct (negb (JS.truthyStr (GEMINI_API_KEY env))); [eexists; reflexivity|].
  unfold tryCatch, bind, httpCall, ret.
  destruct (generate_content env _); eexists; reflexivity.
Qed.

Lemma getInsights_effect (env : Env) (req : Request) (w : World) :
  effect w (snd (AiController.getInsights env req w)).
Proof.
  unfold AiController.getInsights.
  destruct (user req) as [uid|]; [|apply eff_none; cbn; [reflexivity | lia]].
  destruct (_ || _); [apply eff_none; cbn; [reflexivity | lia]|].
  unfold tryCatch, bind. rewrite listCitiesForUser_run.
  destruct (ObjectId_parse uid) as [u|]; [|apply eff_none; cbn; [reflexivity | lia]].
  destruct (rev _) as [|c l] eqn:E; [apply eff_none; cbn; [reflexivity | lia]|].
  destruct (AiController.collectLines env (c :: l) [] w) as [[lines|e] w1] eqn:E1.
  - pose proof (collectLines_frame env (c :: l) [] w) as [Hd Hn]. rewrite E1 in Hd, Hn.
    cbn [snd] in Hd, Hn.
    destruct (AiService.getAiInsight env _ _ w1) as [[r|e] w2] eqn:E2;
      pose proof (getAiInsight_frame env
                    (JS.trim match body_question req with Some q => q | None => "" end)
                    (JS.join AiService.newline lines) w1) as [Hd2 Hn2];
      rewrite E2 in Hd2, Hn2; cbn [snd] in Hd2, Hn2;
      apply eff_none; cbn; [congruence | lia | congruence | lia].
  - pose proof (collectLines_frame env (c :: l) [] w) as [Hd Hn]. rewrite E1 in Hd, Hn.
    cbn [snd] in Hd, Hn. apply eff_none; cbn; [congruence | lia].
Qed.

Lemma login_effect (env : Env) (req : Request) (w : World) :
  effect w (snd (AuthController.login env req w)).
Proof.
  unfold AuthController.login, AuthService.loginUser, AuthService.getJwtSecret,
    UserRepository.findUserByEmail, UserModel.findOne, getDb.
  run_handler.
  all: apply eff_none; cbn; [reflexivity | lia].
Qed.

Lemma register_effect (env : Env) (req : Request) (w : World) :
  effect w (snd (AuthController.register env req w)).
Proof.
  unfold AuthController.register, AuthService.registerUser,
    UserRepository.findUserByEmail, UserRepository.createUser,
    UserModel.findOne, UserModel.create, getDb, putDb, ObjectId_fresh.
  run_handler.
  all: try (apply eff_none; cbn; [reflexivity | lia]).
  all: match goal with
       | |- effect _ {| db := {| cities := _; users := (_ ++ [?u])%list |} |} =>
           apply (@eff_user _ _ u); cbn; [reflexivity | lia]
       end.
Qed.

(** The middleware either answers itself or hands over to the handler. *)
Lemma authMiddleware_world (env : Env) (req : Request) (next : Request -> M Response)
      (w : World) :
  snd (authMiddleware env req next w) = w
  \/ exists uid, snd (authMiddleware env req next w) = snd (next (withUser req uid) w).
Proof.
  unfold authMiddleware, tryCatch, json, ret, throw.
  destruct (authorization req) as [h|]; [|left; reflexivity].
  destruct (h =? ""); [left; reflexivity|].
  destruct (_ || _); [left; reflexivity|].
  destruct (JWT_SECRET env) as [s|]; [|left; reflexivity].
  destruct (s =? ""); [left; reflexivity|].
  destruct (jwt_verify env _ s) as [uid|]; [|left; reflexivity].
  right. exists uid. destruct (next (withUser req uid) w) as [[r|e] w']; reflexivity.
Qed.

Lemma effect_refl (w : World) : effect w w.
Proof. apply eff_none; [reflexivity | lia]. Qed.

Lemma app_effect (env : Env) (route : Route) (req : Request) (w : World) :
  effect w (snd (app env route req w)).
Proof.
  destruct route; cbn [app];
    try match goal with
        | |- effect _ (snd (authMiddleware ?e ?r ?n ?w)) =>
            destruct (authMiddleware_world e r n w) as [-> | [uid ->]];
            [apply effect_refl|]
        end.
  - apply effect_refl.
  - apply register_effect.
  - apply login_effect.
  - cbn. apply effect_refl.
  - apply listCities_effect.
  - apply createCity_effect.
  - apply suggestCities_effect.
  - apply deleteCity_effect.
  - apply toggleFavorite_effect.
  - apply getCityWeather_effect.
  - apply getInsights_effect.
Qed.

Lemma NoDup_snoc {A} (l : list A) (a : A) :
  NoDup l -> ~ In a l -> NoDup (l ++ [a]).
Proof.
  induction l as [|b l IH]; cbn; intros H Hn.
  - constructor; [tauto | constructor].
  - inversion H; subst. constructor.
    + rewrite in_app_iff. cbn. intuition (subst; auto).
    + apply IH; [assumption | tauto].
Qed.

Lemma effect_Inv (w w' : World) : effect w w' -> Inv w -> Inv w'.
Proof.
  intros E [Hb Hi Hu Hn]. destruct E as [Hd Hle | c Hd Hk Hnorm Hlo Hhi | cid uid Hd Hle
                                        | cid uid v Hd Hle | u Hd Hle].
  - constructor; rewrite Hd; auto.
    eapply Forall_impl; [|exact Hb]. cbn. intros; lia.
  - constructor; rewrite Hd; cbn [cities].
    + apply Forall_app. split.
      * eapply Forall_impl; [|exact Hb]. cbn. intros; lia.
      * constructor; [assumption | constructor].
    + rewrite map_app. cbn. apply NoDup_snoc; [assumption|].
      intros Hin. apply in_map_iff in Hin as (d & Hd' & Hin).
      rewrite Forall_forall in Hb. specialize (Hb d Hin). cbn in Hb. lia.
    + rewrite map_app. cbn. apply NoDup_snoc; assumption.
    + apply Forall_app. split; [assumption | constructor; [assumption | constructor]].
  - constructor; rewrite Hd; cbn [cities].
    + apply removeFirst_Forall. eapply Forall_impl; [|exact Hb]. cbn. intros; lia.
    + now apply removeFirst_NoDup.
    + now apply removeFirst_NoDup.
    + now apply removeFirst_Forall.
  - constructor; rewrite Hd; cbn [cities].
    + apply updateFirst_Forall; [intros d; cbn; trivial|].
      eapply Forall_impl; [|exact Hb]. cbn. intros; lia.
    + rewrite updateFirst_map; [assumption | reflexivity].
    + rewrite updateFirst_map; [assumption | reflexivity].
    + apply updateFirst_Forall; [intros d; cbn; trivial | assumption].
  - constructor; rewrite Hd; cbn [cities]; auto.
    eapply Forall_impl; [|exact Hb]. cbn. intros; lia.
Qed.

Lemma reachable_Inv (w : World) : reachable w -> Inv w.
Proof.
  induction 1 as [|w env route req _ IH].
  - constructor; cbn; constructor.
  - eapply effect_Inv; [apply app_effect | exact IH].
Qed.

Lemma snoc_neq {A} (l : list A) (a : A) : l <> (l ++ [a])%list.
Proof.
  intros H. apply (f_equal (@List.length A)) in H.
  rewrite length_app in H. cbn in H. lia.
Qed.

Lemma createCity_duplicate (env : Env) (req : Request) (w0 w : World) (c : ICity) :
  cities (db (snd (CityController.createCity env req w0))) = (cities (db w0) ++ [c])%list ->
  In (CityModel.indexKey c) (map CityModel.indexKey (cities (db w))) ->
  fst (CityController.createCity env req w) = Ok duplicateAnswer
  /\ db (snd (CityController.createCity env req w)) = db w.
Proof.
  unfold CityController.createCity.
  run_handler.
  all: cbn [db cities withCities drawId logCall].
  all: intros H0 Hin.
  all: try (exfalso; exact (snoc_neq _ _ H0)).
  all: try (split; reflexivity).
  all: apply app_inv_head in H0; injection H0 as <-.
  all: apply key_present in Hin.
  all: match goal with
       | H : hasKey ?l ?k = false |- _ =>
           exfalso; assert (E : hasKey l k = true) by exact Hin; congruence
       end.
Qed.

Lemma hd_filter_In {A} (p : A -> bool) (l : list A) (x : A) (t : list A) :
  filter p l = x :: t -> In x l /\ p x = true.
Proof.
  intros H. assert (In x (filter p l)) as Hin by (rewrite H; left; reflexivity).
  now apply filter_In in Hin.
Qed.

(** Either [createCity] answers without writing, or it answers 201 and has
    appended one document built from an exact match. *)
Lemma createCity_outcome (env : Env) (req : Request) (w : World) :
  (exists resp, fst (CityController.createCity env req w) = Ok resp
                /\ status resp <> 201%nat
                /\ db (snd (CityController.createCity env req w)) = db w)
  \/ (exists c, fst (CityController.createCity env req w)
                = Ok (mkResponse 201 (CityJson (CityController.view c)))
                /\ db (snd (CityController.createCity env req w))
                   = mkDb (cities (db w) ++ [c]) (users (db w))
                /\ hasKey (cities (db w)) (CityModel.indexKey c) = false
                /\ createdFrom env req c).
Proof.
  unfold CityController.createCity, createdFrom, exactMatches.
  run_handler.
  all: try (left; eexists; split; [reflexivity | split; [cbn; lia | reflexivity]]).
  all: right; eexists; split; [reflexivity | split; [reflexivity | split; [assumption|]]].
  all: cbn [userId name nameNormalized isFavorite newCity
            CityRepository.p_name CityRepository.p_nameNormalized].
  all: do 3 eexists; split; [reflexivity | split; [eassumption | split; [reflexivity|]]].
  all: split; [| split; [reflexivity | split; [apply toLowerCase_idem | reflexivity]]].
  all: match goal with
       | H : filter _ _ = ?r :: _ |- In ?r _ =>
           first [ rewrite H; left; reflexivity
                 | apply hd_filter_In in H; destruct H; assumption ]
       end.
Qed.

(* ===================================================================== *)
(** ** Trimming and case *)
(* ===================================================================== *)

Lemma trimStart_head (s : string) : headNotSpace (JS.trimStart s).
Proof.
  induction s as [|c s IH]; cbn; [exact I|].
  destruct (JS.isSpace c) eqn:E; [exact IH | exact E].
Qed.





Lemma mapString_empty (f : ascii -> ascii) (s : string) :
  (JS.mapString f s =? "") = (s =? "").
Proof. destruct s; reflexivity. Qed.





(* ===================================================================== *)
(** ** The claims *)
(* ===================================================================== *)


(** C1.  For every user, no two saved city documents share the same
    (owner, normalized name, country) triple: in every world the server
    reaches the keys of the unique compound index are pairwise distinct;
    and a [createCity] request that would insert a document (it does so in
    some world [w0]) is, in any world [w] that already holds a document
    with the same triple, answered 400 "City already exists in your list"
    without writing. *)
Theorem C1_unique_city_key :
  (forall w, reachable w -> NoDup (map CityModel.indexKey (cities (db w))))
  /\ (forall env req w0 w c,
        cities (db (snd (CityController.createCity env req w0)))
        = (cities (db w0) ++ [c])%list ->
        In (CityModel.indexKey c) (map CityModel.indexKey (cities (db w))) ->
        fst (CityController.createCity env req w)
        = Ok (mkResponse 400 (Message "City already exists in your list"))
        /\ db (snd (CityController.createCity env req w)) = db w).
Proof.
  split.
  - intros w Hw. apply inv_unique. now apply reachable_Inv.
  - intros env req w0 w c. apply createCity_duplicate.
Qed.

Lemma C1_unique_city_key_witness :
  NoDup (map CityModel.indexKey (cities (db Sample.world1)))
  /\ fst (CityController.createCity Sample.env
            (Sample.createReq Sample.alice " oslo " None) Sample.world1)
     = Ok (mkResponse 400 (Message "City already exists in your list"))
  /\ db (snd (CityController.createCity Sample.env
                (Sample.createReq Sample.alice " oslo " None) Sample.world1))
     = db Sample.world1.
Proof.
  destruct C1_unique_city_key as [H1 H2]. split.
  - apply H1.
    exact (reach_request Sample.env PostCities
             (Sample.signedCreateReq Sample.alice " oslo " None) reach_start).
  - apply (H2 Sample.env (Sample.createReq Sample.alice " oslo " None)
              emptyWorld Sample.world1 Sample.oslo).
    + vm_compute. reflexivity.
    + vm_compute. left. reflexivity.
Defined.





(** C3.  A [createCity] request whose country field, trimmed and
    upper-cased, is non-empty and is not two ASCII letters is answered 400
    with one of the handler's two fixed validation messages, before any
    outgoing request and without touching the store; through the route
    [POST /cities] the world is left as it was whether or not the guard
    lets the request in. *)
Theorem C3_malformed_country_rejected
        (env : Env) (req : Request) (w : World) (c : string) :
  body_country req = Some c ->
  JS.toUpperCase (JS.trim c) <> "" ->
  JS.testTwoLetters (JS.toUpperCase (JS.trim c)) = false ->
  (forall uid,
      user req = Some uid ->
      let r := CityController.createCity env req w in
      (fst r = Ok (mkResponse 400 (Message "Country code must be a valid 2-letter ISO code"))
       \/ fst r = Ok (mkResponse 400 (Message "City name is required")))
      /\ calls (snd r) = calls w
      /\ db (snd r) = db w)
  /\ (let r := app env PostCities req w in
      snd r = w
      /\ exists m, fst r = Ok (mkResponse 400 (Message m))
                   \/ fst r = Ok (mkResponse 401 (Message m))).
Proof.
  intros Hc Hne Ht.
  assert (forall rq uid,
             body_country rq = Some c -> user rq = Some uid ->
             (fst (CityController.createCity env rq w)
              = Ok (mkResponse 400 (Message "Country code must be a valid 2-letter ISO code"))
              \/ fst (CityController.createCity env rq w)
                 = Ok (mkResponse 400 (Message "City name is required")))
             /\ snd (CityController.createCity env rq w) = w) as Hhandler.
  { intros rq uid Hc' Hu.
    unfold CityController.createCity, tryCatch, json, ret.
    rewrite Hu.
    destruct (_ || _); [cbn; split; [right; reflexivity | reflexivity]|].
    unfold CityController.normalizedCountry. rewrite Hc'.
    assert (JS.trim c <> "") as Htrim.
    { intros E. apply Hne. rewrite E. reflexivity. }
    assert (c <> "") as Hc0.
    { intros E. apply Htrim. rewrite E. reflexivity. }
    apply String.eqb_neq in Htrim, Hc0. apply String.eqb_neq in Hne.
    assert (JS.truthyStr (Some c) && JS.truthyStr (option_map JS.trim (Some c)) = true) as E1.
    { cbn. now rewrite Hc0, Htrim. }
    rewrite E1. cbn [option_map].
    assert (JS.truthyStr (Some (JS.toUpperCase (JS.trim c)))
            && negb (JS.testTwoLetters (JS.toUpperCase (JS.trim c))) = true) as E2.
    { cbn. now rewrite Hne, Ht. }
    rewrite E2. cbn. split; [left; reflexivity | reflexivity]. }
  split.
  - intros uid Hu. cbv zeta.
    destruct (Hhandler req uid Hc Hu) as [Hr Hw]. rewrite Hw. auto.
  - cbv zeta. cbn [app].
    unfold authMiddleware, tryCatch, json, ret, throw.
    destruct (authorization req) as [h|]; [|split; [reflexivity | eexists; right; reflexivity]].
    destruct (h =? ""); [split; [reflexivity | eexists; right; reflexivity]|].
    destruct (_ || _); [split; [reflexivity | eexists; right; reflexivity]|].
    destruct (JWT_SECRET env) as [s|]; [|split; [reflexivity | eexists; right; reflexivity]].
    destruct (s =? ""); [split; [reflexivity | eexists; right; reflexivity]|].
    destruct (jwt_verify env _ s) as [uid|];
      [|split; [reflexivity | eexists; right; reflexivity]].
    destruct (Hhandler (withUser req uid) uid Hc eq_refl) as [Hr Hw].
    destruct (CityController.createCity env (withUser req uid) w) as [[resp|e] w'];
      cbn [fst snd] in *; subst w'.
    + split; [reflexivity|].
      destruct Hr as [Hr | Hr]; injection Hr as ->; eexists; left; reflexivity.
    + destruct Hr as [Hr | Hr]; discriminate Hr.
Qed.

Lemma C3_malformed_country_rejected_witness :
  fst (CityController.createCity Sample.env
         (Sample.createReq Sample.alice "Paris" (Some " fra ")) Sample.world1)
  = Ok (mkResponse 400 (Message "Country code must be a valid 2-letter ISO code"))
  /\ calls (snd (CityController.createCity Sample.env
                   (Sample.createReq Sample.alice "Paris" (Some " fra ")) Sample.world1))
     = calls Sample.world1.
Proof.
  destruct (C3_malformed_country_rejected Sample.env
              (Sample.createReq Sample.alice "Paris" (Some " fra ")) Sample.world1
              " fra " eq_refl) as [H _].
  - vm_compute. discriminate.
  - reflexivity.
  - destruct (H Sample.alice eq_refl) as ([Hr | Hr] & Hcalls & _).
    + split; [exact Hr | exact Hcalls].
    + vm_compute in Hr. discriminate Hr.
Defined.

Lemma matches_setFavorite (cid uid : ObjectId) (v : bool) (c : ICity) :
  CityModel.matches cid uid (CityModel.setFavorite v c) = CityModel.matches cid uid c.
Proof. reflexivity. Qed.

Lemma setFavorite_idem (v : bool) (c : ICity) :
  CityModel.setFavorite v (CityModel.setFavorite v c) = CityModel.setFavorite v c.
Proof. reflexivity. Qed.

(** C4.  Setting the favorite flag is idempotent: a second identical call
    of [updateCityFavoriteForUser] returns what the first returned and
    leaves the world as the first left it; so does a second identical
    request to the handler. *)
Theorem C4_favorite_idempotent (env : Env) (req : Request)
        (cityId uid : string) (v : bool) (w : World) :
  (let first := CityRepository.updateCityFavoriteForUser cityId uid v w in
   let second := CityRepository.updateCityFavoriteForUser cityId uid v (snd first) in
   fst second = fst first /\ snd second = snd first)
  /\ (let first := CityController.toggleFavorite env req w in
      let second := CityController.toggleFavorite env req (snd first) in
      fst second = fst first /\ snd second = snd first).
Proof.
  assert (forall c u b w0,
             CityRepository.updateCityFavoriteForUser c u b
               (snd (CityRepository.updateCityFavoriteForUser c u b w0))
             = CityRepository.updateCityFavoriteForUser c u b w0) as Hrepo.
  { intros c u b w0. rewrite !updateCityFavoriteForUser_run.
    destruct (ObjectId_parse c) as [cid|]; [|reflexivity].
    destruct (ObjectId_parse u) as [o|]; [|reflexivity].
    cbn [snd fst withCities db cities users].
    rewrite updateFirst_twice by (intros; reflexivity).
    reflexivity. }
  split.
  - cbv zeta. now rewrite Hrepo.
  - cbv zeta. unfold CityController.toggleFavorite, tryCatch, bind, json, ret.
    destruct (user req) as [u|]; [|split; reflexivity].
    destruct (CityRepository.updateCityFavoriteForUser (params_id req) u
                (JS.truthy (body_isFavorite req)) w) as [[[c|]|e] w1] eqn:E1;
      cbn [snd fst];
      pose proof (Hrepo (params_id req) u (JS.truthy (body_isFavorite req)) w) as H;
      rewrite E1 in H; cbn [snd] in H; rewrite H; split; reflexivity.
Qed.

(** Under unique ids, the update reaches the document with the given id
    and owner and no other. *)
Lemma updateFirst_byId (cid uid : ObjectId) (f : ICity -> ICity) (l : list ICity) (c : ICity) :
  (forall d, city_id (f d) = city_id d) ->
  NoDup (map city_id l) -> In c l -> city_id c = cid -> userId c = uid ->
  CityModel.updateFirst (CityModel.matches cid uid) f l
  = (Some (f c), map (fun d => if N.eqb (city_id d) cid then f d else d) l).
Proof.
  intros Hf. induction l as [|d l IH]; cbn; intros Hnd Hin Hc Hu; [tauto|].
  inversion Hnd as [|? ? Hd Hl]; subst.
  unfold CityModel.matches at 1.
  destruct Hin as [->|Hin].
  - rewrite !N.eqb_refl. cbn. f_equal. f_equal.
    rewrite <- (map_id l) at 1. apply map_ext_in. intros d Hd'.
    destruct (N.eqb (city_id d) (city_id c)) eqn:E; [|reflexivity].
    apply N.eqb_eq in E. exfalso. apply Hd. rewrite <- E. now apply in_map.
  - assert (N.eqb (city_id d) (city_id c) = false) as E.
    { apply N.eqb_neq. intros E. apply Hd. rewrite E. now apply in_map. }
    rewrite E. cbn. rewrite IH by auto. reflexivity.
Qed.

Lemma matches_none (cid uid : ObjectId) (l : list ICity) (c : ICity) :
  NoDup (map city_id l) -> In c l -> city_id c = cid -> userId c <> uid ->
  forall d, In d l -> CityModel.matches cid uid d = false.
Proof.
  intros Hnd Hin Hc Hu d Hd. unfold CityModel.matches.
  destruct (N.eqb (city_id d) cid) eqn:E; [|reflexivity].
  apply N.eqb_eq in E. cbn. apply N.eqb_neq. intros E'.
  assert (d = c) as ->; [|congruence].
  clear Hu E'. subst cid. induction l as [|x l IH]; [contradiction|].
  inversion Hnd as [|? ? Hx Hl]; subst. cbn in Hin, Hd.
  destruct Hin as [->|Hin], Hd as [->|Hd]; auto.
  - exfalso. apply Hx. rewrite <- E. now apply in_map.
  - exfalso. apply Hx. rewrite E. now apply in_map.
Qed.

(** C10.  The favorite endpoint sets the flag to the boolean coercion of
    the body's [isFavorite]: for the owner of a saved city the answer is
    200 with the city's view, the stored flag is the coercion whatever it
    was before, no other document changes, and a missing, null or
    otherwise falsy value coerces to [false]. *)
Theorem C10_favorite_sets_coerced_flag
        (env : Env) (req : Request) (w : World) (uid : string) (c : ICity) :
  user req = Some uid ->
  ObjectId_parse uid = Some (userId c) ->
  ObjectId_parse (params_id req) = Some (city_id c) ->
  NoDup (map city_id (cities (db w))) ->
  In c (cities (db w)) ->
  let v := JS.truthy (body_isFavorite req) in
  let r := CityController.toggleFavorite env req w in
  fst r = Ok (mkResponse 200 (CityJson (CityController.view (CityModel.setFavorite v c))))
  /\ cities (db (snd r))
     = map (fun d => if N.eqb (city_id d) (city_id c) then CityModel.setFavorite v d else d)
           (cities (db w))
  /\ In (CityModel.setFavorite v c) (cities (db (snd r)))
  /\ (body_isFavorite req = None -> v = false)
  /\ (body_isFavorite req = Some JS.JNull -> v = false)
  /\ (body_isFavorite req = Some (JS.JBool false) -> v = false)
  /\ (body_isFavorite req = Some (JS.JNum 0) -> v = false)
  /\ (body_isFavorite req = Some (JS.JStr "") -> v = false)
  /\ (forall b, body_isFavorite req = Some (JS.JBool b) -> v = b)
  /\ (forall s, s <> "" -> body_isFavorite req = Some (JS.JStr s) -> v = true).
Proof.
  intros Hu Hp Hc Hnd Hin v r. subst r.
  set (v0 := JS.truthy (body_isFavorite req)) in *.
  assert (cities (db (snd (CityController.toggleFavorite env req w)))
          = map (fun d => if N.eqb (city_id d) (city_id c) then CityModel.setFavorite v d else d)
                (cities (db w))
          /\ fst (CityController.toggleFavorite env req w)
             = Ok (mkResponse 200 (CityJson (CityController.view (CityModel.setFavorite v c)))))
    as [Hs Hr].
  { unfold CityController.toggleFavorite, tryCatch, bind, json, ret.
    rewrite Hu, updateCityFavoriteForUser_run, Hc, Hp. cbv zeta. fold v0. fold v.
    rewrite (updateFirst_byId (city_id c) (userId c) (CityModel.setFavorite v) (cities (db w)) c)
      by (auto; intros; reflexivity).
    cbn. split; reflexivity. }
  split; [exact Hr | split; [exact Hs | split]].
  - rewrite Hs. apply in_map_iff. exists c. rewrite N.eqb_refl. auto.
  - subst v v0. repeat split; try (intros ->; reflexivity).
    + intros b ->. reflexivity.
    + intros s Hs' ->. cbn. apply String.eqb_neq in Hs'. now rewrite Hs'.
Qed.

Lemma C10_favorite_sets_coerced_flag_witness :
  fst (CityController.toggleFavorite Sample.env
         (Sample.favoriteReq Sample.alice Sample.osloId None) Sample.world1)
  = Ok (mkResponse 200 (CityJson (mkView Sample.osloId "Oslo" (Some "NO") false)))
  /\ fst (CityController.toggleFavorite Sample.env
            (Sample.favoriteReq Sample.alice Sample.osloId (Some (JS.JStr "yes"))) Sample.world1)
     = Ok (mkResponse 200 (CityJson (mkView Sample.osloId "Oslo" (Some "NO") true))).
Proof.
  split.
  - refine (proj1 (C10_favorite_sets_coerced_flag Sample.env
                     (Sample.favoriteReq Sample.alice Sample.osloId None) Sample.world1
                     Sample.alice Sample.oslo eq_refl eq_refl eq_refl _ _)).
    + vm_compute. constructor; [intros [] | constructor].
    + vm_compute. left. reflexivity.
  - refine (proj1 (C10_favorite_sets_coerced_flag Sample.env
                     (Sample.favoriteReq Sample.alice Sample.osloId (Some (JS.JStr "yes")))
                     Sample.world1 Sample.alice Sample.oslo eq_refl eq_refl eq_refl _ _)).
    + vm_compute. constructor; [intros [] | constructor].
    + vm_compute. left. reflexivity.
Defined.

Lemma withCities_same (w : World) : withCities w (cities (db w)) = w.
Proof. destruct w as [[cs us] n l]. reflexivity. Qed.

(** C5, as the code has it.  A request by a user who does not own the
    city matches no document: the store is left as it was; the favorite
    update answers 404 "City not found", while DELETE answers 204, as it
    does for a city it removed. *)
Theorem C5_not_owned_is_noop
        (env : Env) (req : Request) (w : World) (uid : string) (u : ObjectId) (c : ICity) :
  user req = Some uid ->
  ObjectId_parse uid = Some u ->
  ObjectId_parse (params_id req) = Some (city_id c) ->
  NoDup (map city_id (cities (db w))) ->
  In c (cities (db w)) ->
  userId c <> u ->
  (fst (CityController.deleteCity env req w) = Ok (mkResponse 204 NoBody)
   /\ snd (CityController.deleteCity env req w) = w)
  /\ (fst (CityController.toggleFavorite env req w)
      = Ok (mkResponse 404 (Message "City not found"))
      /\ snd (CityController.toggleFavorite env req w) = w).
Proof.
  intros Hu Hp Hc Hnd Hin Hne.
  pose proof (matches_none (city_id c) u (cities (db w)) c Hnd Hin eq_refl Hne) as Hnone.
  split.
  - unfold CityController.deleteCity, tryCatch, bind, json, ret.
    rewrite Hu, deleteCityForUser_run, Hc, Hp.
    rewrite removeFirst_none by exact Hnone.
    rewrite withCities_same. split; reflexivity.
  - unfold CityController.toggleFavorite, tryCatch, bind, json, ret.
    rewrite Hu, updateCityFavoriteForUser_run, Hc, Hp. cbv zeta.
    rewrite updateFirst_none by exact Hnone.
    cbn [fst snd]. rewrite withCities_same. split; reflexivity.
Qed.

Lemma C5_not_owned_is_noop_witness :
  fst (CityController.deleteCity Sample.env
         (Sample.deleteReq Sample.bob Sample.osloId) Sample.world1)
  = Ok (mkResponse 204 NoBody)
  /\ fst (CityController.toggleFavorite Sample.env
            (Sample.deleteReq Sample.bob Sample.osloId) Sample.world1)
     = Ok (mkResponse 404 (Message "City not found")).
Proof.
  assert (NoDup (map city_id (cities (db Sample.world1)))) as Hnd.
  { vm_compute. constructor; [intros [] | constructor]. }
  assert (In Sample.oslo (cities (db Sample.world1))) as Hin.
  { vm_compute. left. reflexivity. }
  assert (userId Sample.oslo <> hexValue 0 Sample.bob) as Hne.
  { vm_compute. discriminate. }
  destruct (C5_not_owned_is_noop Sample.env (Sample.deleteReq Sample.bob Sample.osloId)
              Sample.world1 Sample.bob (hexValue 0 Sample.bob) Sample.oslo
              eq_refl eq_refl eq_refl Hnd Hin Hne) as [[H1 _] [H2 _]].
  split; assumption.
Defined.

(** C5, the claim as stated, fails: Bob's DELETE of Alice's city is not
    answered 404 but 204. *)
Lemma C5_delete_not_owned_counterexample :
  In Sample.oslo (cities (db Sample.world1))
  /\ ObjectId_parse Sample.alice = Some (userId Sample.oslo)
  /\ Sample.bob <> Sample.alice
  /\ ObjectId_parse Sample.osloId = Some (city_id Sample.oslo)
  /\ fst (CityController.deleteCity Sample.env
            (Sample.deleteReq Sample.bob Sample.osloId) Sample.world1)
     = Ok (mkResponse 204 NoBody)
  /\ forall b, fst (CityController.deleteCity Sample.env
                      (Sample.deleteReq Sample.bob Sample.osloId) Sample.world1)
               <> Ok (mkResponse 404 b).
Proof.
  split; [vm_compute; left; reflexivity|].
  split; [reflexivity|].
  split; [discriminate|].
  split; [reflexivity|].
  split; [reflexivity|].
  intros b. vm_compute. discriminate.
Qed.


Lemma loginUser_run (env : Env) (e pw : string) (w : World) :
  AuthService.loginUser env e pw w
  = (match storedUser w e with
     | None => Throw (JsError "INVALID_CREDENTIALS")
     | Some u =>
         if bcrypt_compare env pw (passwordHash u)
         then if JS.truthyStr (JWT_SECRET env)
              then Ok (jwt_sign env (ObjectId_toString (user_id u))
                         (match JWT_SECRET env with Some s => s | None => "" end), u)
              else Throw (JsError "JWT_SECRET is not defined in environment variables")
         else Throw (JsError "INVALID_CREDENTIALS")
     end, w).
Proof.
  unfold AuthService.loginUser, UserRepository.findUserByEmail, UserModel.findOne,
    AuthService.getJwtSecret, storedUser, bind, getDb, ret, throw.
  destruct (find _ _) as [u|]; [|reflexivity].
  destruct (bcrypt_compare env pw (passwordHash u)); [|reflexivity].
  cbn. destruct (JWT_SECRET env) as [s|]; [|reflexivity].
  cbn. destruct (s =? ""); reflexivity.
Qed.

(** C6, as the code has it.  With a non-empty email and password, if no
    user has that email or the password does not match the stored hash,
    [loginUser] throws INVALID_CREDENTIALS and the endpoint answers 401
    with a message; a missing or empty email or password is answered 400 by
    the endpoint's own guard; and whatever the request, an answer that
    carries a token was given for the password that matches the stored
    hash of the user with that email. *)
Theorem C6_wrong_password_fails :
  (forall env req w e pw,
      body_email req = Some e -> body_password req = Some pw ->
      e <> "" -> pw <> "" ->
      match storedUser w e with
      | None => True
      | Some u => bcrypt_compare env pw (passwordHash u) = false
      end ->
      fst (AuthService.loginUser env e pw w) = Throw (JsError "INVALID_CREDENTIALS")
      /\ fst (AuthController.login env req w)
         = Ok (mkResponse 401 (Message "Invalid email or password"))
      /\ snd (AuthController.login env req w) = w)
  /\ (forall env req w,
        JS.truthyStr (body_email req) = false \/ JS.truthyStr (body_password req) = false ->
        fst (AuthController.login env req w)
        = Ok (mkResponse 400 (Message "email and password are required"))
        /\ snd (AuthController.login env req w) = w)
  /\ (forall env req w code token id nm em,
        fst (AuthController.login env req w) = Ok (mkResponse code (LoginJson token id nm em)) ->
        exists e pw u,
          body_email req = Some e /\ body_password req = Some pw
          /\ storedUser w e = Some u
          /\ bcrypt_compare env pw (passwordHash u) = true).
Proof.
  split; [|split].
  - intros env req w e pw He Hp Hne Hnp Hbad.
    assert (fst (AuthService.loginUser env e pw w) = Throw (JsError "INVALID_CREDENTIALS")) as Hl.
    { rewrite loginUser_run. cbn [fst].
      destruct (storedUser w e) as [u|]; [|reflexivity]. now rewrite Hbad. }
    split; [exact Hl|].
    unfold AuthController.login, tryCatch, bind, json, ret.
    rewrite He, Hp. apply String.eqb_neq in Hne, Hnp.
    cbn [JS.truthyStr]. rewrite Hne, Hnp. cbn [negb orb].
    rewrite loginUser_run in Hl |- *. cbn [fst] in Hl. rewrite Hl.
    cbn. split; reflexivity.
  - intros env req w Hmissing.
    unfold AuthController.login, tryCatch, bind, json, ret.
    assert (negb (JS.truthyStr (body_email req)) || negb (JS.truthyStr (body_password req))
            = true) as E.
    { destruct Hmissing as [-> | ->]; [reflexivity | apply orb_true_r]. }
    rewrite E. split; reflexivity.
  - intros env req w code token id nm em.
    unfold AuthController.login, tryCatch, bind, json, ret, throw.
    destruct (_ || _); [cbn; discriminate|].
    destruct (body_email req) as [e|]; [|cbn; discriminate].
    destruct (body_password req) as [pw|]; [|cbn; discriminate].
    rewrite loginUser_run.
    destruct (storedUser w e) as [u|] eqn:Eu; [|cbn; discriminate].
    destruct (bcrypt_compare env pw (passwordHash u)) eqn:Eb; [|cbn; discriminate].
    intros _. exists e, pw, u. auto.
Qed.

Lemma C6_wrong_password_fails_witness :
  fst (AuthController.login Sample.env
         (Sample.loginReq (Some "carol@example.org") (Some "wrong")) Sample.world3)
  = Ok (mkResponse 401 (Message "Invalid email or password")).
Proof.
  destruct C6_wrong_password_fails as [H _].
  destruct (H Sample.env (Sample.loginReq (Some "carol@example.org") (Some "wrong"))
              Sample.world3 "carol@example.org" "wrong" eq_refl eq_refl) as (_ & H1 & _).
  - discriminate.
  - discriminate.
  - vm_compute. reflexivity.
  - exact H1.
Defined.

(** C6, the claim as stated, fails for the empty password: it does not
    match Carol's stored hash, yet the endpoint answers 400, not 401. *)
Lemma C6_empty_password_counterexample :
  storedUser Sample.world3 "carol@example.org" = Some Sample.carol
  /\ bcrypt_compare Sample.env "" (passwordHash Sample.carol) = false
  /\ fst (AuthService.loginUser Sample.env "carol@example.org" "" Sample.world3)
     = Throw (JsError "INVALID_CREDENTIALS")
  /\ fst (AuthController.login Sample.env
            (Sample.loginReq (Some "carol@example.org") (Some "")) Sample.world3)
     = Ok (mkResponse 400 (Message "email and password are required")).
Proof. repeat (match goal with |- _ /\ _ => split end); vm_compute; reflexivity. Qed.

Lemma collectLines_step (env : Env) (c : ICity) (l : list ICity)
      (acc : list string) (w : World) :
  exists w', AiController.collectLines env (c :: l) acc w
             = AiController.collectLines env l (acc ++ loadedLine env c)%list w'.
Proof.
  cbn [AiController.collectLines]. unfold loadedLine, bind, tryCatch.
  rewrite !fetchWeatherForCity_run.
  destruct (hasApiKey env); [|cbn; rewrite app_nil_r; eexists; reflexivity].
  destruct (weather_current env (WeatherService.query c)) as [d|e];
    [|cbn; rewrite app_nil_r; eexists; reflexivity].
  unfold AiController.weatherLine.
  destruct (temperature d); cbn; [|rewrite app_nil_r]; eexists; reflexivity.
Qed.

Lemma collectLines_run (env : Env) (l : list ICity) :
  forall (acc : list string) (w : World),
    fst (AiController.collectLines env l acc w) = Ok (acc ++ loadedLines env l)%list.
Proof.
  induction l as [|c l IH]; intros acc w.
  - cbn. now rewrite app_nil_r.
  - destruct (collectLines_step env c l acc w) as [w' ->].
    rewrite IH. cbn [loadedLines flat_map]. now rewrite app_assoc.
Qed.

Lemma hasApiKey_withWeather (env : Env) (f : string -> Result WeatherData) :
  hasApiKey (withWeather env f) = hasApiKey env.
Proof. reflexivity. Qed.

Lemma createCity_weather_irrelevant (env : Env) (f : string -> Result WeatherData)
      (req : Request) (w : World) :
  (forall q, reportsNotFound (f q) = reportsNotFound (weather_current env q)) ->
  fst (CityController.createCity (withWeather env f) req w)
  = fst (CityController.createCity env req w)
  /\ db (snd (CityController.createCity (withWeather env f) req w))
     = db (snd (CityController.createCity env req w)).
Proof.
  intros Hf. unfold CityController.createCity.
  unfold tryCatch, bind, json, ret, throw; cbv beta iota zeta.
  destruct (user req) as [uid|]; [|split; reflexivity].
  destruct (_ || _); [split; reflexivity|].
  destruct (_ && _); [split; reflexivity|].
  rewrite !resolveExactCity_run, hasApiKey_withWeather.
  change (geo_direct (withWeather env f)) with (geo_direct env).
  destruct (hasApiKey env) eqn:Hk; [|split; reflexivity].
  destruct (geo_direct env _) as [raw|e]; [|split; reflexivity].
  assert (forall p w1,
             db w1 = db w ->
             let a := CityController.saveValidated (withWeather env f) p w1 in
             let b := CityController.saveValidated env p w1 in
             fst a = fst b /\ db (snd a) = db (snd b)) as Hblock.
  { intros p w1 Hw1. cbv zeta. rewrite !saveValidated_run, hasApiKey_withWeather, Hk.
    change (weather_current (withWeather env f)) with f. rewrite Hf.
    destruct (ObjectId_parse _) as [u|]; [|split; reflexivity].
    cbv zeta. destruct (true && _); [split; reflexivity|].
    destruct (negb _); [split; reflexivity|].
    destruct (hasKey _ _); split; reflexivity. }
  destruct (JS.truthyStr (CityController.normalizedCountry req)).
  - destruct (filter _ (filter _ raw)) as [|best rest]; [split; reflexivity|].
    match goal with
    | |- context [CityController.saveValidated env ?p ?w1] =>
        destruct (Hblock p w1 eq_refl) as [H1 H2]; revert H1 H2;
        destruct (CityController.saveValidated (withWeather env f) p w1) as [[a|e] wa],
                 (CityController.saveValidated env p w1) as [[b|e'] wb]
    end; cbn [fst snd]; intros H1 H2; try discriminate H1; split; congruence.
  - destruct (filter _ raw) as [|best rest]; [split; reflexivity|].
    destruct (1 <? _)%nat; [split; reflexivity|].
    match goal with
    | |- context [CityController.saveValidated env ?p ?w1] =>
        destruct (Hblock p w1 eq_refl) as [H1 H2]; revert H1 H2;
        destruct (CityController.saveValidated (withWeather env f) p w1) as [[a|e] wa],
                 (CityController.saveValidated env p w1) as [[b|e'] wb]
    end; cbn [fst snd]; intros H1 H2; try discriminate H1; split; congruence.
Qed.

Lemma createCity_weather_checked (env : Env) (req : Request) (w : World) (c : ICity) :
  cities (db (snd (CityController.createCity env req w))) = (cities (db w) ++ [c])%list ->
  reportsNotFound (weather_current env (WeatherService.query c)) = false.
Proof.
  unfold CityController.createCity.
  run_handler.
  all: cbn [db cities withCities drawId logCall].
  all: intros H0.
  all: try (exfalso; exact (snoc_neq _ _ H0)).
  all: apply app_inv_head in H0; injection H0 as <-.
  all: match goal with
       | H : true && reportsNotFound ?r = false |- _ => exact H
       end.
Qed.

(** C8, as the code has it.  A failing weather call does not always abort
    the request.  In the AI insights handler a city whose weather cannot
    be loaded is skipped: with a question and at least one saved city the
    answer is 200, computed from the lines of the cities that loaded.  In
    [createCity] the weather validation aborts only when it reports the
    city as not found: a document is never written after such a report,
    the block that validates and saves then answers 400, and apart from
    such a report the answer and the store do not depend on what the
    weather service says. *)
Theorem C8_weather_failures :
  (forall env req w uid u q,
      user req = Some uid -> ObjectId_parse uid = Some u ->
      body_question req = Some q -> JS.trim q <> "" ->
      citiesOf w u <> [] ->
      exists w1 r,
        fst (AiService.getAiInsight env (JS.trim q)
               (JS.join AiService.newline (loadedLines env (citiesOf w u))) w1) = Ok r
        /\ fst (AiController.getInsights env req w)
           = Ok (mkResponse 200 (InsightJson (AiService.answer r) (AiService.usedFallback r))))
  /\ (forall env req w c,
        cities (db (snd (CityController.createCity env req w))) = (cities (db w) ++ [c])%list ->
        reportsNotFound (weather_current env (WeatherService.query c)) = false)
  /\ (forall env p w u,
        ObjectId_parse (CityRepository.p_userId p) = Some u ->
        hasApiKey env = true ->
        reportsNotFound (weather_current env (payloadQuery p)) = true ->
        fst (CityController.saveValidated env p w)
        = Ok (mkResponse 400
                (Message "We couldn't load weather for this city. It may not exist or be supported."))
        /\ db (snd (CityController.saveValidated env p w)) = db w)
  /\ (forall env f req w,
        (forall q, reportsNotFound (f q) = reportsNotFound (weather_current env q)) ->
        fst (CityController.createCity (withWeather env f) req w)
        = fst (CityController.createCity env req w)
        /\ db (snd (CityController.createCity (withWeather env f) req w))
           = db (snd (CityController.createCity env req w))).
Proof.
  split; [|split; [|split]].
  - intros env req w uid u q Hu Hp Hq Ht Hl.
    unfold AiController.getInsights. rewrite Hu, Hq.
    assert (q <> "") as Hq0 by (intros ->; apply Ht; reflexivity).
    apply String.eqb_neq in Ht, Hq0.
    cbn [JS.truthyStr option_map]. rewrite Hq0, Ht. cbn [negb orb].
    unfold tryCatch, bind at 1. rewrite listCitiesForUser_run, Hp.
    fold (citiesOf w u).
    destruct (citiesOf w u) as [|c l] eqn:El; [congruence|].
    unfold bind at 1.
    pose proof (collectLines_run env (c :: l) [] w) as Hc.
    destruct (AiController.collectLines env (c :: l) [] w) as [[lines|e] w1];
      cbn [fst] in Hc; [|discriminate Hc].
    injection Hc as ->. cbn [List.app]. unfold bind.
    destruct (getAiInsight_total env (JS.trim q)
                (JS.join AiService.newline (loadedLines env (c :: l))) w1) as [r Hr].
    exists w1, r. split; [exact Hr|].
    destruct (AiService.getAiInsight env _ _ w1) as [[r'|e] w2]; cbn [fst] in Hr;
      [|discriminate Hr].
    injection Hr as ->. reflexivity.
  - intros env req w c. apply createCity_weather_checked.
  - intros env p w u Hp Hk Hnf. rewrite saveValidated_run, Hp, Hk, Hnf.
    split; reflexivity.
  - intros env f req w. apply createCity_weather_irrelevant.
Qed.

Lemma C8_weather_failures_witness :
  (exists r,
      fst (AiController.getInsights Sample.env
             (Sample.insightsReq Sample.alice "Which is coldest?") Sample.world2)
      = Ok (mkResponse 200 (InsightJson (AiService.answer r) (AiService.usedFallback r))))
  /\ reportsNotFound (weather_current Sample.env (WeatherService.query Sample.lima)) = false.
Proof.
  destruct C8_weather_failures as (H1 & H2 & _ & _). split.
  - destruct (H1 Sample.env (Sample.insightsReq Sample.alice "Which is coldest?")
                Sample.world2 Sample.alice (hexValue 0 Sample.alice) "Which is coldest?"
                eq_refl eq_refl eq_refl) as (w1 & r & _ & Hr).
    + vm_compute. discriminate.
    + vm_compute. discriminate.
    + exists r. exact Hr.
  - apply (H2 Sample.env (Sample.createReq Sample.alice "Lima" None) Sample.world1 Sample.lima).
    vm_compute. reflexivity.
Defined.

(** C8, the claim as stated, fails.  Alice has saved Oslo, then Lima; the
    weather service is unavailable for Lima.  The insights handler meets
    Lima first, skips it and answers 200 from Oslo's line; and [createCity]
    saved Lima although its weather validation had failed. *)
Lemma C8_weather_failure_counterexample :
  fst (CityRepository.listCitiesForUser Sample.alice Sample.world2)
  = Ok [Sample.lima; Sample.oslo]
  /\ fst (WeatherService.fetchWeatherForCity Sample.env Sample.lima Sample.world2)
     = Throw Sample.unavailable
  /\ fst (AiController.getInsights Sample.env
            (Sample.insightsReq Sample.alice "Which is coldest?") Sample.world2)
     = Ok (mkResponse 200
             (InsightJson
                (AiService.answer
                   (AiService.heuristicFallback "Which is coldest?"
                      ("City: Oslo (NO) | -3.5" ++ AiService.degC ++ ", snow")))
                true))
  /\ fst (CityController.createCity Sample.env
            (Sample.createReq Sample.alice "Lima" None) Sample.world1)
     = Ok (mkResponse 201
             (CityJson (mkView "000000000000000000000003" "Lima" (Some "PE") false)))
  /\ cities (db (snd (CityController.createCity Sample.env
                        (Sample.createReq Sample.alice "Lima" None) Sample.world1)))
     = (cities (db Sample.world1) ++ [Sample.lima])%list.
Proof. repeat (match goal with |- _ /\ _ => split end); vm_compute; reflexivity. Qed.

(* ===================================================================== *)
(** ** The line pattern on lines of the expected shape *)
(* ===================================================================== *)



Lemma substring_all (a : string) : substring 0 (String.length a) a = a.
Proof. induction a as [|x a IH]; cbn; [reflexivity | now rewrite IH]. Qed.




Section LinePattern.

Import Regex.

Variable k : Cont.










End LinePattern.
















(* ===================================================================== *)
(** ** The heuristic summary *)
(* ===================================================================== *)

Section HeuristicSort.

Import AiService.













End HeuristicSort.



(** Lines of the form the insights handler writes parse to their city and
    temperature; other lines contribute nothing. *)
Example parseLine_with_country :
  AiService.parseLine ("City: Oslo (NO) | -3.5" ++ AiService.degC ++ ", snow")
  = Some (AiService.mkReading "Oslo" (-35 # 10)).
Proof. vm_compute. reflexivity. Qed.

Example parseLine_without_country :
  AiService.parseLine ("City: Rome | 12" ++ AiService.degC ++ ", clear sky")
  = Some (AiService.mkReading "Rome" (12 # 1)).
Proof. vm_compute. reflexivity. Qed.

Example parseLine_other :
  AiService.parseLine "Oslo: -3.5 degrees" = None.
Proof. vm_compute. reflexivity. Qed.

Example heuristic_summary :
  AiService.parseLines
    (AiService.nonEmptyLines
       ("City: Oslo (NO) | -3.5" ++ AiService.degC ++ ", snow" ++ AiService.newline
        ++ "no reading here" ++ AiService.newline
        ++ "City: Paris (FR) | 12.3" ++ AiService.degC ++ ", clear sky"))
  = [AiService.mkReading "Oslo" (-35 # 10); AiService.mkReading "Paris" (123 # 10)].
Proof. vm_compute. reflexivity. Qed.

(* ===================================================================== *)
(** ** The guard of the protected routes *)
(* ===================================================================== *)

Lemma split_lacks (sep : ascii) (t : string) :
  lacks sep t = true -> JS.split sep t = [t].
Proof.
  unfold lacks. induction t as [|c t IH]; cbn [JS.split JS.forallb_string]; [reflexivity|].
  intros H. apply andb_true_iff in H as [Hc Ht].
  apply negb_true_iff in Hc. rewrite Hc, (IH Ht). reflexivity.
Qed.

Lemma split_at_sep (sep : ascii) (t rest : string) :
  lacks sep t = true ->
  JS.split sep (t ++ String sep rest) = t :: JS.split sep rest.
Proof.
  unfold lacks. induction t as [|c t IH]; cbn [JS.split JS.forallb_string append].
  - intros _. now rewrite Ascii.eqb_refl.
  - intros H. apply andb_true_iff in H as [Hc Ht].
    apply negb_true_iff in Hc. rewrite Hc, (IH Ht). reflexivity.
Qed.

Lemma append_empty (s : string) : s ++ "" = s.
Proof. induction s as [|c s IH]; cbn; [reflexivity | now rewrite IH]. Qed.

(** The first piece of the header, up to its first space. *)
Lemma split_head (t rest : string) :
  noSpace t = true -> spaceAhead rest ->
  exists tl, JS.split " " (t ++ rest) = t :: tl.
Proof.
  intros Ht Hr. destruct rest as [|c rest].
  - rewrite append_empty. exists []. now apply split_lacks.
  - cbn in Hr. subst c. eexists. now apply split_at_sep.
Qed.

(** The middleware on a header [Bearer <token>], with a secret configured:
    it answers 401 when the token is refused and otherwise runs the handler
    on the request with the verified id. *)
Lemma authMiddleware_bearer (env : Env) (req : Request) (next : Request -> M Response)
      (w : World) (t rest secret : string) :
  authorization req = Some ("Bearer " ++ t ++ rest) ->
  noSpace t = true -> t <> "" -> spaceAhead rest ->
  JWT_SECRET env = Some secret -> secret <> "" ->
  authMiddleware env req next w
  = match jwt_verify env t secret with
    | None => (Ok (unauthorized "Unauthorized"), w)
    | Some uid =>
        match next (withUser req uid) w with
        | (Ok r, w') => (Ok r, w')
        | (Throw _, w') => (Ok (unauthorized "Unauthorized"), w')
        end
    end.
Proof.
  intros Hh Ht Ht0 Hrest Hs Hs0.
  unfold authMiddleware, tryCatch. rewrite Hh, Hs.
  destruct (split_head t rest Ht Hrest) as [tl Htl].
  change ("Bearer " ++ t ++ rest) with ("Bearer" ++ String " " (t ++ rest)).
  rewrite split_at_sep by reflexivity. rewrite Htl.
  cbn [nth_error strictEqOpt JS.truthyStr].
  apply String.eqb_neq in Ht0, Hs0. rewrite Ht0, Hs0.
  cbn. destruct (jwt_verify env t secret) as [uid|]; [|reflexivity].
  destruct (next (withUser req uid) w) as [[r|e] w']; reflexivity.
Qed.

Lemma authMiddleware_missing (env : Env) (req : Request) (next : Request -> M Response)
      (w : World) :
  JS.truthyStr (authorization req) = false ->
  authMiddleware env req next w = (Ok (unauthorized "Missing Authorization header"), w).
Proof.
  unfold authMiddleware, tryCatch. destruct (authorization req) as [h|]; [|reflexivity].
  cbn [JS.truthyStr]. intros H. apply negb_false_iff in H. rewrite H. reflexivity.
Qed.

Lemma authMiddleware_scheme (env : Env) (req : Request) (next : Request -> M Response)
      (w : World) (s rest : string) :
  authorization req = Some (s ++ rest) -> s ++ rest <> "" ->
  noSpace s = true -> spaceAhead rest -> s <> "Bearer" ->
  authMiddleware env req next w
  = (Ok (unauthorized "Invalid Authorization header format"), w).
Proof.
  intros Hh Hne Hs Hrest Hb.
  unfold authMiddleware, tryCatch. rewrite Hh.
  apply String.eqb_neq in Hne. rewrite Hne.
  destruct (split_head s rest Hs Hrest) as [tl ->].
  cbn [nth_error strictEqOpt]. apply String.eqb_neq in Hb. rewrite Hb. reflexivity.
Qed.

Lemma authMiddleware_no_token (env : Env) (req : Request) (next : Request -> M Response)
      (w : World) (rest : string) :
  authorization req = Some ("Bearer" ++ rest) ->
  rest = "" \/ rest = " " \/ (exists r, rest = "  " ++ r) ->
  authMiddleware env req next w
  = (Ok (unauthorized "Invalid Authorization header format"), w).
Proof.
  intros Hh [-> | [-> | [r ->]]]; unfold authMiddleware, tryCatch; rewrite Hh;
    reflexivity.
Qed.

Lemma authMiddleware_no_secret (env : Env) (req : Request) (next : Request -> M Response)
      (w : World) (t rest : string) :
  authorization req = Some ("Bearer " ++ t ++ rest) ->
  noSpace t = true -> t <> "" -> spaceAhead rest ->
  JS.truthyStr (JWT_SECRET env) = false ->
  authMiddleware env req next w = (Ok (unauthorized "Unauthorized"), w).
Proof.
  intros Hh Ht Ht0 Hrest Hs.
  unfold authMiddleware, tryCatch. rewrite Hh.
  destruct (split_head t rest Ht Hrest) as [tl Htl].
  change ("Bearer " ++ t ++ rest) with ("Bearer" ++ String " " (t ++ rest)).
  rewrite split_at_sep by reflexivity. rewrite Htl.
  cbn [nth_error strictEqOpt JS.truthyStr].
  apply String.eqb_neq in Ht0. rewrite Ht0. cbn.
  destruct (JWT_SECRET env) as [s|]; [|reflexivity].
  cbn in Hs. apply negb_false_iff in Hs. rewrite Hs. reflexivity.
Qed.

Ltac behind_guard route :=
  destruct route; try discriminate; cbn [app].

(** X1.  Every route behind [authMiddleware] answers 401 and leaves the
    world as it was - no handler runs, nothing is written, no outgoing
    request is made - when the Authorization header is missing or empty
    (Missing Authorization header), when its first word is not [Bearer] or
    no token follows after one space (Invalid Authorization header format),
    and when the token is refused by the JWT library or no secret is
    configured (Unauthorized).  When the token between the first and the
    second space verifies, the handler runs on the request whose [user] is
    the verified id, whatever [user] the request carried, and its answer is
    the answer of the route. *)
Theorem guard_checks_bearer_token (env : Env) (route : Route) (req : Request) (w : World) :
  guarded route = true ->
  (JS.truthyStr (authorization req) = false ->
   app env route req w = (Ok (unauthorized "Missing Authorization header"), w))
  /\ (forall s rest,
        authorization req = Some (s ++ rest) -> s ++ rest <> "" ->
        noSpace s = true -> spaceAhead rest -> s <> "Bearer" ->
        app env route req w = (Ok (unauthorized "Invalid Authorization header format"), w))
  /\ (forall rest,
        authorization req = Some ("Bearer" ++ rest) ->
        rest = "" \/ rest = " " \/ (exists r, rest = "  " ++ r) ->
        app env route req w = (Ok (unauthorized "Invalid Authorization header format"), w))
  /\ (forall t rest,
        authorization req = Some ("Bearer " ++ t ++ rest) ->
        noSpace t = true -> t <> "" -> spaceAhead rest ->
        JS.truthyStr (JWT_SECRET env) = false
        \/ (exists secret, JWT_SECRET env = Some secret /\ jwt_verify env t secret = None) ->
        app env route req w = (Ok (unauthorized "Unauthorized"), w))
  /\ (forall next t rest secret uid,
        authorization req = Some ("Bearer " ++ t ++ rest) ->
        noSpace t = true -> t <> "" -> spaceAhead rest ->
        JWT_SECRET env = Some secret -> secret <> "" ->
        jwt_verify env t secret = Some uid ->
        (forall e, fst (next (withUser req uid) w) <> Throw e) ->
        authMiddleware env req next w = next (withUser req uid) w
        /\ user (withUser req uid) = Some uid).
Proof.
  intros Hg. repeat (match goal with |- _ /\ _ => split end).
  - intros H. behind_guard route; now apply authMiddleware_missing.
  - intros s rest H1 H2 H3 H4 H5.
    behind_guard route; now apply (authMiddleware_scheme env req _ w s rest).
  - intros rest H1 H2.
    behind_guard route; now apply (authMiddleware_no_token env req _ w rest).
  - intros t rest H1 H2 H3 H4 [H5 | (secret & H5 & H6)].
    + behind_guard route; now apply (authMiddleware_no_secret env req _ w t rest).
    + destruct (secret =? "") eqn:E.
      * assert (JS.truthyStr (JWT_SECRET env) = false) as H7
            by (rewrite H5; cbn; now rewrite E).
        behind_guard route; now apply (authMiddleware_no_secret env req _ w t rest).
      * apply String.eqb_neq in E.
        behind_guard route;
          rewrite (authMiddleware_bearer env req _ w t rest secret) by assumption;
          rewrite H6; reflexivity.
  - intros next t rest secret uid H1 H2 H3 H4 H5 H6 H7 H8.
    rewrite (authMiddleware_bearer env req next w t rest secret) by assumption.
    rewrite H7. split; [|reflexivity].
    destruct (next (withUser req uid) w) as [[r|e] w'] eqn:E; [reflexivity|].
    exfalso. apply (H8 e). reflexivity.
Qed.

Lemma guard_checks_bearer_token_witness :
  app Sample.env GetCities (withAuthorization Sample.blank (Some "Basic abc")) Sample.world1
  = (Ok (unauthorized "Invalid Authorization header format"), Sample.world1)
  /\ app Sample.env DeleteCitiesId
         (withAuthorization (Sample.deleteReq Sample.alice Sample.osloId)
            (Some "Bearer forged")) Sample.world1
     = (Ok (unauthorized "Unauthorized"), Sample.world1)
  /\ authMiddleware Sample.env
         (withAuthorization (Sample.deleteReq Sample.alice Sample.osloId)
            (Some ("Bearer jwt-secret." ++ Sample.bob)))
         (CityController.deleteCity Sample.env) Sample.world1
     = CityController.deleteCity Sample.env (Sample.deleteReq Sample.bob Sample.osloId)
         Sample.world1.
Proof.
  split; [|split].
  - destruct (guard_checks_bearer_token Sample.env GetCities
                (withAuthorization Sample.blank (Some "Basic abc")) Sample.world1 eq_refl)
      as (_ & H & _).
    apply (H "Basic" " abc"); [reflexivity | discriminate | reflexivity | reflexivity
                              | discriminate].
  - destruct (guard_checks_bearer_token Sample.env DeleteCitiesId
                (withAuthorization (Sample.deleteReq Sample.alice Sample.osloId)
                   (Some "Bearer forged")) Sample.world1 eq_refl)
      as (_ & _ & _ & H & _).
    apply (H "forged" ""); [reflexivity | reflexivity | discriminate | exact I|].
    right. exists "jwt-secret". split; reflexivity.
  - destruct (guard_checks_bearer_token Sample.env GetMe
                (withAuthorization (Sample.deleteReq Sample.alice Sample.osloId)
                   (Some ("Bearer jwt-secret." ++ Sample.bob))) Sample.world1 eq_refl)
      as (_ & _ & _ & _ & H).
    destruct (H (CityController.deleteCity Sample.env) ("jwt-secret." ++ Sample.bob) ""
                "jwt-secret" Sample.bob) as [H1 _];
      [reflexivity | reflexivity | discriminate | exact I | reflexivity | discriminate
      | reflexivity | vm_compute; discriminate |].
    exact H1.
Defined.

(* ===================================================================== *)
(** ** Accounts *)
(* ===================================================================== *)

Lemma find_none_existsb {A} (p : A -> bool) (l : list A) :
  find p l = None -> existsb p l = false.
Proof.
  induction l as [|a l IH]; cbn; [reflexivity|].
  destruct (p a); [discriminate | exact IH].
Qed.

Lemma find_snoc {A} (p : A -> bool) (l : list A) (a : A) :
  find p (l ++ [a]) = match find p l with
                      | Some x => Some x
                      | None => if p a then Some a else None
                      end.
Proof.
  induction l as [|b l IH]; cbn; [reflexivity|].
  destruct (p b); [reflexivity | exact IH].
Qed.

Lemma registerUser_run (env : Env) (nm e pw : string) (w : World) :
  AuthService.registerUser env nm e pw w
  = match storedUser w e with
    | Some _ => (Throw (JsError "EMAIL_TAKEN"), w)
    | None =>
        if (nm =? "") || (e =? "") || (bcrypt_hash env pw =? "")
        then (Throw ValidationError, drawId w)
        else (Ok (newUser env w nm e pw), withUserAdded w (newUser env w nm e pw))
    end.
Proof.
  unfold AuthService.registerUser, UserRepository.findUserByEmail, UserModel.findOne,
    UserRepository.createUser, UserModel.create, bind, getDb, ret, storedUser.
  destruct (find _ (users (db w))) as [u|] eqn:E; [reflexivity|].
  unfold ObjectId_fresh. cbv beta iota zeta.
  destruct (_ || _); [reflexivity|].
  cbn [db users]. rewrite (find_none_existsb _ _ E). reflexivity.
Qed.

Lemma register_run (env : Env) (nm e pw : string) (req : Request) (w : World) :
  body_name req = Some nm -> body_email req = Some e -> body_password req = Some pw ->
  nm <> "" -> e <> "" -> pw <> "" ->
  AuthController.register env req w
  = match storedUser w e with
    | Some _ => (Ok (mkResponse 409 (Message "Email is already registered")), w)
    | None =>
        if bcrypt_hash env pw =? ""
        then (Ok (mkResponse 500 (Message "Internal server error")), drawId w)
        else (Ok (mkResponse 201 (UserJson (ObjectId_toString (nextObjectId w)) nm e)),
              withUserAdded w (newUser env w nm e pw))
    end.
Proof.
  intros Hn He Hp Hn0 He0 Hp0.
  unfold AuthController.register, tryCatch, bind. rewrite Hn, He, Hp.
  apply String.eqb_neq in Hn0, He0, Hp0.
  cbn [JS.truthyStr]. rewrite Hn0, He0, Hp0. cbn [negb orb].
  rewrite registerUser_run. rewrite Hn0, He0. cbn [orb].
  destruct (storedUser w e); [reflexivity|].
  destruct (bcrypt_hash env pw =? ""); reflexivity.
Qed.

Lemma register_guard (env : Env) (req : Request) (w : World) :
  JS.truthyStr (body_name req) = false \/ JS.truthyStr (body_email req) = false
  \/ JS.truthyStr (body_password req) = false ->
  AuthController.register env req w
  = (Ok (mkResponse 400 (Message "name, email and password are required")), w).
Proof.
  intros H. unfold AuthController.register, tryCatch.
  assert (negb (JS.truthyStr (body_name req)) || negb (JS.truthyStr (body_email req))
          || negb (JS.truthyStr (body_password req)) = true) as ->; [|reflexivity].
  destruct H as [-> | [-> | ->]]; cbn; rewrite ?orb_true_r; reflexivity.
Qed.

(** X2.  [POST /auth/register]: a request that lacks a name, an email or a
    password (missing or empty) is answered 400; with all three, an email
    that an account already has is answered 409 "Email is already
    registered"; in both cases nothing is written.  Otherwise the answer is
    201 with the id, name and email of the new account, which is appended
    to the collection with the bcrypt hash of the password in place of the
    password; the cities and the log of outgoing requests are untouched. *)
Theorem register_outcomes (env : Env) (req : Request) (w : World) :
  (JS.truthyStr (body_name req) = false \/ JS.truthyStr (body_email req) = false
   \/ JS.truthyStr (body_password req) = false ->
   AuthController.register env req w
   = (Ok (mkResponse 400 (Message "name, email and password are required")), w))
  /\ (forall nm e pw,
        body_name req = Some nm -> body_email req = Some e -> body_password req = Some pw ->
        nm <> "" -> e <> "" -> pw <> "" ->
        (forall u, storedUser w e = Some u ->
           AuthController.register env req w
           = (Ok (mkResponse 409 (Message "Email is already registered")), w))
        /\ (storedUser w e = None -> bcrypt_hash env pw <> "" ->
            let r := AuthController.register env req w in
            fst r = Ok (mkResponse 201 (UserJson (ObjectId_toString (nextObjectId w)) nm e))
            /\ users (db (snd r))
               = (users (db w) ++ [mkUser (nextObjectId w) nm e (bcrypt_hash env pw)])%list
            /\ cities (db (snd r)) = cities (db w)
            /\ calls (snd r) = calls w
            /\ storedUser (snd r) e
               = Some (mkUser (nextObjectId w) nm e (bcrypt_hash env pw)))).
Proof.
  split; [apply register_guard|].
  intros nm e pw Hn He Hp Hn0 He0 Hp0.
  pose proof (register_run env nm e pw req w Hn He Hp Hn0 He0 Hp0) as Hrun.
  split.
  - intros u Hu. rewrite Hrun, Hu. reflexivity.
  - intros Hnone Hh. cbv zeta. rewrite Hrun, Hnone.
    apply String.eqb_neq in Hh. rewrite Hh. cbn [fst snd].
    repeat (match goal with |- _ /\ _ => split end); try reflexivity.
    unfold storedUser in *. cbn [withUserAdded db users].
    rewrite find_snoc, Hnone. cbn [email]. now rewrite String.eqb_refl.
Qed.

(** Only registration writes to the accounts. *)
Lemma createCity_users (env : Env) (req : Request) (w : World) :
  users (db (snd (CityController.createCity env req w))) = users (db w).
Proof. unfold CityController.createCity. run_handler. all: reflexivity. Qed.

Lemma deleteCity_users (env : Env) (req : Request) (w : World) :
  users (db (snd (CityController.deleteCity env req w))) = users (db w).
Proof. unfold CityController.deleteCity. run_handler. all: reflexivity. Qed.

Lemma toggleFavorite_users (env : Env) (req : Request) (w : World) :
  users (db (snd (CityController.toggleFavorite env req w))) = users (db w).
Proof. unfold CityController.toggleFavorite. run_handler. all: reflexivity. Qed.

Lemma listCities_world (env : Env) (req : Request) (w : World) :
  snd (CityController.listCities env req w) = w.
Proof. unfold CityController.listCities. run_handler. all: reflexivity. Qed.

Lemma suggestCities_db (env : Env) (req : Request) (w : World) :
  db (snd (CityController.suggestCities env req w)) = db w.
Proof. unfold CityController.suggestCities. run_handler. all: reflexivity. Qed.

Lemma getCityWeather_db (env : Env) (req : Request) (w : World) :
  db (snd (CityController.getCityWeather env req w)) = db w.
Proof.
  unfold CityController.getCityWeather, tryCatch, bind, json, ret.
  destruct (user req) as [uid|]; [|reflexivity].
  rewrite findCityByIdForUser_run.
  run_handler. all: reflexivity.
Qed.

Lemma getInsights_db (env : Env) (req : Request) (w : World) :
  db (snd (AiController.getInsights env req w)) = db w.
Proof.
  unfold AiController.getInsights.
  destruct (user req) as [uid|]; [|reflexivity].
  destruct (_ || _); [reflexivity|].
  unfold tryCatch, bind. rewrite listCitiesForUser_run.
  destruct (ObjectId_parse uid) as [u|]; [|reflexivity].
  destruct (rev _) as [|c l] eqn:E; [reflexivity|].
  pose proof (collectLines_frame env (c :: l) [] w) as [Hd _].
  destruct (AiController.collectLines env (c :: l) [] w) as [[lines|e] w1]; cbn [snd] in Hd.
  - pose proof (getAiInsight_frame env
                  (JS.trim match body_question req with Some q => q | None => "" end)
                  (JS.join AiService.newline lines) w1) as [Hd2 _].
    destruct (AiService.getAiInsight env _ _ w1) as [[r|e] w2];
      unfold json, ret; cbn [snd] in *; congruence.
  - cbn [snd]. exact Hd.
Qed.

Lemma login_world (env : Env) (req : Request) (w : World) :
  snd (AuthController.login env req w) = w.
Proof.
  unfold AuthController.login, AuthService.loginUser, AuthService.getJwtSecret,
    UserRepository.findUserByEmail, UserModel.findOne, getDb.
  run_handler. all: reflexivity.
Qed.

Lemma storedUser_none (w : World) (e : string) :
  storedUser w e = None -> ~ In e (map email (users (db w))).
Proof.
  unfold storedUser. intros H Hin. apply in_map_iff in Hin as (u & He & Hu).
  apply (find_none _ _ H) in Hu. cbn in Hu. rewrite He, String.eqb_refl in Hu. discriminate.
Qed.

(** What one request does to the accounts. *)
Lemma register_users (env : Env) (req : Request) (w : World) :
  users (db (snd (AuthController.register env req w))) = users (db w)
  \/ exists u,
      users (db (snd (AuthController.register env req w))) = (users (db w) ++ [u])%list
      /\ storedUser w (email u) = None /\ filledIn u.
Proof.
  destruct (JS.truthyStr (body_name req)) eqn:En;
    [|left; rewrite register_guard by auto; reflexivity].
  destruct (JS.truthyStr (body_email req)) eqn:Ee;
    [|left; rewrite register_guard by auto; reflexivity].
  destruct (JS.truthyStr (body_password req)) eqn:Ep;
    [|left; rewrite register_guard by auto; reflexivity].
  destruct (body_name req) as [nm|] eqn:Hn; [|discriminate].
  destruct (body_email req) as [e|] eqn:He; [|discriminate].
  destruct (body_password req) as [pw|] eqn:Hp; [|discriminate].
  cbn in En, Ee, Ep. apply negb_true_iff, String.eqb_neq in En, Ee, Ep.
  rewrite (register_run env nm e pw req w Hn He Hp En Ee Ep).
  destruct (storedUser w e) eqn:Es; [left; reflexivity|].
  destruct (bcrypt_hash env pw =? "") eqn:Eh; [left; reflexivity|].
  right. exists (newUser env w nm e pw). split; [reflexivity|]. split; [exact Es|].
  apply String.eqb_neq in Eh. repeat split; assumption.
Qed.

Lemma app_users (env : Env) (route : Route) (req : Request) (w : World) :
  users (db (snd (app env route req w))) = users (db w)
  \/ route = PostAuthRegister
     /\ exists u,
         users (db (snd (app env route req w))) = (users (db w) ++ [u])%list
         /\ storedUser w (email u) = None /\ filledIn u.
Proof.
  destruct route; cbn [app];
    try match goal with
        | |- context [authMiddleware ?e ?r ?n ?w] =>
            destruct (authMiddleware_world e r n w) as [-> | [uid ->]];
            [left; reflexivity|]
        end.
  - left. reflexivity.
  - destruct (register_users env req w) as [H | H]; [left; exact H | right; split; auto].
  - left. now rewrite login_world.
  - left. destruct (user (withUser req uid)); reflexivity.
  - left. now rewrite listCities_world.
  - left. apply createCity_users.
  - left. now rewrite suggestCities_db.
  - left. apply deleteCity_users.
  - left. apply toggleFavorite_users.
  - left. now rewrite getCityWeather_db.
  - left. now rewrite getInsights_db.
Qed.

(** X3.  Accounts are append-only and their emails are unique: in every
    world the server reaches no two accounts share an email and every
    account has a name, an email and a password hash; a request leaves the
    accounts as they were, except a registration, which may append one
    account, with an email no account had. *)
Theorem accounts_unique_append_only :
  (forall w, reachable w ->
     NoDup (map email (users (db w))) /\ Forall filledIn (users (db w)))
  /\ (forall env route req w,
        users (db (snd (app env route req w))) = users (db w)
        \/ route = PostAuthRegister
           /\ exists u,
               users (db (snd (app env route req w))) = (users (db w) ++ [u])%list
               /\ ~ In (email u) (map email (users (db w)))).
Proof.
  split.
  - induction 1 as [|w env route req _ [IH1 IH2]].
    + split; constructor.
    + destruct (app_users env route req w) as [-> | (_ & u & -> & Hu & Hf)];
        [split; assumption|].
      split.
      * rewrite map_app. apply NoDup_snoc; [assumption | now apply storedUser_none].
      * apply Forall_app. split; [assumption | constructor; [assumption | constructor]].
  - intros env route req w.
    destruct (app_users env route req w) as [H | (Hr & u & H & Hu & _)]; [left; exact H|].
    right. split; [exact Hr|]. exists u. split; [exact H | now apply storedUser_none].
Qed.

Lemma accounts_unique_append_only_witness :
  NoDup (map email (users (db (snd (app Sample.env PostAuthRegister
                                      (registerReq (Some "Dave") (Some "carol@example.org")
                                         (Some "hunter2"))
                                      (snd (app Sample.env PostAuthRegister
                                              (registerReq (Some "Carol")
                                                 (Some "carol@example.org")
                                                 (Some "correct horse"))
                                              emptyWorld)))))))
  /\ List.length (users (db (snd (app Sample.env PostAuthRegister
                                    (registerReq (Some "Dave") (Some "carol@example.org")
                                       (Some "hunter2"))
                                    (snd (app Sample.env PostAuthRegister
                                            (registerReq (Some "Carol")
                                               (Some "carol@example.org")
                                               (Some "correct horse"))
                                            emptyWorld)))))) = 1%nat.
Proof.
  destruct accounts_unique_append_only as [H _]. split.
  - apply H. apply reach_request. apply reach_request. apply reach_start.
  - reflexivity.
Defined.

Lemma login_run (env : Env) (e pw : string) (req : Request) (w : World) :
  body_email req = Some e -> body_password req = Some pw -> e <> "" -> pw <> "" ->
  AuthController.login env req w
  = (match storedUser w e with
     | None => Ok (mkResponse 401 (Message "Invalid email or password"))
     | Some u =>
         if bcrypt_compare env pw (passwordHash u)
         then if JS.truthyStr (JWT_SECRET env)
              then Ok (mkResponse 200
                         (LoginJson
                            (jwt_sign env (ObjectId_toString (user_id u))
                               (match JWT_SECRET env with Some s => s | None => "" end))
                            (ObjectId_toString (user_id u)) (user_name u) (email u)))
              else Ok (mkResponse 500 (Message "Internal server error"))
         else Ok (mkResponse 401 (Message "Invalid email or password"))
     end, w).
Proof.
  intros He Hp He0 Hp0.
  unfold AuthController.login, tryCatch, bind. rewrite He, Hp.
  apply String.eqb_neq in He0, Hp0.
  cbn [JS.truthyStr]. rewrite He0, Hp0. cbn [negb orb].
  rewrite loginUser_run.
  destruct (storedUser w e) as [u|]; [|reflexivity].
  destruct (bcrypt_compare env pw (passwordHash u)); [|reflexivity].
  destruct (JS.truthyStr (JWT_SECRET env)); reflexivity.
Qed.

(** An account stays where it is, whatever is served afterwards. *)
Lemma storedUser_later (w w' : World) (e : string) (u : IUser) :
  later w w' -> storedUser w e = Some u -> storedUser w' e = Some u.
Proof.
  intros L Hu. induction L as [|w' env route req _ IH]; [exact Hu|].
  unfold storedUser in *.
  destruct (app_users env route req w') as [-> | (_ & v & -> & _)]; [exact IH|].
  rewrite find_snoc, IH. reflexivity.
Qed.

(** X4.  Registration, login and the guard fit together.  After a
    registration that was answered 201, and whatever the server has served
    since, a login with the same email and password is answered 200 with
    the id, name and email of that account and the token the JWT library
    signs for its id with the configured secret, provided bcrypt accepts
    the password against its own hash; without a secret the login is
    answered 500.  Presented as [Bearer <token>], a token that the library
    verifies to the id it was signed for makes [GET /me] answer 200 with
    that id.  A login writes nothing. *)
Theorem register_login_me (env : Env) (reg : Request) (w : World) (nm e pw : string) :
  body_name reg = Some nm -> body_email reg = Some e -> body_password reg = Some pw ->
  fst (AuthController.register env reg w)
  = Ok (mkResponse 201 (UserJson (ObjectId_toString (nextObjectId w)) nm e)) ->
  bcrypt_compare env pw (bcrypt_hash env pw) = true ->
  forall w', later (snd (AuthController.register env reg w)) w' ->
  forall req, body_email req = Some e -> body_password req = Some pw ->
  let id := ObjectId_toString (nextObjectId w) in
  (forall secret,
      JWT_SECRET env = Some secret -> secret <> "" ->
      AuthController.login env req w'
      = (Ok (mkResponse 200 (LoginJson (jwt_sign env id secret) id nm e)), w')
      /\ (forall me,
            authorization me = Some ("Bearer " ++ jwt_sign env id secret) ->
            noSpace (jwt_sign env id secret) = true -> jwt_sign env id secret <> "" ->
            jwt_verify env (jwt_sign env id secret) secret = Some id ->
            app env GetMe me w' = (Ok (mkResponse 200 (MeJson id)), w')))
  /\ (JS.truthyStr (JWT_SECRET env) = false ->
      AuthController.login env req w'
      = (Ok (mkResponse 500 (Message "Internal server error")), w')).
Proof.
  intros Hn He Hp Hreg Hb w' L req He' Hp' id.
  assert (nm <> "" /\ e <> "" /\ pw <> "") as (Hn0 & He0 & Hp0).
  { destruct (JS.truthyStr (body_name reg)) eqn:E1;
      [|rewrite register_guard in Hreg by auto; discriminate Hreg].
    destruct (JS.truthyStr (body_email reg)) eqn:E2;
      [|rewrite register_guard in Hreg by auto; discriminate Hreg].
    destruct (JS.truthyStr (body_password reg)) eqn:E3;
      [|rewrite register_guard in Hreg by auto; discriminate Hreg].
    rewrite Hn in E1. rewrite He in E2. rewrite Hp in E3. cbn in E1, E2, E3.
    apply negb_true_iff, String.eqb_neq in E1, E2, E3. auto. }
  assert (storedUser (snd (AuthController.register env reg w)) e
          = Some (newUser env w nm e pw)) as Hs.
  { rewrite (register_run env nm e pw reg w Hn He Hp Hn0 He0 Hp0) in Hreg |- *.
    destruct (storedUser w e) eqn:Es; [discriminate Hreg|].
    destruct (bcrypt_hash env pw =? ""); [discriminate Hreg|].
    unfold storedUser in *. cbn [snd withUserAdded db users].
    rewrite find_snoc, Es. cbn [email newUser]. now rewrite String.eqb_refl. }
  apply (storedUser_later _ w' e _ L) in Hs.
  pose proof (login_run env e pw req w' He' Hp' He0 Hp0) as Hl.
  rewrite Hs in Hl. cbn [passwordHash newUser user_id user_name email] in Hl.
  rewrite Hb in Hl. fold id in Hl.
  split.
  - intros secret Hsec Hsec0. rewrite Hsec in Hl. cbn [JS.truthyStr] in Hl.
    apply String.eqb_neq in Hsec0 as Hsec1. rewrite Hsec1 in Hl. cbn [negb] in Hl.
    split; [exact Hl|].
    intros me Hh Hns Hne Hv. cbn [app].
    rewrite (authMiddleware_bearer env me _ w' (jwt_sign env id secret) "" secret);
      try assumption; [|now rewrite append_empty | exact I].
    rewrite Hv. reflexivity.
  - intros Hsec. rewrite Hsec in Hl. exact Hl.
Qed.

Lemma register_outcomes_witness :
  AuthController.register Sample.env
    (registerReq (Some "Dave") (Some "carol@example.org") (Some "hunter2")) Sample.world3
  = (Ok (mkResponse 409 (Message "Email is already registered")), Sample.world3)
  /\ users (db (snd (AuthController.register Sample.env
                       (registerReq (Some "Dave") (Some "dave@example.org") (Some "hunter2"))
                       Sample.world3)))
     = [Sample.carol; mkUser 8%N "Dave" "dave@example.org" (Sample.hash "hunter2")]
  /\ AuthController.register Sample.env
       (registerReq (Some "Dave") (Some "") (Some "hunter2")) Sample.world3
     = (Ok (mkResponse 400 (Message "name, email and password are required")), Sample.world3).
Proof.
  split; [|split].
  - destruct (register_outcomes Sample.env
                (registerReq (Some "Dave") (Some "carol@example.org") (Some "hunter2"))
                Sample.world3) as [_ H].
    destruct (H "Dave" "carol@example.org" "hunter2" eq_refl eq_refl eq_refl) as [H1 _];
      [discriminate | discriminate | discriminate |].
    apply (H1 Sample.carol). reflexivity.
  - destruct (register_outcomes Sample.env
                (registerReq (Some "Dave") (Some "dave@example.org") (Some "hunter2"))
                Sample.world3) as [_ H].
    destruct (H "Dave" "dave@example.org" "hunter2" eq_refl eq_refl eq_refl) as [_ H2];
      [discriminate | discriminate | discriminate |].
    destruct H2 as (_ & H3 & _); [reflexivity | discriminate | exact H3].
  - destruct (register_outcomes Sample.env
                (registerReq (Some "Dave") (Some "") (Some "hunter2")) Sample.world3)
      as [H _].
    apply H. right. left. reflexivity.
Defined.

Lemma register_login_me_witness :
  let w1 := snd (AuthController.register Sample.env
                   (registerReq (Some "Dave") (Some "dave@example.org") (Some "hunter2"))
                   Sample.world3) in
  let w2 := snd (app Sample.env PostCities
                   (Sample.signedCreateReq Sample.alice " oslo " None) w1) in
  AuthController.login Sample.env
    (Sample.loginReq (Some "dave@example.org") (Some "hunter2")) w2
  = (Ok (mkResponse 200
           (LoginJson "jwt-secret.000000000000000000000008" "000000000000000000000008"
              "Dave" "dave@example.org")), w2)
  /\ app Sample.env GetMe
       (withAuthorization Sample.blank (Some "Bearer jwt-secret.000000000000000000000008")) w2
     = (Ok (mkResponse 200 (MeJson "000000000000000000000008")), w2).
Proof.
  intros w1 w2.
  destruct (register_login_me Sample.env
              (registerReq (Some "Dave") (Some "dave@example.org") (Some "hunter2"))
              Sample.world3 "Dave" "dave@example.org" "hunter2"
              eq_refl eq_refl eq_refl eq_refl eq_refl w2
              (later_request _ _ Sample.env PostCities
                 (Sample.signedCreateReq Sample.alice " oslo " None) (later_now _))
              (Sample.loginReq (Some "dave@example.org") (Some "hunter2"))
              eq_refl eq_refl) as [H _].
  destruct (H "jwt-secret" eq_refl) as [H1 H2]; [discriminate|].
  split; [exact H1|].
  apply H2; [reflexivity | reflexivity | discriminate | reflexivity].
Defined.

(* ===================================================================== *)
(** ** Ids on the wire *)
(* ===================================================================== *)

Lemma hexDigit_value (n : N) :
  (n < 16)%N ->
  hexVal (hexDigit n) = n /\ JS.isHexDigit (hexDigit n) = true.
Proof.
  intros H. rewrite <- (N2Nat.id n).
  assert (N.to_nat n < 16)%nat as Hm by lia.
  revert Hm. generalize (N.to_nat n). clear H. intros m Hm.
  do 16 (destruct m as [|m]; [split; reflexivity|]). lia.
Qed.

Lemma hexString_value (d : nat) :
  forall (n acc : N) (rest : string),
    hexValue acc (hexString d n rest)
    = hexValue (acc * 16 ^ N.of_nat d + n mod 16 ^ N.of_nat d)%N rest.
Proof.
  induction d as [|d IH]; intros n acc rest.
  - cbn [hexString]. change (N.of_nat 0) with 0%N. rewrite N.pow_0_r, N.mod_1_r.
    f_equal. lia.
  - cbn [hexString]. rewrite IH. cbn [hexValue].
    destruct (hexDigit_value (n mod 16)%N) as [-> _]; [apply N.mod_lt; lia|].
    f_equal. rewrite Nat2N.inj_succ, N.pow_succ_r'.
    rewrite (N.Div0.mod_mul_r n 16 (16 ^ N.of_nat d)). lia.
Qed.

Lemma hexString_length (d : nat) :
  forall (n : N) (rest : string),
    String.length (hexString d n rest) = (d + String.length rest)%nat.
Proof.
  induction d as [|d IH]; intros n rest; cbn [hexString]; [reflexivity|].
  rewrite IH. cbn. lia.
Qed.

Lemma hexString_hex (d : nat) :
  forall (n : N) (rest : string),
    JS.forallb_string JS.isHexDigit rest = true ->
    JS.forallb_string JS.isHexDigit (hexString d n rest) = true.
Proof.
  induction d as [|d IH]; intros n rest H; cbn [hexString]; [exact H|].
  apply IH. cbn [JS.forallb_string]. rewrite H.
  destruct (hexDigit_value (n mod 16)%N) as [_ ->]; [apply N.mod_lt; lia | reflexivity].
Qed.

(** The driver reads back the id it wrote, for an id of 96 bits. *)
Lemma ObjectId_round_trip (o : ObjectId) :
  (o < 2 ^ 96)%N -> ObjectId_parse (ObjectId_toString o) = Some o.
Proof.
  intros H. unfold ObjectId_parse, ObjectId_toString.
  rewrite hexString_length, hexString_hex by reflexivity. cbn [String.length Nat.add Nat.eqb andb].
  rewrite hexString_value. cbn [hexValue].
  change (16 ^ N.of_nat 24)%N with (2 ^ 96)%N.
  rewrite N.mod_small by exact H. now rewrite N.mul_0_l, N.add_0_l.
Qed.

(* ===================================================================== *)
(** ** The city endpoints past the guard *)
(* ===================================================================== *)

Lemma deleteCity_run (env : Env) (req : Request) (w : World) (uid : string) :
  user req = Some uid ->
  CityController.deleteCity env req w
  = match ObjectId_parse (params_id req), ObjectId_parse uid with
    | Some c, Some u =>
        (Ok (mkResponse 204 NoBody),
         withCities w (CityModel.removeFirst (CityModel.matches c u) (cities (db w))))
    | _, _ => (Ok serverError, w)
    end.
Proof.
  intros Hu. unfold CityController.deleteCity, tryCatch, bind, json, ret.
  rewrite Hu, deleteCityForUser_run.
  destruct (ObjectId_parse (params_id req)); [|reflexivity].
  destruct (ObjectId_parse uid); reflexivity.
Qed.

Lemma toggleFavorite_run (env : Env) (req : Request) (w : World) (uid : string) :
  user req = Some uid ->
  CityController.toggleFavorite env req w
  = match ObjectId_parse (params_id req), ObjectId_parse uid with
    | Some c, Some u =>
        let r := CityModel.updateFirst (CityModel.matches c u)
                   (CityModel.setFavorite (JS.truthy (body_isFavorite req)))
                   (cities (db w)) in
        (Ok match fst r with
            | Some c' => mkResponse 200 (CityJson (CityController.view c'))
            | None => cityMissing
            end, withCities w (snd r))
    | _, _ => (Ok serverError, w)
    end.
Proof.
  intros Hu. unfold CityController.toggleFavorite, tryCatch, bind, json, ret.
  rewrite Hu, updateCityFavoriteForUser_run.
  destruct (ObjectId_parse (params_id req)); [|reflexivity].
  destruct (ObjectId_parse uid); [|reflexivity].
  cbv zeta. destruct (fst _); reflexivity.
Qed.

Lemma getCityWeather_run (env : Env) (req : Request) (w : World) (uid : string) :
  user req = Some uid ->
  CityController.getCityWeather env req w
  = match ObjectId_parse (params_id req), ObjectId_parse uid with
    | Some c, Some u =>
        match find (CityModel.matches c u) (cities (db w)) with
        | None => (Ok cityMissing, w)
        | Some c' =>
            if hasApiKey env
            then (Ok (weatherAnswer (weather_current env (WeatherService.query c'))),
                  logCall w (WeatherCurrent (WeatherService.query c')))
            else (Ok (mkResponse 502 (Message "Failed to fetch weather data from provider")), w)
        end
    | _, _ => (Ok serverError, w)
    end.
Proof.
  intros Hu. unfold CityController.getCityWeather, tryCatch, bind, json, ret.
  rewrite Hu, findCityByIdForUser_run.
  destruct (ObjectId_parse (params_id req)); [|reflexivity].
  destruct (ObjectId_parse uid); [|reflexivity].
  destruct (find _ _) as [c'|]; [|reflexivity].
  rewrite fetchWeatherForCity_run.
  destruct (hasApiKey env); [|reflexivity].
  destruct (weather_current env _) as [d|e]; [reflexivity|].
  unfold weatherAnswer, weatherMissing.
  destruct e as [[r|]| | | | |]; try reflexivity.
  destruct (_ || _); reflexivity.
Qed.

Lemma listCities_run (env : Env) (req : Request) (w : World) (uid : string) :
  user req = Some uid ->
  CityController.listCities env req w
  = (match ObjectId_parse uid with
     | Some u => Ok (mkResponse 200 (CityListJson (map CityController.view (citiesOf w u))))
     | None => Ok serverError
     end, w).
Proof.
  intros Hu. unfold CityController.listCities, tryCatch, bind, json, ret.
  rewrite Hu, listCitiesForUser_run.
  destruct (ObjectId_parse uid); reflexivity.
Qed.

(** X5.  An id in the path that the driver refuses as an ObjectId - it is
    not 24 characters long, or has a character that is no hexadecimal
    digit - makes [DELETE /cities/:id], [PATCH /cities/:id/favorite] and
    [GET /cities/:id/weather] answer 500 "Internal server error", not 400
    or 404; the world is left as it was. *)
Theorem malformed_id_is_server_error (env : Env) (req : Request) (w : World) (uid : string) :
  user req = Some uid ->
  String.length (params_id req) <> 24%nat
  \/ JS.forallb_string JS.isHexDigit (params_id req) = false ->
  CityController.deleteCity env req w = (Ok serverError, w)
  /\ CityController.toggleFavorite env req w = (Ok serverError, w)
  /\ CityController.getCityWeather env req w = (Ok serverError, w).
Proof.
  intros Hu Hbad.
  assert (ObjectId_parse (params_id req) = None) as Hp.
  { unfold ObjectId_parse. destruct Hbad as [H | H].
    - apply Nat.eqb_neq in H. rewrite H. reflexivity.
    - rewrite H, andb_false_r. reflexivity. }
  rewrite (deleteCity_run env req w uid Hu), (toggleFavorite_run env req w uid Hu),
    (getCityWeather_run env req w uid Hu), Hp.
  repeat split.
Qed.

Lemma malformed_id_is_server_error_witness :
  CityController.deleteCity Sample.env (Sample.deleteReq Sample.alice "1") Sample.world1
  = (Ok serverError, Sample.world1)
  /\ CityController.getCityWeather Sample.env
       (Sample.deleteReq Sample.alice "00000000000000000000000g") Sample.world1
     = (Ok serverError, Sample.world1).
Proof.
  split.
  - destruct (malformed_id_is_server_error Sample.env (Sample.deleteReq Sample.alice "1")
                Sample.world1 Sample.alice eq_refl) as (H & _).
    + left. cbn. discriminate.
    + exact H.
  - destruct (malformed_id_is_server_error Sample.env
                (Sample.deleteReq Sample.alice "00000000000000000000000g")
                Sample.world1 Sample.alice eq_refl) as (_ & _ & H).
    + right. reflexivity.
    + exact H.
Defined.

Lemma without_none (cid : ObjectId) (l : list ICity) :
  ~ In cid (map city_id l) -> without cid l = l.
Proof.
  unfold without. induction l as [|d l IH]; cbn; intros H; [reflexivity|].
  destruct (N.eqb (city_id d) cid) eqn:E.
  - apply N.eqb_eq in E. tauto.
  - cbn. f_equal. apply IH. tauto.
Qed.

(** Under unique ids, the delete removes the document with the given id
    and owner and no other. *)
Lemma removeFirst_byId (l : list ICity) (c : ICity) :
  NoDup (map city_id l) -> In c l ->
  CityModel.removeFirst (CityModel.matches (city_id c) (userId c)) l = without (city_id c) l.
Proof.
  induction l as [|d l IH]; cbn; intros Hnd Hin; [tauto|].
  inversion Hnd as [|? ? Hd Hl]; subst.
  unfold CityModel.matches at 1. destruct Hin as [->|Hin].
  - rewrite !N.eqb_refl. cbn. symmetry. now apply without_none.
  - assert (N.eqb (city_id d) (city_id c) = false) as E.
    { apply N.eqb_neq. intros E. apply Hd. rewrite E. now apply in_map. }
    rewrite E. cbn. now rewrite IH.
Qed.

Lemma find_byId (l : list ICity) (c : ICity) :
  NoDup (map city_id l) -> In c l ->
  find (CityModel.matches (city_id c) (userId c)) l = Some c.
Proof.
  induction l as [|d l IH]; cbn; intros Hnd Hin; [tauto|].
  inversion Hnd as [|? ? Hd Hl]; subst.
  unfold CityModel.matches at 1. destruct Hin as [->|Hin].
  - now rewrite !N.eqb_refl.
  - assert (N.eqb (city_id d) (city_id c) = false) as E.
    { apply N.eqb_neq. intros E. apply Hd. rewrite E. now apply in_map. }
    rewrite E. cbn. now apply IH.
Qed.

Lemma find_unmatched (p : ICity -> bool) (l : list ICity) :
  (forall d, In d l -> p d = false) -> find p l = None.
Proof.
  induction l as [|d l IH]; cbn; intros H; [reflexivity|].
  rewrite (H d) by auto. apply IH. auto.
Qed.

Lemma without_unmatched (cid u : ObjectId) (l : list ICity) :
  forall d, In d (without cid l) -> CityModel.matches cid u d = false.
Proof.
  intros d Hd. apply filter_In in Hd as [_ Hd]. unfold CityModel.matches.
  apply negb_true_iff in Hd. now rewrite Hd.
Qed.

(** X6.  [GET /cities/:id/weather] past the guard.  For a city the caller
    owns, with an API key configured, the handler sends one weather request
    for [name,country] (or the name alone) and answers 200 with the
    weather, 404 when the provider answered with status 404 or a numeric
    [cod] of 404, and 502 for any other failure; without an API key it
    answers 502 and sends nothing.  For an id that no city of the caller
    has - another user's city included - it answers 404 "City not found"
    and sends nothing.  The store is never written. *)
Theorem city_weather_outcomes
        (env : Env) (req : Request) (w : World) (uid : string) (u cid : ObjectId) :
  user req = Some uid ->
  ObjectId_parse uid = Some u ->
  ObjectId_parse (params_id req) = Some cid ->
  let r := CityController.getCityWeather env req w in
  db (snd r) = db w
  /\ ((forall d, In d (cities (db w)) -> city_id d = cid -> userId d <> u) ->
      r = (Ok (mkResponse 404 (Message "City not found")), w))
  /\ (forall c,
        NoDup (map city_id (cities (db w))) -> In c (cities (db w)) ->
        city_id c = cid -> userId c = u ->
        (hasApiKey env = false ->
         r = (Ok (mkResponse 502 (Message "Failed to fetch weather data from provider")), w))
        /\ (hasApiKey env = true ->
            calls (snd r) = (calls w ++ [WeatherCurrent (WeatherService.query c)])%list
            /\ (forall d, weather_current env (WeatherService.query c) = Ok d ->
                          fst r = Ok (mkResponse 200 (WeatherJson d)))
            /\ (forall resp,
                  weather_current env (WeatherService.query c)
                  = Throw (AxiosError (Some resp)) ->
                  err_status resp = 404%nat \/ err_cod resp = Some (JS.JNum (404 # 1)) ->
                  fst r = Ok (mkResponse 404 (Message
                    "Weather data not found for this city. Please check the name and country code.")))
            /\ (forall e, weather_current env (WeatherService.query c) = Throw e ->
                          weatherMissing e = false ->
                          fst r = Ok (mkResponse 502
                                        (Message "Failed to fetch weather data from provider"))))).
Proof.
  intros Hu Hp Hc r. subst r.
  rewrite (getCityWeather_run env req w uid Hu), Hc, Hp.
  split; [|split].
  - destruct (find _ _); [|reflexivity]. destruct (hasApiKey env); reflexivity.
  - intros Hnone. rewrite find_unmatched; [reflexivity|].
    intros d Hd. unfold CityModel.matches.
    destruct (N.eqb (city_id d) cid) eqn:E; [|reflexivity].
    apply N.eqb_eq in E. cbn. apply N.eqb_neq. now apply Hnone.
  - intros c Hnd Hin <- <-. rewrite (find_byId _ c Hnd Hin).
    split; [intros ->; reflexivity|]. intros ->. cbn [fst snd].
    split; [reflexivity|]. split; [|split].
    + intros d ->. reflexivity.
    + intros resp -> Hnf. cbn [weatherAnswer weatherMissing].
      assert ((err_status resp =? 404)%nat || JS.strictEqNum (err_cod resp) (404 # 1) = true)
        as ->; [|reflexivity].
      destruct Hnf as [-> | ->]; [reflexivity|]. apply orb_true_r.
    + intros e -> He. cbn [weatherAnswer]. rewrite He. reflexivity.
Qed.

Lemma city_weather_outcomes_witness :
  fst (CityController.getCityWeather Sample.env
         (weatherReq Sample.alice Sample.osloId) Sample.world2)
  = Ok (mkResponse 200
          (WeatherJson (mkWeather "Oslo" (Some "NO") (Some (-35 # 10)) "snow" "13d")))
  /\ CityController.getCityWeather Sample.env
       (weatherReq Sample.bob Sample.osloId) Sample.world2
     = (Ok (mkResponse 404 (Message "City not found")), Sample.world2).
Proof.
  split.
  - destruct (city_weather_outcomes Sample.env (weatherReq Sample.alice Sample.osloId)
                Sample.world2 Sample.alice (hexValue 0 Sample.alice) 1%N
                eq_refl eq_refl eq_refl) as (_ & _ & H).
    destruct (H Sample.oslo) as [_ H1].
    + vm_compute. repeat constructor; cbn; intuition discriminate.
    + left. reflexivity.
    + reflexivity.
    + reflexivity.
    + destruct (H1 eq_refl) as (_ & H2 & _). apply H2. reflexivity.
  - destruct (city_weather_outcomes Sample.env (weatherReq Sample.bob Sample.osloId)
                Sample.world2 Sample.bob (hexValue 0 Sample.bob) 1%N
                eq_refl eq_refl eq_refl) as (_ & H & _).
    apply H. intros d [<- | [<- | []]]; vm_compute; congruence.
Defined.

(** X7.  [DELETE /cities/:id] by the owner, past the guard, in a store
    with unique ids: the answer is 204 and exactly the document with that
    id is gone - the other cities, the accounts and the log of outgoing
    requests are as they were.  Repeating the request is answered 204
    again and changes nothing, and the favorite update and the weather
    lookup for that id are then answered 404 "City not found". *)
Theorem owner_delete_removes_city
        (env : Env) (req : Request) (w : World) (uid : string) (c : ICity) :
  user req = Some uid ->
  ObjectId_parse uid = Some (userId c) ->
  ObjectId_parse (params_id req) = Some (city_id c) ->
  NoDup (map city_id (cities (db w))) ->
  In c (cities (db w)) ->
  let r := CityController.deleteCity env req w in
  fst r = Ok (mkResponse 204 NoBody)
  /\ cities (db (snd r)) = without (city_id c) (cities (db w))
  /\ users (db (snd r)) = users (db w)
  /\ calls (snd r) = calls w
  /\ ~ In c (cities (db (snd r)))
  /\ (forall d, In d (cities (db w)) -> city_id d <> city_id c -> In d (cities (db (snd r))))
  /\ CityController.deleteCity env req (snd r) = (Ok (mkResponse 204 NoBody), snd r)
  /\ CityController.toggleFavorite env req (snd r)
     = (Ok (mkResponse 404 (Message "City not found")), snd r)
  /\ CityController.getCityWeather env req (snd r)
     = (Ok (mkResponse 404 (Message "City not found")), snd r).
Proof.
  intros Hu Hp Hc Hnd Hin r. subst r.
  rewrite (deleteCity_run env req w uid Hu), Hc, Hp.
  rewrite (removeFirst_byId _ c Hnd Hin). cbn [fst snd].
  set (w' := withCities w (without (city_id c) (cities (db w)))).
  pose proof (without_unmatched (city_id c) (userId c) (cities (db w))) as Hnone.
  change (cities (db w')) with (without (city_id c) (cities (db w))).
  repeat (match goal with |- _ /\ _ => split end); try reflexivity.
  - intros Hc'. apply filter_In in Hc' as [_ Hc']. now rewrite N.eqb_refl in Hc'.
  - intros d Hd Hne. apply filter_In. split; [exact Hd|].
    apply negb_true_iff, N.eqb_neq. exact Hne.
  - rewrite (deleteCity_run env req w' uid Hu), Hc, Hp.
    change (cities (db w')) with (without (city_id c) (cities (db w))).
    rewrite removeFirst_none by exact Hnone. reflexivity.
  - rewrite (toggleFavorite_run env req w' uid Hu), Hc, Hp. cbv zeta.
    change (cities (db w')) with (without (city_id c) (cities (db w))).
    rewrite updateFirst_none by exact Hnone. reflexivity.
  - rewrite (getCityWeather_run env req w' uid Hu), Hc, Hp.
    change (cities (db w')) with (without (city_id c) (cities (db w))).
    rewrite find_unmatched by exact Hnone. reflexivity.
Qed.

Lemma owner_delete_removes_city_witness :
  cities (db (snd (CityController.deleteCity Sample.env
                     (Sample.deleteReq Sample.alice Sample.osloId) Sample.world2)))
  = [Sample.lima]
  /\ fst (CityController.deleteCity Sample.env
            (Sample.deleteReq Sample.alice Sample.osloId) Sample.world2)
     = Ok (mkResponse 204 NoBody).
Proof.
  destruct (owner_delete_removes_city Sample.env
              (Sample.deleteReq Sample.alice Sample.osloId) Sample.world2 Sample.alice
              Sample.oslo eq_refl eq_refl eq_refl) as (H1 & H2 & _).
  - vm_compute. repeat constructor; cbn; intuition discriminate.
  - left. reflexivity.
  - split; [exact H2 | exact H1].
Defined.

Lemma inCountry_stored (cc : string) (m : ResolvedLocation) :
  JS.truthyStr (Some cc) = true ->
  CityController.inCountryOf (Some cc) m = true ->
  option_map JS.toUpperCase (loc_country m) = Some cc /\ storedCountry m = Some cc.
Proof.
  unfold CityController.inCountryOf, storedCountry. intros Hcc H.
  apply strictEqOpt_eq in H. split; [exact H|].
  destruct (loc_country m) as [k|]; [|discriminate H].
  cbn in H |- *. injection H as H. subst cc.
  destruct k; [discriminate Hcc | reflexivity].
Qed.

(** Stepping through a handler while keeping every test that was made. *)
Ltac split_keeping :=
  match goal with
  | |- context [match ?x with _ => _ end] =>
      lazymatch x with
      | context [match _ with _ => _ end] => fail
      | _ => destruct x eqn:?
      end
  | |- context [if ?x then _ else _] =>
      lazymatch x with
      | context [match _ with _ => _ end] => fail
      | _ => destruct x eqn:?
      end
  end.

Ltac run_keeping :=
  unfold tryCatch, bind, json, ret, throw;
  cbv beta iota zeta; cbn [fst snd];
  repeat (first [run_block; rewrite ?db_logCall, ?db_drawId; use_parsed
                | progress use_known
                | split_keeping];
          cbv beta iota zeta; cbn [fst snd]).

(** What a 201 answer of [createCity] says about the request and the
    world. *)
Lemma createCity_created (env : Env) (req : Request) (w : World) (v : CityView) :
  fst (CityController.createCity env req w) = Ok (mkResponse 201 (CityJson v)) ->
  exists uid u raw best,
    user req = Some uid /\ ObjectId_parse uid = Some u
    /\ hasApiKey env = true
    /\ geo_direct env (geoQuery (CityController.normalizedName req)
                                (CityController.normalizedCountry req)) = Ok raw
    /\ In best (exactMatches (CityController.normalizedName req) raw)
    /\ (JS.truthyStr (CityController.normalizedCountry req) = true ->
        storedCountry best = CityController.normalizedCountry req)
    /\ (forall cc, CityController.normalizedCountry req = Some cc ->
                   JS.truthyStr (Some cc) = true -> JS.testTwoLetters cc = true)
    /\ v = CityController.view (cityFor w u best)
    /\ snd (CityController.createCity env req w)
       = mkWorld (mkDb (cities (db w) ++ [cityFor w u best]) (users (db w)))
                 (N.succ (N.succ (nextObjectId w)))
                 (calls w ++ [GeoDirect (geoQuery (CityController.normalizedName req)
                                           (CityController.normalizedCountry req));
                              WeatherCurrent (WeatherService.query (cityFor w u best))])
    /\ hasKey (cities (db w)) (CityModel.indexKey (cityFor w u best)) = false
    /\ reportsNotFound (weather_current env (WeatherService.query (cityFor w u best))) = false.
Proof.
  unfold CityController.createCity, exactMatches. cbv zeta.
  destruct (CityController.normalizedCountry req) as [cc|] eqn:Ecc;
    [destruct (JS.truthyStr (Some cc)) eqn:Et | change (JS.truthyStr None) with false].
  all: run_keeping.
  all: intros H201; try discriminate H201.
  all: cbn [fst] in H201; injection H201 as <-.
  all: match goal with
       | Hu : user _ = Some ?s, Hp : ObjectId_parse _ = Some ?o,
         Hg : geo_direct _ _ = Ok ?a, Hf : filter _ _ = ?r :: _ |- _ =>
           exists s, o, a, r
       end.
  all: cbn [CityRepository.p_userId] in *.
  all: repeat (match goal with |- _ /\ _ => split end); try assumption; try reflexivity;
    try discriminate.
  all: try match goal with
           | H : filter _ _ = ?r :: _ |- In ?r _ =>
               first [ rewrite H; left; reflexivity
                     | apply hd_filter_In in H; destruct H; assumption ]
           end.
  all: try match goal with
           | H : filter (CityController.inCountryOf (Some ?cc)) _ = ?r :: _
             |- _ -> storedCountry ?r = Some ?cc =>
               intros _; apply hd_filter_In in H; destruct H as [_ H];
               apply inCountry_stored; assumption
           end.
  all: try match goal with
           | |- forall _, Some _ = Some _ -> _ =>
               intros ? [= <-] Ht;
               first [ congruence
                     | match goal with
                       | H : true && negb (JS.testTwoLetters _) = false |- _ =>
                           cbn in H; now apply negb_false_iff in H
                       end ]
           | |- forall _, None = Some _ -> _ => intros ? Hn; discriminate Hn
           end.
  all: match goal with
       | H : filter (CityController.inCountryOf (Some ?cc)) _ = ?r :: _ |- _ =>
           assert (Ec : option_map JS.toUpperCase (loc_country r) = storedCountry r)
             by (apply hd_filter_In in H; destruct H as [_ H];
                 destruct (inCountry_stored cc r) as [-> ->];
                 [assumption | assumption | reflexivity])
       | _ => idtac
       end.
  all: repeat match goal with
              | H : hasKey _ _ = _ |- _ => revert H
              | H : context [reportsNotFound] |- _ => revert H
              end.
  all: unfold newCity, cityFor, payloadQuery, WeatherService.query, payloadKey,
         CityModel.indexKey, CityController.view, withCities, drawId, logCall.
  all: cbn [city_id userId name nameNormalized country apiCityId isFavorite
            CityRepository.p_name CityRepository.p_nameNormalized
            CityRepository.p_country CityRepository.p_apiCityId
            db cities users nextObjectId calls andb].
  all: rewrite ?toLowerCase_idem.
  all: first [ rewrite Ec
             | match goal with
               | H : JS.truthyStr (loc_country _) = _ |- _ => unfold storedCountry; rewrite H
               end ].
  all: intros; try assumption; try reflexivity.
  all: rewrite <- app_assoc; reflexivity.
Qed.

Lemma citiesOf_snoc (w : World) (u : ObjectId) (c : ICity) (us : list IUser)
      (n : ObjectId) (l : list ExtCall) :
  citiesOf (mkWorld (mkDb (cities (db w) ++ [c]) us) n l) u
  = if N.eqb (userId c) u then c :: citiesOf w u else citiesOf w u.
Proof.
  unfold citiesOf. cbn [db cities]. rewrite filter_app, rev_app_distr. cbn [filter].
  destruct (N.eqb (userId c) u); reflexivity.
Qed.

(** X8.  A city that [POST /cities] answered 201 for is the first entry of
    the next [GET /cities] of the same user, before the cities listed until
    then, and with the view the 201 answer carried; the list of a user with
    another id is as it was. *)
Theorem created_city_is_listed_first
        (env : Env) (req : Request) (w : World) (v : CityView) :
  fst (CityController.createCity env req w) = Ok (mkResponse 201 (CityJson v)) ->
  let w' := snd (CityController.createCity env req w) in
  (forall lreq old,
      user lreq = user req ->
      fst (CityController.listCities env lreq w) = Ok (mkResponse 200 (CityListJson old)) ->
      fst (CityController.listCities env lreq w')
      = Ok (mkResponse 200 (CityListJson (v :: old))))
  /\ (forall lreq uid uid',
        user req = Some uid -> user lreq = Some uid' ->
        ObjectId_parse uid' <> ObjectId_parse uid ->
        fst (CityController.listCities env lreq w')
        = fst (CityController.listCities env lreq w)).
Proof.
  intros H201 w'.
  destruct (createCity_created env req w v H201)
    as (uid & u & raw & best & Hu & Hp & _ & _ & _ & _ & _ & Hv & Hw & _).
  subst w'. rewrite Hw. split.
  - intros lreq old Hl. rewrite Hu in Hl.
    rewrite !(listCities_run env lreq _ uid Hl), Hp. cbn [fst].
    intros [= <-]. rewrite citiesOf_snoc. cbn [userId cityFor].
    rewrite N.eqb_refl. cbn [map]. now rewrite Hv.
  - intros lreq uid0 uid' Hu0 Hl Hne. rewrite Hu in Hu0. injection Hu0 as <-.
    rewrite !(listCities_run env lreq _ uid' Hl). cbn [fst].
    destruct (ObjectId_parse uid') as [u'|]; [|reflexivity].
    rewrite citiesOf_snoc. cbn [userId cityFor].
    destruct (N.eqb u u') eqn:E; [|reflexivity].
    apply N.eqb_eq in E. subst u'. congruence.
Qed.

Lemma created_city_is_listed_first_witness :
  fst (CityController.listCities Sample.env (listReq Sample.alice) Sample.world2)
  = Ok (mkResponse 200
          (CityListJson [ mkView "000000000000000000000003" "Lima" (Some "PE") false;
                          mkView "000000000000000000000001" "Oslo" (Some "NO") false ])).
Proof.
  destruct (created_city_is_listed_first Sample.env
              (Sample.createReq Sample.alice "Lima" None) Sample.world1
              (mkView "000000000000000000000003" "Lima" (Some "PE") false) eq_refl)
    as [H _].
  apply (H (listReq Sample.alice)
           [mkView "000000000000000000000001" "Oslo" (Some "NO") false]);
    reflexivity.
Defined.

Lemma Inv_fresh (w : World) (n : ObjectId) :
  Inv w -> (nextObjectId w <= n)%N -> ~ In n (map city_id (cities (db w))).
Proof.
  intros [Hb _ _ _] Hn Hin. apply in_map_iff in Hin as (d & <- & Hd).
  rewrite Forall_forall in Hb. specialize (Hb d Hd). cbn in Hb. lia.
Qed.

(** X9.  The id in a 201 answer of [POST /cities] addresses the new city:
    used in the path by the same user, the favorite update answers 200 with
    the view of the 201 answer and the flag asked for, and the delete
    answers 204 and gives back the collection as it was before the city was
    created.  This holds in every world the server reaches while its ids
    fit 96 bits. *)
Theorem created_id_addresses_city
        (env : Env) (req : Request) (w : World) (v : CityView) :
  reachable w ->
  (N.succ (nextObjectId w) < 2 ^ 96)%N ->
  fst (CityController.createCity env req w) = Ok (mkResponse 201 (CityJson v)) ->
  let w' := snd (CityController.createCity env req w) in
  forall r2,
    user r2 = user req -> params_id r2 = view_id v ->
    fst (CityController.toggleFavorite env r2 w')
    = Ok (mkResponse 200
            (CityJson (mkView (view_id v) (view_name v) (view_country v)
                              (JS.truthy (body_isFavorite r2)))))
    /\ fst (CityController.deleteCity env r2 w') = Ok (mkResponse 204 NoBody)
    /\ cities (db (snd (CityController.deleteCity env r2 w'))) = cities (db w).
Proof.
  intros Hr Hb H201 w' r2 Hu2 Hid.
  destruct (createCity_created env req w v H201)
    as (uid & u & raw & best & Hu & Hp & _ & _ & _ & _ & _ & Hv & Hw & _).
  pose proof (reachable_Inv w Hr) as HI.
  set (c := cityFor w u best) in *.
  assert (ObjectId_parse (params_id r2) = Some (city_id c)) as Hc.
  { rewrite Hid, Hv. cbn [CityController.view view_id]. now apply ObjectId_round_trip. }
  assert (~ In (city_id c) (map city_id (cities (db w)))) as Hfresh.
  { apply Inv_fresh; [exact HI | cbn; lia]. }
  assert (NoDup (map city_id (cities (db w) ++ [c]))) as Hnd.
  { rewrite map_app. apply NoDup_snoc; [apply HI | exact Hfresh]. }
  assert (In c (cities (db w) ++ [c])) as Hin by (apply in_or_app; right; left; reflexivity).
  rewrite Hu in Hu2. subst w'. rewrite Hw.
  rewrite (toggleFavorite_run env r2 _ uid Hu2), (deleteCity_run env r2 _ uid Hu2), Hc, Hp.
  cbv zeta. cbn [db cities].
  rewrite (updateFirst_byId (city_id c) u
             (CityModel.setFavorite (JS.truthy (body_isFavorite r2))) _ c
             (fun d => eq_refl) Hnd Hin eq_refl eq_refl).
  change u with (userId c) at 2. rewrite (removeFirst_byId _ c Hnd Hin).
  cbn [fst snd withCities db cities]. split; [|split].
  - rewrite Hv. reflexivity.
  - reflexivity.
  - unfold without. rewrite filter_app. cbn [filter]. rewrite N.eqb_refl. cbn [negb].
    rewrite app_nil_r. now apply without_none.
Qed.

Lemma created_id_addresses_city_witness :
  let w' := snd (CityController.createCity Sample.env
                   (Sample.createReq Sample.alice "Lima" None) Sample.world1) in
  fst (CityController.toggleFavorite Sample.env
         (Sample.favoriteReq Sample.alice "000000000000000000000003"
            (Some (JS.JBool true))) w')
  = Ok (mkResponse 200
          (CityJson (mkView "000000000000000000000003" "Lima" (Some "PE") true)))
  /\ cities (db (snd (CityController.deleteCity Sample.env
                        (Sample.favoriteReq Sample.alice "000000000000000000000003"
                           (Some (JS.JBool true))) w')))
     = cities (db Sample.world1).
Proof.
  intros w'.
  destruct (created_id_addresses_city Sample.env
              (Sample.createReq Sample.alice "Lima" None) Sample.world1
              (mkView "000000000000000000000003" "Lima" (Some "PE") false)
              (reach_request Sample.env PostCities
                 (Sample.signedCreateReq Sample.alice " oslo " None) reach_start)
              eq_refl eq_refl
              (Sample.favoriteReq Sample.alice "000000000000000000000003"
                 (Some (JS.JBool true))) eq_refl eq_refl) as (H1 & _ & H2).
  split; [exact H1 | exact H2].
Defined.

Lemma upperChar_idem (c : ascii) : JS.upperChar (JS.upperChar c) = JS.upperChar c.
Proof. destruct c as [[] [] [] [] [] [] [] []]; reflexivity. Qed.

Lemma toUpperCase_idem (s : string) : JS.toUpperCase (JS.toUpperCase s) = JS.toUpperCase s.
Proof.
  unfold JS.toUpperCase.
  induction s as [|c s IH]; simpl; [reflexivity|].
  now rewrite upperChar_idem, IH.
Qed.

(** The country code of the request, when it has one, is not empty and is
    in upper case. *)
Lemma normalizedCountry_shape (req : Request) (cc : string) :
  CityController.normalizedCountry req = Some cc ->
  JS.truthyStr (Some cc) = true /\ JS.toUpperCase cc = cc.
Proof.
  unfold CityController.normalizedCountry.
  destruct (body_country req) as [c|]; [|discriminate].
  cbn [JS.truthyStr option_map].
  destruct (negb (c =? "") && negb (JS.trim c =? "")) eqn:E; [|discriminate].
  intros [= <-]. apply andb_true_iff in E as [_ E].
  unfold JS.toUpperCase at 1. rewrite mapString_empty. split; [exact E|].
  apply toUpperCase_idem.
Qed.

Lemma storedCountry_shape (m : ResolvedLocation) (k : string) :
  storedCountry m = Some k -> k <> "" /\ JS.toUpperCase k = k.
Proof.
  unfold storedCountry. destruct (loc_country m) as [k0|]; [|discriminate].
  cbn [JS.truthyStr option_map]. destruct (k0 =? "") eqn:E; [discriminate|].
  intros [= <-]. split; [|apply toUpperCase_idem].
  apply String.eqb_neq. unfold JS.toUpperCase. now rewrite mapString_empty.
Qed.

(** X10.  The document behind a 201 answer of [POST /cities]: it is
    appended to the collection, owned by the caller, not a favorite and
    without an API city id, and the answer is its view.  When the request
    carried a country code, the stored country is that code, trimmed and in
    upper case, which is two ASCII letters; a stored country is never empty
    and is in upper case.  The handler made two outgoing requests, in this
    order: the geocoding lookup for the trimmed name (with [,CODE] when a
    code was given) and the weather lookup for the stored name and
    country; the accounts are untouched. *)
Theorem created_city_document
        (env : Env) (req : Request) (w : World) (v : CityView) :
  fst (CityController.createCity env req w) = Ok (mkResponse 201 (CityJson v)) ->
  let w' := snd (CityController.createCity env req w) in
  exists c uid,
    user req = Some uid /\ ObjectId_parse uid = Some (userId c)
    /\ cities (db w') = (cities (db w) ++ [c])%list
    /\ users (db w') = users (db w)
    /\ v = CityController.view c
    /\ isFavorite c = false /\ apiCityId c = None
    /\ (forall cc, CityController.normalizedCountry req = Some cc ->
                   country c = Some cc /\ JS.testTwoLetters cc = true)
    /\ (forall k, country c = Some k -> k <> "" /\ JS.toUpperCase k = k)
    /\ calls w'
       = (calls w ++ [GeoDirect (geoQuery (CityController.normalizedName req)
                                   (CityController.normalizedCountry req));
                      WeatherCurrent (WeatherService.query c)])%list.
Proof.
  intros H201 w'.
  destruct (createCity_created env req w v H201)
    as (uid & u & raw & best & Hu & Hp & _ & _ & _ & Hcc & Htest & Hv & Hw & _).
  exists (cityFor w u best), uid. subst w'. rewrite Hw. cbn [db cities users calls].
  repeat (match goal with |- _ /\ _ => split end);
    try assumption; try reflexivity.
  - intros cc Ecc. destruct (normalizedCountry_shape req cc Ecc) as [Ht _]. split.
    + cbn [country cityFor]. rewrite Hcc; [exact Ecc | now rewrite Ecc].
    + now apply Htest.
  - cbn [country cityFor]. apply storedCountry_shape.
Qed.

Lemma created_city_document_witness :
  exists c,
    cities (db (snd (CityController.createCity Sample.env
                       (Sample.createReq Sample.alice " Paris" (Some " fr ")) Sample.world1)))
    = (cities (db Sample.world1) ++ [c])%list
    /\ country c = Some "FR"
    /\ calls (snd (CityController.createCity Sample.env
                     (Sample.createReq Sample.alice " Paris" (Some " fr ")) Sample.world1))
       = (calls Sample.world1 ++ [GeoDirect "Paris,FR"; WeatherCurrent "Paris,FR"])%list.
Proof.
  destruct (created_city_document Sample.env
              (Sample.createReq Sample.alice " Paris" (Some " fr ")) Sample.world1
              (mkView "000000000000000000000003" "Paris" (Some "FR") false) eq_refl)
    as (c & uid & _ & _ & Hc & _ & Hv & _ & _ & Hcc & _ & Hcalls).
  exists c. split; [exact Hc|]. split.
  - apply (Hcc "FR"). reflexivity.
  - rewrite Hcalls. destruct (Hcc "FR" eq_refl) as [Ec _].
    unfold WeatherService.query. rewrite Ec. cbn [JS.truthyStr].
    assert (name c = "Paris") as ->; [|reflexivity].
    apply (f_equal view_name) in Hv. cbn in Hv. congruence.
Defined.

Lemma trimStart_blank (s : string) :
  JS.forallb_string JS.isSpace s = true -> JS.trimStart s = "".
Proof.
  induction s as [|c s IH]; cbn; [reflexivity|].
  intros H. apply andb_true_iff in H as [-> H]. now apply IH.
Qed.

Lemma trim_blank (s : string) :
  JS.forallb_string JS.isSpace s = true -> JS.trim s = "".
Proof. intros H. unfold JS.trim. now rewrite trimStart_blank. Qed.







(** X13.  [POST /cities] reports a failed geocoding lookup as a duplicate:
    for a request with a name and a well-formed country, when no API key is
    configured or the geocoder's call throws, the answer is 400 "City
    already exists in your list" whatever the user's list holds, and
    nothing is stored; without an API key no request is sent either. *)
Theorem geocoder_failure_reported_as_duplicate
        (env : Env) (req : Request) (w : World) (uid nm : string) :
  user req = Some uid ->
  body_name req = Some nm -> JS.trim nm <> "" ->
  (forall cc, CityController.normalizedCountry req = Some cc -> JS.testTwoLetters cc = true) ->
  let r := CityController.createCity env req w in
  (hasApiKey env = false ->
   r = (Ok (mkResponse 400 (Message "City already exists in your list")), w))
  /\ (forall e,
        hasApiKey env = true ->
        geo_direct env (geoQuery (CityController.normalizedName req)
                                 (CityController.normalizedCountry req)) = Throw e ->
        fst r = Ok (mkResponse 400 (Message "City already exists in your list"))
        /\ db (snd r) = db w).
Proof.
  intros Hu Hn Hn0 Hcc r. subst r.
  assert (negb (JS.truthyStr (body_name req))
          || negb (JS.truthyStr (option_map JS.trim (body_name req))) = false) as Hname.
  { rewrite Hn. cbn. apply String.eqb_neq in Hn0 as E. rewrite E.
    destruct (nm =? "") eqn:E'; [|reflexivity].
    apply String.eqb_eq in E'. subst nm. now elim Hn0. }
  assert (JS.truthyStr (CityController.normalizedCountry req)
          && negb match CityController.normalizedCountry req with
                  | Some c => JS.testTwoLetters c
                  | None => false
                  end = false) as Hctry.
  { destruct (CityController.normalizedCountry req) as [cc|]; [|reflexivity].
    rewrite (Hcc cc eq_refl). apply andb_false_r. }
  unfold CityController.createCity, tryCatch at 1. rewrite Hu, Hname. cbv zeta.
  rewrite Hctry. unfold tryCatch, bind. rewrite resolveExactCity_run.
  split.
  - intros ->. reflexivity.
  - intros e -> ->. split; reflexivity.
Qed.

Lemma geocoder_failure_reported_as_duplicate_witness :
  CityController.createCity
    Scenario.keyless
    (Sample.createReq Sample.alice "Lima" None) Sample.world1
  = (Ok (mkResponse 400 (Message "City already exists in your list")), Sample.world1).
Proof.
  destruct (geocoder_failure_reported_as_duplicate
              Scenario.keyless
              (Sample.createReq Sample.alice "Lima" None) Sample.world1 Sample.alice "Lima"
              eq_refl eq_refl) as [H _].
  - discriminate.
  - intros cc Hc. discriminate Hc.
  - apply H. reflexivity.
Defined.

(* ===================================================================== *)
(** ** What a request can touch *)
(* ===================================================================== *)

(** The middleware either answers 401 itself, leaving the world as it was,
    or has verified the token of the header and hands the request over
    with the verified id. *)
Lemma authMiddleware_cases (env : Env) (req : Request) (next : Request -> M Response)
      (w : World) :
  (exists m, authMiddleware env req next w = (Ok (unauthorized m), w) /\ m <> "")
  \/ exists header t secret uid,
      authorization req = Some header
      /\ nth_error (JS.split " " header) 0 = Some "Bearer"
      /\ nth_error (JS.split " " header) 1 = Some t
      /\ JWT_SECRET env = Some secret
      /\ jwt_verify env t secret = Some uid
      /\ snd (authMiddleware env req next w) = snd (next (withUser req uid) w)
      /\ (fst (authMiddleware env req next w) = fst (next (withUser req uid) w)
          \/ (exists e, fst (next (withUser req uid) w) = Throw e)
             /\ fst (authMiddleware env req next w) = Ok (unauthorized "Unauthorized")).
Proof.
  unfold authMiddleware, tryCatch, json, ret, throw, unauthorized.
  destruct (authorization req) as [h|]; [|left; eexists; (split; [reflexivity | discriminate])].
  destruct (h =? ""); [left; eexists; (split; [reflexivity | discriminate])|].
  destruct (nth_error (JS.split " " h) 0) as [s|] eqn:E0;
    [|left; eexists; (split; [reflexivity | discriminate])].
  destruct (strictEqOpt (Some s) (Some "Bearer")) eqn:Es;
    [|left; eexists; (split; [reflexivity | discriminate])].
  apply strictEqOpt_eq in Es. injection Es as ->.
  destruct (nth_error (JS.split " " h) 1) as [t|] eqn:E1;
    [|left; eexists; (split; [reflexivity | discriminate])].
  cbn [negb orb JS.truthyStr].
  destruct (t =? ""); [left; eexists; (split; [reflexivity | discriminate])|]. cbn [negb].
  destruct (JWT_SECRET env) as [secret|]; [|left; eexists; (split; [reflexivity | discriminate])].
  destruct (secret =? ""); [left; eexists; (split; [reflexivity | discriminate])|].
  destruct (jwt_verify env t secret) as [uid|] eqn:Ev; [|left; eexists; (split; [reflexivity | discriminate])].
  right. exists h, t, secret, uid.
  repeat (match goal with |- _ /\ _ => split end); try reflexivity; try assumption.
  - destruct (next (withUser req uid) w) as [[r|e] w']; reflexivity.
  - destruct (next (withUser req uid) w) as [[r|e] w']; [left; reflexivity|].
    right. split; [eexists|]; reflexivity.
Qed.

Lemma removeFirst_others (cid u : ObjectId) (l : list ICity) :
  filter (fun c => negb (N.eqb (userId c) u))
         (CityModel.removeFirst (CityModel.matches cid u) l)
  = filter (fun c => negb (N.eqb (userId c) u)) l.
Proof.
  induction l as [|d l IH]; cbn; [reflexivity|].
  unfold CityModel.matches at 1.
  destruct (N.eqb (userId d) u) eqn:E; cbn.
  - destruct (N.eqb (city_id d) cid); cbn; [reflexivity|]. now rewrite E.
  - rewrite andb_false_r. cbn. rewrite E. cbn. now rewrite IH.
Qed.

Lemma updateFirst_others (cid u : ObjectId) (v : bool) (l : list ICity) :
  filter (fun c => negb (N.eqb (userId c) u))
         (snd (CityModel.updateFirst (CityModel.matches cid u) (CityModel.setFavorite v) l))
  = filter (fun c => negb (N.eqb (userId c) u)) l.
Proof.
  induction l as [|d l IH]; cbn; [reflexivity|].
  unfold CityModel.matches at 1.
  destruct (N.eqb (userId d) u) eqn:E; cbn.
  - destruct (N.eqb (city_id d) cid); cbn.
    + now rewrite E.
    + destruct (CityModel.updateFirst _ _ l) as [r l'] eqn:E'. cbn in *.
      now rewrite E, IH.
  - rewrite andb_false_r.
    destruct (CityModel.updateFirst _ _ l) as [r l'] eqn:E'. cbn in *.
    now rewrite E, IH.
Qed.

Lemma register_cities (env : Env) (req : Request) (w : World) :
  cities (db (snd (AuthController.register env req w))) = cities (db w).
Proof.
  unfold AuthController.register, AuthService.registerUser,
    UserRepository.findUserByEmail, UserRepository.createUser,
    UserModel.findOne, UserModel.create, getDb, putDb, ObjectId_fresh.
  run_handler. all: reflexivity.
Qed.

(** Past the guard, a handler leaves the cities of the other users as they
    were. *)
Lemma handler_keeps_others (env : Env) (req : Request) (w : World)
      (uid : string) (u : ObjectId) :
  user req = Some uid -> ObjectId_parse uid = Some u ->
  (othersOf (snd (CityController.createCity env req w)) u = othersOf w u)
  /\ (othersOf (snd (CityController.deleteCity env req w)) u = othersOf w u)
  /\ (othersOf (snd (CityController.toggleFavorite env req w)) u = othersOf w u).
Proof.
  intros Hu Hp. unfold othersOf. split; [|split].
  - destruct (createCity_outcome env req w)
      as [(resp & _ & _ & ->) | (c & _ & -> & _ & Hc)]; [reflexivity|].
    destruct Hc as (uid' & raw & best & Hu' & Hp' & _).
    rewrite Hu in Hu'. injection Hu' as <-. rewrite Hp in Hp'. injection Hp' as ->.
    cbn [cities]. rewrite filter_app. cbn [filter]. rewrite N.eqb_refl. cbn [negb].
    apply app_nil_r.
  - rewrite (deleteCity_run env req w uid Hu), Hp.
    destruct (ObjectId_parse (params_id req)) as [cid|]; [|reflexivity].
    cbn [snd withCities db cities]. apply removeFirst_others.
  - rewrite (toggleFavorite_run env req w uid Hu), Hp.
    destruct (ObjectId_parse (params_id req)) as [cid|]; [|reflexivity].
    cbv zeta. cbn [snd withCities db cities]. apply updateFirst_others.
Qed.

Lemma handler_without_owner (env : Env) (req : Request) (w : World) (uid : string) :
  user req = Some uid -> ObjectId_parse uid = None ->
  cities (db (snd (CityController.createCity env req w))) = cities (db w)
  /\ cities (db (snd (CityController.deleteCity env req w))) = cities (db w)
  /\ cities (db (snd (CityController.toggleFavorite env req w))) = cities (db w).
Proof.
  intros Hu Hp. split; [|split].
  - destruct (createCity_outcome env req w)
      as [(resp & _ & _ & ->) | (c & _ & -> & _ & Hc)]; [reflexivity|].
    destruct Hc as (uid' & raw & best & Hu' & Hp' & _).
    rewrite Hu in Hu'. injection Hu' as <-. congruence.
  - rewrite (deleteCity_run env req w uid Hu), Hp.
    destruct (ObjectId_parse (params_id req)); reflexivity.
  - rewrite (toggleFavorite_run env req w uid Hu), Hp.
    destruct (ObjectId_parse (params_id req)); reflexivity.
Qed.

(** X14.  A request changes the cities of one user at most, the one its
    token names: whenever a request leaves the collection of cities
    different from what it was, its Authorization header is [Bearer]
    followed by a token that the JWT library verifies, with the configured
    secret, to the id of a user, and every document of every other user is
    in the collection as before, in the same order. *)
Theorem requests_touch_only_own_cities
        (env : Env) (route : Route) (req : Request) (w : World) :
  cities (db (snd (app env route req w))) <> cities (db w) ->
  exists header token secret uid u,
    authorization req = Some header
    /\ nth_error (JS.split " " header) 0 = Some "Bearer"
    /\ nth_error (JS.split " " header) 1 = Some token
    /\ JWT_SECRET env = Some secret
    /\ jwt_verify env token secret = Some uid
    /\ ObjectId_parse uid = Some u
    /\ othersOf (snd (app env route req w)) u = othersOf w u.
Proof.
  intros Hch.
  assert (forall next,
             app env route req w = authMiddleware env req next w ->
             (forall r uid, user r = Some uid ->
                cities (db (snd (next r w))) <> cities (db w) ->
                exists u, ObjectId_parse uid = Some u
                          /\ othersOf (snd (next r w)) u = othersOf w u) ->
             exists header token secret uid u,
               authorization req = Some header
               /\ nth_error (JS.split " " header) 0 = Some "Bearer"
               /\ nth_error (JS.split " " header) 1 = Some token
               /\ JWT_SECRET env = Some secret
               /\ jwt_verify env token secret = Some uid
               /\ ObjectId_parse uid = Some u
               /\ othersOf (snd (app env route req w)) u = othersOf w u) as Hguard.
  { intros next Happ Hnext. rewrite Happ in Hch |- *.
    destruct (authMiddleware_cases env req next w)
      as [(m & Hm & _) | (h & t & s & uid & H1 & H2 & H3 & H4 & H5 & H6 & _)].
    - rewrite Hm in Hch. now elim Hch.
    - rewrite H6 in Hch. destruct (Hnext (withUser req uid) uid eq_refl Hch) as (u & Hp & Ho).
      exists h, t, s, uid, u. unfold othersOf in *. rewrite H6. auto 10. }
  assert (forall (next : Request -> M Response) r uid,
             (forall r, cities (db (snd (next r w))) = cities (db w)) ->
             user r = Some uid ->
             cities (db (snd (next r w))) <> cities (db w) ->
             exists u, ObjectId_parse uid = Some u
                       /\ othersOf (snd (next r w)) u = othersOf w u) as Hro.
  { intros next r uid Hsame _ Hne. now elim Hne. }
  assert (forall (next : Request -> M Response),
             (forall r uid u, user r = Some uid -> ObjectId_parse uid = Some u ->
                              othersOf (snd (next r w)) u = othersOf w u) ->
             (forall r uid, user r = Some uid -> ObjectId_parse uid = None ->
                            cities (db (snd (next r w))) = cities (db w)) ->
             forall r uid, user r = Some uid ->
             cities (db (snd (next r w))) <> cities (db w) ->
             exists u, ObjectId_parse uid = Some u
                       /\ othersOf (snd (next r w)) u = othersOf w u) as Hrw.
  { intros next Hown Hnone r uid Hu Hne.
    destruct (ObjectId_parse uid) as [u|] eqn:Hp.
    - exists u. split; [reflexivity|]. now apply (Hown r uid u).
    - elim Hne. now apply (Hnone r uid). }
  destruct route; cbn [app] in *.
  - now elim Hch.
  - rewrite register_cities in Hch. now elim Hch.
  - rewrite login_world in Hch. now elim Hch.
  - eapply Hguard; [reflexivity|]. intros r uid Hr. apply (Hro _ r uid); [|exact Hr].
    intros r'. destruct (user r'); reflexivity.
  - eapply Hguard; [reflexivity|]. intros r uid Hr. apply (Hro _ r uid); [|exact Hr].
    intros r'. now rewrite listCities_world.
  - eapply Hguard; [reflexivity|]. apply Hrw.
    + intros r uid u Hu Hp. now apply (handler_keeps_others env r w uid u).
    + intros r uid Hu Hp. now apply (handler_without_owner env r w uid).
  - eapply Hguard; [reflexivity|]. intros r uid Hr. apply (Hro _ r uid); [|exact Hr].
    intros r'. now rewrite suggestCities_db.
  - eapply Hguard; [reflexivity|]. apply Hrw.
    + intros r uid u Hu Hp. now apply (handler_keeps_others env r w uid u).
    + intros r uid Hu Hp. now apply (handler_without_owner env r w uid).
  - eapply Hguard; [reflexivity|]. apply Hrw.
    + intros r uid u Hu Hp. now apply (handler_keeps_others env r w uid u).
    + intros r uid Hu Hp. now apply (handler_without_owner env r w uid).
  - eapply Hguard; [reflexivity|]. intros r uid Hr. apply (Hro _ r uid); [|exact Hr].
    intros r'. now rewrite getCityWeather_db.
  - eapply Hguard; [reflexivity|]. intros r uid Hr. apply (Hro _ r uid); [|exact Hr].
    intros r'. now rewrite getInsights_db.
Qed.

Lemma requests_touch_only_own_cities_witness :
  exists header token secret uid u,
    authorization (Sample.signedCreateReq Sample.alice "Lima" None) = Some header
    /\ nth_error (JS.split " " header) 0 = Some "Bearer"
    /\ nth_error (JS.split " " header) 1 = Some token
    /\ JWT_SECRET Sample.env = Some secret
    /\ jwt_verify Sample.env token secret = Some uid
    /\ ObjectId_parse uid = Some u
    /\ othersOf (snd (app Sample.env PostCities
                        (Sample.signedCreateReq Sample.alice "Lima" None) Sample.world1)) u
       = othersOf Sample.world1 u.
Proof.
  apply requests_touch_only_own_cities.
  vm_compute. intros H. discriminate H.
Defined.






(** X16.  The routes that read - the health probe, login, [GET /me], the
    list, the suggestions, the weather of a city and the AI insights -
    never write to the store, whatever the third parties answer; and the
    routes that do not need a third party - all but [POST /cities], the
    suggestions, the weather and the insights - never send an outgoing
    request. *)
Theorem reads_do_not_write (env : Env) (route : Route) (req : Request) (w : World) :
  (readOnly route = true -> db (snd (app env route req w)) = db w)
  /\ (localOnly route = true -> calls (snd (app env route req w)) = calls w)
  /\ (readOnly route = true -> localOnly route = true -> snd (app env route req w) = w).
Proof.
  assert (forall (P : World -> Prop) next,
             P w -> (forall r', P (snd (next r' w))) ->
             P (snd (authMiddleware env req next w))) as Hguard.
  { intros P next Hw Hnext.
    destruct (authMiddleware_world env req next w) as [-> | [uid ->]]; auto. }
  split; [|split].
  - intros Hr. destruct route; try discriminate Hr; cbn [app];
      try (apply (Hguard (fun w' => db w' = db w)); [reflexivity | intros r']).
    + reflexivity.
    + now rewrite login_world.
    + destruct (user r'); reflexivity.
    + now rewrite listCities_world.
    + apply suggestCities_db.
    + apply getCityWeather_db.
    + apply getInsights_db.
  - intros Hl. destruct route; try discriminate Hl; cbn [app];
      try (apply (Hguard (fun w' => calls w' = calls w)); [reflexivity | intros r']).
    + reflexivity.
    + unfold AuthController.register, AuthService.registerUser,
        UserRepository.findUserByEmail, UserRepository.createUser,
        UserModel.findOne, UserModel.create, getDb, putDb, ObjectId_fresh.
      run_handler. all: reflexivity.
    + now rewrite login_world.
    + destruct (user r'); reflexivity.
    + now rewrite listCities_world.
    + unfold CityController.deleteCity. run_handler. all: reflexivity.
    + unfold CityController.toggleFavorite. run_handler. all: reflexivity.
  - intros Hr Hl. destruct route; try discriminate Hr; try discriminate Hl; cbn [app];
      try (apply (Hguard (fun w' => w' = w)); [reflexivity | intros r']).
    + reflexivity.
    + apply login_world.
    + destruct (user r'); reflexivity.
    + apply listCities_world.
Qed.

Lemma reads_do_not_write_witness :
  db (snd (app Sample.env PostAiInsights
             (withAuthorization (Sample.insightsReq Sample.alice "Which is coldest?")
                (Some ("Bearer jwt-secret." ++ Sample.alice))) Sample.world2))
  = db Sample.world2
  /\ calls (snd (app Sample.env DeleteCitiesId
                   (withAuthorization (Sample.deleteReq Sample.alice Sample.osloId)
                      (Some ("Bearer jwt-secret." ++ Sample.alice))) Sample.world2))
     = calls Sample.world2.
Proof.
  split.
  - destruct (reads_do_not_write Sample.env PostAiInsights
                (withAuthorization (Sample.insightsReq Sample.alice "Which is coldest?")
                   (Some ("Bearer jwt-secret." ++ Sample.alice))) Sample.world2)
      as (H & _).
    apply H. reflexivity.
  - destruct (reads_do_not_write Sample.env DeleteCitiesId
                (withAuthorization (Sample.deleteReq Sample.alice Sample.osloId)
                   (Some ("Bearer jwt-secret." ++ Sample.alice))) Sample.world2)
      as (_ & H & _).
    apply H. reflexivity.
Defined.

(* ===================================================================== *)
(** ** The AI insights *)
(* ===================================================================== *)

Lemma collectLines_calls (env : Env) (l : list ICity) :
  forall (acc : list string) (w : World),
    calls (snd (AiController.collectLines env l acc w))
    = (calls w ++ weatherCalls env l)%list.
Proof.
  unfold weatherCalls.
  induction l as [|c l IH]; intros acc w.
  - cbn. destruct (hasApiKey env); now rewrite app_nil_r.
  - cbn [AiController.collectLines]. unfold bind, tryCatch.
    rewrite fetchWeatherForCity_run.
    destruct (hasApiKey env) eqn:Ek.
    + destruct (weather_current env (WeatherService.query c)) as [d|e].
      * unfold AiController.weatherLine.
        destruct (temperature d); cbn;
          match goal with
          | |- context [AiController.collectLines env l ?x ?y] => rewrite (IH x y)
          end; cbn [calls logCall]; now rewrite <- app_assoc.
      * cbn.
        match goal with
        | |- context [AiController.collectLines env l ?x ?y] => rewrite (IH x y)
        end. cbn [calls logCall]. now rewrite <- app_assoc.
    + cbn.
      match goal with
      | |- context [AiController.collectLines env l ?x ?y] => rewrite (IH x y)
      end. reflexivity.
Qed.

Lemma getAiInsight_calls (env : Env) (q s : string) (w : World) :
  calls (snd (AiService.getAiInsight env q s w)) = (calls w ++ insightCalls env q s)%list.
Proof.
  unfold AiService.getAiInsight, insightCalls.
  destruct (JS.truthyStr (GEMINI_API_KEY env)); cbn [negb].
  - unfold tryCatch, bind, httpCall, ret.
    destruct (generate_content env _); reflexivity.
  - cbn. now rewrite app_nil_r.
Qed.

(** X17.  [POST /ai/insights] past the guard, with a question that is not
    blank.  A user without cities is answered 400 and nothing is sent.
    Otherwise the handler sends one weather request per saved city, newest
    first, whether or not the earlier ones failed, and then, when a Gemini
    key is configured, one request to the generative API whose prompt is
    built from the trimmed question and the lines of the cities that
    loaded; with no OpenWeather key no weather request is sent.  A user id
    that is no ObjectId is answered 500. *)
Theorem insights_outgoing_requests
        (env : Env) (req : Request) (w : World) (uid q : string) :
  user req = Some uid -> body_question req = Some q -> JS.trim q <> "" ->
  let r := AiController.getInsights env req w in
  (ObjectId_parse uid = None ->
   r = (Ok (mkResponse 500 (Message "Failed to generate AI insights")), w))
  /\ (forall u,
        ObjectId_parse uid = Some u ->
        (citiesOf w u = [] ->
         r = (Ok (mkResponse 400
                    (Message "You don't have any cities yet. Add some cities first.")), w))
        /\ (citiesOf w u <> [] ->
            calls (snd r)
            = (calls w ++ weatherCalls env (citiesOf w u)
                 ++ insightCalls env (JS.trim q)
                      (JS.join AiService.newline (loadedLines env (citiesOf w u))))%list)).
Proof.
  intros Hu Hq Hq0 r. subst r.
  assert (negb (JS.truthyStr (body_question req))
          || negb (JS.truthyStr (option_map JS.trim (body_question req))) = false) as Hg.
  { rewrite Hq. cbn. apply String.eqb_neq in Hq0 as E. rewrite E.
    destruct (q =? "") eqn:E'; [|reflexivity].
    apply String.eqb_eq in E'. subst q. now elim Hq0. }
  unfold AiController.getInsights. rewrite Hu, Hg, Hq.
  unfold tryCatch, bind. rewrite listCitiesForUser_run.
  split.
  - intros ->. reflexivity.
  - intros u ->. fold (citiesOf w u). split.
    + intros ->. reflexivity.
    + intros Hne. destruct (citiesOf w u) as [|c l] eqn:El; [now elim Hne|].
      pose proof (collectLines_run env (c :: l) [] w) as Hlines.
      pose proof (collectLines_calls env (c :: l) [] w) as Hcalls.
      destruct (AiController.collectLines env (c :: l) [] w) as [[lines|e] w1];
        [|discriminate Hlines].
      cbn [fst snd] in *. injection Hlines as ->. cbn [List.app] in *.
      pose proof (getAiInsight_calls env (JS.trim q)
                    (JS.join AiService.newline (loadedLines env (c :: l))) w1) as Hai.
      destruct (AiService.getAiInsight env _ _ w1) as [[r|e] w2]; cbn [snd] in *.
      * unfold json, ret. cbn [snd]. rewrite Hai, Hcalls. now rewrite <- app_assoc.
      * unfold json, ret. cbn [snd]. rewrite Hai, Hcalls. now rewrite <- app_assoc.
Qed.

Lemma insights_outgoing_requests_witness :
  calls (snd (AiController.getInsights Sample.env
                (Sample.insightsReq Sample.alice "Which is coldest?") Sample.world2))
  = (calls Sample.world2 ++ [WeatherCurrent "Lima,PE"; WeatherCurrent "Oslo,NO"])%list
  /\ AiController.getInsights Sample.env
       (Sample.insightsReq Sample.bob "Which is coldest?") Sample.world2
     = (Ok (mkResponse 400
              (Message "You don't have any cities yet. Add some cities first.")),
        Sample.world2).
Proof.
  split.
  - destruct (insights_outgoing_requests Sample.env
                (Sample.insightsReq Sample.alice "Which is coldest?") Sample.world2
                Sample.alice "Which is coldest?" eq_refl eq_refl) as (_ & H).
    + vm_compute. discriminate.
    + destruct (H (hexValue 0 Sample.alice) eq_refl) as [_ H1].
      rewrite H1; [reflexivity|]. vm_compute. discriminate.
  - destruct (insights_outgoing_requests Sample.env
                (Sample.insightsReq Sample.bob "Which is coldest?") Sample.world2
                Sample.bob "Which is coldest?" eq_refl eq_refl) as (_ & H).
    + vm_compute. discriminate.
    + destruct (H (hexValue 0 Sample.bob) eq_refl) as [H1 _].
      apply H1. reflexivity.
Defined.

Lemma append_not_empty (a b : string) : a <> "" -> a ++ b <> "".
Proof. destruct a; [congruence | discriminate]. Qed.

Lemma heuristicFallback_answer (q s : string) :
  AiService.answer (AiService.heuristicFallback q s) <> ""
  /\ AiService.usedFallback (AiService.heuristicFallback q s) = true.
Proof.
  unfold AiService.heuristicFallback.
  destruct (AiService.nonEmptyLines s); [split; [discriminate | reflexivity]|].
  split; [|reflexivity]. cbn [AiService.answer].
  apply append_not_empty.
  destruct (AiService.parseLines _); [discriminate|].
  destruct (hd_error _); [|discriminate].
  destruct (last _ _); [|discriminate].
  apply append_not_empty. discriminate.
Qed.

(** X18.  [getAiInsight] always returns, and with an answer that is not
    empty.  The answer is flagged as not being the fallback exactly when a
    Gemini key is configured and the provider's call returned; it is then
    the text of the first candidate - its parts joined by a blank line,
    trimmed - and the fixed sentence "I couldn't generate insights right
    now." when there is no candidate, the first candidate has no parts, or
    that text is empty; further candidates are not read.  One request is
    sent when a key is configured and none otherwise. *)
Theorem ai_answer_is_never_empty (env : Env) (q s : string) (w : World) :
  exists r,
    AiService.getAiInsight env q s w
    = (Ok r, mkWorld (db w) (nextObjectId w) (calls w ++ insightCalls env q s))
    /\ AiService.answer r <> ""
    /\ (AiService.usedFallback r = false
        <-> JS.truthyStr (GEMINI_API_KEY env) = true
            /\ exists resp, generate_content env (AiService.buildPrompt q s) = Ok resp)
    /\ (forall resp,
          JS.truthyStr (GEMINI_API_KEY env) = true ->
          generate_content env (AiService.buildPrompt q s) = Ok resp ->
          (candidates resp = None \/ candidates resp = Some [] ->
           AiService.answer r = noInsight)
          /\ (forall c rest,
                candidates resp = Some (c :: rest) ->
                (content_parts c = None \/ content_parts c = Some [] ->
                 AiService.answer r = noInsight)
                /\ (forall p ps,
                      content_parts c = Some (p :: ps) ->
                      let text :=
                        JS.trim (JS.join (AiService.newline ++ AiService.newline)
                                   (map AiService.partText (p :: ps))) in
                      AiService.answer r = if text =? "" then noInsight else text))).
Proof.
  unfold AiService.getAiInsight, insightCalls.
  destruct (JS.truthyStr (GEMINI_API_KEY env)) eqn:Ek; cbn [negb].
  - unfold tryCatch, bind, httpCall, ret.
    destruct (generate_content env (AiService.buildPrompt q s)) as [resp|e] eqn:Eg.
    + eexists. split; [reflexivity|]. cbn [AiService.answer AiService.usedFallback].
      split; [|split].
      * destruct (candidates resp) as [[|c rest]|]; try discriminate.
        destruct (content_parts c) as [[|p ps]|]; try discriminate.
        destruct (0 <? _)%nat eqn:El; [|discriminate].
        intros E. rewrite E in El. discriminate El.
      * split; [intros _; split; [reflexivity | now exists resp] | reflexivity].
      * intros resp' _ [= <-]. split.
        -- intros [-> | ->]; reflexivity.
        -- intros c rest ->. split.
           ++ intros [-> | ->]; reflexivity.
           ++ intros p ps ->. cbv zeta.
              destruct (JS.trim _) as [|a t]; reflexivity.
    + eexists. split; [reflexivity|].
      destruct (heuristicFallback_answer q s) as [Ha Hf].
      split; [exact Ha|]. split.
      * rewrite Hf. split; [discriminate|]. intros [_ [resp Hr]]. discriminate Hr.
      * intros resp _ Hr. discriminate Hr.
  - eexists. split; [unfold ret; rewrite app_nil_r; destruct w; reflexivity|].
    destruct (heuristicFallback_answer q s) as [Ha Hf].
    split; [exact Ha|]. split.
    + rewrite Hf. split; [discriminate|]. intros [Hk _]. discriminate Hk.
    + intros resp Hk. discriminate Hk.
Qed.

Lemma ai_answer_is_never_empty_witness :
  exists r,
    fst (AiService.getAiInsight Scenario.env "Which is coldest?" "City: Oslo | 1.0" emptyWorld)
    = Ok r
    /\ AiService.usedFallback r = false
    /\ AiService.answer r
       = "Oslo is coldest." ++ AiService.newline ++ AiService.newline
           ++ AiService.newline ++ AiService.newline ++ "Pack a coat.".
Proof.
  destruct (ai_answer_is_never_empty Scenario.env "Which is coldest?" "City: Oslo | 1.0"
              emptyWorld) as (r & Hr & _ & Hf & H).
  exists r. split; [rewrite Hr; reflexivity|]. split.
  - apply Hf. split; [reflexivity|]. eexists. reflexivity.
  - destruct (H _ eq_refl eq_refl) as [_ H1].
    destruct (H1 _ _ eq_refl) as [_ H2].
    rewrite (H2 _ _ eq_refl). reflexivity.
Defined.

Lemma split_blank (sep : ascii) (s : string) :
  JS.forallb_string JS.isSpace s = true ->
  Forall (fun p => JS.forallb_string JS.isSpace p = true) (JS.split sep s).
Proof.
  induction s as [|c s IH]; cbn [JS.split JS.forallb_string].
  - intros _. constructor; [reflexivity | constructor].
  - intros H. apply andb_true_iff in H as [Hc Hs]. specialize (IH Hs).
    destruct (Ascii.eqb c sep).
    + constructor; [reflexivity | exact IH].
    + destruct (JS.split sep s) as [|h t]; [constructor; [cbn; now rewrite Hc | constructor]|].
      inversion IH; subst. constructor; [cbn; now rewrite Hc | assumption].
Qed.

Lemma trimStart_empty (s : string) :
  JS.trimStart s = "" -> JS.forallb_string JS.isSpace s = true.
Proof.
  induction s as [|c s IH]; cbn; [reflexivity|].
  destruct (JS.isSpace c); [exact IH | discriminate].
Qed.

Lemma trim_empty (s : string) :
  JS.trim s = "" -> JS.forallb_string JS.isSpace s = true.
Proof.
  unfold JS.trim. intros H. apply trimStart_empty.
  pose proof (trimStart_head s) as Hh.
  destruct (JS.trimStart s) as [|c t]; [reflexivity|].
  cbn in Hh, H. rewrite Hh in H. discriminate H.
Qed.

Lemma split_not_nil (sep : ascii) (s : string) : JS.split sep s <> [].
Proof.
  destruct s as [|c s]; cbn [JS.split]; [discriminate|].
  destruct (Ascii.eqb c sep); [discriminate|].
  destruct (JS.split sep s); discriminate.
Qed.

(** Joining the pieces of a split gives the text back. *)
Lemma split_join (sep : ascii) (s : string) :
  String.concat (String sep "") (JS.split sep s) = s.
Proof.
  induction s as [|c s IH]; cbn [JS.split]; [reflexivity|].
  pose proof (split_not_nil sep s) as Hne.
  destruct (JS.split sep s) as [|h t]; [now elim Hne|].
  destruct (Ascii.eqb c sep) eqn:E.
  - apply Ascii.eqb_eq in E. subst c. cbn in IH |- *. now rewrite <- IH.
  - destruct t; cbn in IH |- *; now rewrite <- IH.
Qed.

Lemma forallb_string_append (p : ascii -> bool) (a b : string) :
  JS.forallb_string p (a ++ b) = JS.forallb_string p a && JS.forallb_string p b.
Proof.
  induction a as [|c a IH]; cbn; [reflexivity|]. now rewrite IH, andb_assoc.
Qed.

Lemma concat_blank (sep : string) (l : list string) :
  JS.forallb_string JS.isSpace sep = true ->
  Forall (fun p => JS.forallb_string JS.isSpace p = true) l ->
  JS.forallb_string JS.isSpace (String.concat sep l) = true.
Proof.
  intros Hsep. induction l as [|h t IH]; intros H; [reflexivity|].
  inversion H as [|? ? Hh Ht]; subst. cbn [String.concat].
  destruct t as [|h' t']; [exact Hh|].
  rewrite !forallb_string_append, Hh, Hsep. cbn. apply IH. exact Ht.
Qed.

(** The summary has a line to read exactly when it is not blank. *)
Lemma nonEmptyLines_blank (s : string) :
  AiService.nonEmptyLines s = [] <-> JS.forallb_string JS.isSpace s = true.
Proof.
  unfold AiService.nonEmptyLines. split.
  - intros H. rewrite <- (split_join "010" s) at 1.
    apply concat_blank; [reflexivity|].
    apply Forall_forall. intros p Hp.
    apply trim_empty.
    destruct (JS.trim p) as [|c t] eqn:Et; [reflexivity|].
    assert (In (JS.trim p) (filter (fun l => negb (String.length l =? 0)%nat)
                              (map JS.trim (JS.split "010" s)))) as Hin.
    { apply filter_In. split; [now apply in_map|]. rewrite Et. reflexivity. }
    rewrite H in Hin. contradiction.
  - intros H. pose proof (split_blank "010" s H) as Hall.
    induction (JS.split "010" s) as [|p l IH]; [reflexivity|].
    inversion Hall as [|? ? Hp Hl]; subst. cbn [map filter].
    rewrite (trim_blank p Hp). cbn. now apply IH.
Qed.

(** X19.  The heuristic summary on a summary without readings.  It answers
    "I don't have any weather data yet..." exactly when the weather summary
    is blank - empty, or white space and line breaks only; when the
    summary has text but no line of it parses as a reading, the answer is
    the heading followed by the note that the AI provider is not
    reachable, with no coldest, warmest or average line. *)
Theorem summary_without_readings (q s : string) :
  (AiService.answer (AiService.heuristicFallback q s) = AiService.noDataAnswer
   <-> JS.forallb_string JS.isSpace s = true)
  /\ (JS.forallb_string JS.isSpace s = false ->
      AiService.parseLines (AiService.nonEmptyLines s) = [] ->
      AiService.heuristicFallback q s
      = AiService.mkInsight (AiService.summaryHeader ++ AiService.notConfiguredNote) true).
Proof.
  unfold AiService.heuristicFallback.
  pose proof (nonEmptyLines_blank s) as Hb.
  destruct (AiService.nonEmptyLines s) as [|l ls] eqn:El.
  - split.
    + split; [intros _; now apply Hb | reflexivity].
    + intros Hs. rewrite (proj1 Hb eq_refl) in Hs. discriminate Hs.
  - split.
    + split.
      * cbn [AiService.answer]. intros H. exfalso.
        destruct (AiService.parseLines (l :: ls)); [discriminate H|].
        destruct (hd_error _); [|discriminate H].
        destruct (last _ _); discriminate H.
      * intros H. apply Hb in H. discriminate H.
    + intros _ ->. reflexivity.
Qed.

Lemma summary_without_readings_witness :
  AiService.heuristicFallback "Which is coldest?" "no readings today"
  = AiService.mkInsight (AiService.summaryHeader ++ AiService.notConfiguredNote) true.
Proof.
  destruct (summary_without_readings "Which is coldest?" "no readings today") as [_ H].
  apply H; reflexivity.
Defined.

(* ===================================================================== *)
(** ** Numbers on the weather lines *)
(* ===================================================================== *)












(* ===================================================================== *)
(** ** From the weather reports to the fallback summary *)
(* ===================================================================== *)

Lemma lacks_append (sep : ascii) (a b : string) :
  lacks sep (a ++ b) = lacks sep a && lacks sep b.
Proof. apply forallb_string_append. Qed.








Lemma parseLines_app (a b : list string) :
  AiService.parseLines (a ++ b) = (AiService.parseLines a ++ AiService.parseLines b)%list.
Proof.
  induction a as [|x a IH]; cbn; [reflexivity|].
  destruct (AiService.parseLine x); cbn; now rewrite IH.
Qed.




(* ===================================================================== *)
(** ** The dashboard's list and the server's *)
(* ===================================================================== *)

Lemma ObjectId_toString_inj (a b : ObjectId) :
  (a < 2 ^ 96)%N -> (b < 2 ^ 96)%N ->
  ObjectId_toString a = ObjectId_toString b -> a = b.
Proof.
  intros Ha Hb H. apply (f_equal ObjectId_parse) in H.
  rewrite !ObjectId_round_trip in H by assumption. now injection H.
Qed.

Lemma filter_rev {A} (p : A -> bool) (l : list A) : filter p (rev l) = rev (filter p l).
Proof.
  induction l as [|a l IH]; [reflexivity|]. cbn [rev filter].
  rewrite filter_app, IH. cbn [filter]. destruct (p a); [reflexivity | apply app_nil_r].
Qed.

Lemma filter_comm {A} (p q : A -> bool) (l : list A) :
  filter p (filter q l) = filter q (filter p l).
Proof.
  induction l as [|a l IH]; [reflexivity|]. cbn [filter].
  destruct (p a) eqn:Ep, (q a) eqn:Eq; cbn [filter]; rewrite ?Ep, ?Eq, IH; reflexivity.
Qed.

Lemma map_filter_in {A B} (f : A -> B) (p : A -> bool) (q : B -> bool) (l : list A) :
  (forall a, In a l -> p a = q (f a)) ->
  map f (filter p l) = filter q (map f l).
Proof.
  induction l as [|a l IH]; intros H; [reflexivity|]. cbn [map filter].
  rewrite <- (H a) by (left; reflexivity).
  destruct (p a); cbn [map]; rewrite IH; auto; intros; apply H; now right.
Qed.

Lemma filter_map_keep {A} (p : A -> bool) (f : A -> A) (l : list A) :
  (forall x, p (f x) = p x) -> filter p (map f l) = map f (filter p l).
Proof.
  intros H. induction l as [|x l IH]; [reflexivity|]. cbn [map filter].
  rewrite H. destruct (p x); cbn [map]; now rewrite IH.
Qed.

Lemma citiesOf_In (w : World) (u : ObjectId) (c : ICity) :
  In c (citiesOf w u) <-> In c (cities (db w)) /\ userId c = u.
Proof.
  unfold citiesOf. rewrite <- in_rev, filter_In, N.eqb_eq. reflexivity.
Qed.

(** The ids on display tell the documents apart, as long as ids fit 96
    bits. *)
Lemma shown_id (w : World) (c d : ICity) :
  Forall (fun x => (city_id x < 2 ^ 96)%N) (cities (db w)) ->
  In c (cities (db w)) -> In d (cities (db w)) ->
  (view_id (CityController.view d) =? view_id (CityController.view c))
  = N.eqb (city_id d) (city_id c).
Proof.
  intros Hb Hc Hd. rewrite Forall_forall in Hb. cbn [CityController.view view_id].
  destruct (N.eqb (city_id d) (city_id c)) eqn:E.
  - apply N.eqb_eq in E. rewrite E. apply String.eqb_refl.
  - apply String.eqb_neq. intros H. apply N.eqb_neq in E. apply E.
    apply ObjectId_toString_inj; auto.
Qed.

Lemma NoDup_same_id (l : list ICity) (c d : ICity) :
  NoDup (map city_id l) -> In c l -> In d l -> city_id d = city_id c -> d = c.
Proof.
  induction l as [|x l IH]; cbn; intros Hnd Hc Hd E; [contradiction|].
  inversion Hnd as [|? ? Hx Hl]; subst.
  destruct Hc as [-> | Hc], Hd as [-> | Hd]; auto.
  - exfalso. apply Hx. rewrite <- E. now apply in_map.
  - exfalso. apply Hx. rewrite E. now apply in_map.
Qed.

(** X22.  The list the dashboard keeps stays what [GET /cities] would
    show.  Starting from the list the server shows a user, in a world the
    server reaches and while ids fit 96 bits: after a [POST /cities] that
    was answered 201 the dashboard puts the city of the answer in front,
    after a [DELETE] for a city of the list it drops the entries with that
    id, after a [PATCH .../favorite] - for which it sends the negation of
    the flag it shows, and which is answered 200 with the flag negated -
    it replaces the entries with that id by the answer; each time the
    result is the list the server shows afterwards. *)
Theorem dashboard_list_stays_in_sync (env : Env) (w : World) (uid : string) (u : ObjectId) :
  reachable w -> (nextObjectId w <= 2 ^ 96)%N ->
  ObjectId_parse uid = Some u ->
  (forall req v,
      user req = Some uid ->
      fst (CityController.createCity env req w) = Ok (mkResponse 201 (CityJson v)) ->
      shownTo (snd (CityController.createCity env req w)) u
      = Dashboard.afterAdd v (shownTo w u))
  /\ (forall req city,
        user req = Some uid -> In city (shownTo w u) -> params_id req = view_id city ->
        fst (CityController.deleteCity env req w) = Ok (mkResponse 204 NoBody)
        /\ shownTo (snd (CityController.deleteCity env req w)) u
           = Dashboard.afterDelete (view_id city) (shownTo w u))
  /\ (forall req city,
        user req = Some uid -> In city (shownTo w u) -> params_id req = view_id city ->
        body_isFavorite req = Dashboard.toggleBody city ->
        exists updated,
          fst (CityController.toggleFavorite env req w)
          = Ok (mkResponse 200 (CityJson updated))
          /\ updated = mkView (view_id city) (view_name city) (view_country city)
                              (negb (view_isFavorite city))
          /\ shownTo (snd (CityController.toggleFavorite env req w)) u
             = Dashboard.afterToggle city updated (shownTo w u)).
Proof.
  intros Hr Hb Hp.
  pose proof (reachable_Inv w Hr) as [Hbound Hids _ _].
  assert (Forall (fun x => (city_id x < 2 ^ 96)%N) (cities (db w))) as H96.
  { eapply Forall_impl; [|exact Hbound]. cbn. intros; lia. }
  assert (forall city, In city (shownTo w u) ->
                       exists c, city = CityController.view c
                                 /\ In c (cities (db w)) /\ userId c = u
                                 /\ ObjectId_parse (view_id city) = Some (city_id c)) as Hshown.
  { intros city Hin. apply in_map_iff in Hin as (c & <- & Hc).
    apply citiesOf_In in Hc as [Hc Hu]. exists c. repeat split; try assumption.
    cbn [CityController.view view_id]. apply ObjectId_round_trip.
    rewrite Forall_forall in H96. now apply H96. }
  split; [|split].
  - intros req v Hu H201.
    destruct (createCity_created env req w v H201)
      as (uid' & u' & raw & best & Hu' & Hp' & _ & _ & _ & _ & _ & Hv & Hw & _).
    rewrite Hu in Hu'. injection Hu' as <-. rewrite Hp in Hp'. injection Hp' as <-.
    rewrite Hw. unfold shownTo, Dashboard.afterAdd. rewrite citiesOf_snoc.
    cbn [userId cityFor]. rewrite N.eqb_refl. cbn [map]. now rewrite Hv.
  - intros req city Hu Hin Hid.
    destruct (Hshown city Hin) as (c & -> & Hc & Hcu & Hparse). subst u.
    rewrite (deleteCity_run env req w uid Hu), Hid, Hparse, Hp.
    rewrite (removeFirst_byId _ c Hids Hc). cbn [fst snd]. split; [reflexivity|].
    unfold shownTo, citiesOf, Dashboard.afterDelete, without. cbn [withCities db cities].
    rewrite filter_comm, <- filter_rev.
    apply map_filter_in. intros d Hd. apply in_rev, filter_In in Hd as [Hd _].
    now rewrite (shown_id w c d H96 Hc Hd).
  - intros req city Hu Hin Hid Hbody.
    destruct (Hshown city Hin) as (c & -> & Hc & Hcu & Hparse). subst u.
    rewrite (toggleFavorite_run env req w uid Hu), Hid, Hparse, Hp. cbv zeta.
    rewrite Hbody. cbn [Dashboard.toggleBody JS.truthy].
    rewrite (updateFirst_byId (city_id c) (userId c)
               (CityModel.setFavorite (negb (view_isFavorite (CityController.view c)))) _ c
               (fun d => eq_refl) Hids Hc eq_refl eq_refl).
    cbn [fst snd]. eexists. split; [reflexivity|]. split; [reflexivity|].
    unfold shownTo, citiesOf, Dashboard.afterToggle. cbn [withCities db cities].
    set (f := fun d => if N.eqb (city_id d) (city_id c)
                       then CityModel.setFavorite
                              (negb (view_isFavorite (CityController.view c))) d
                       else d).
    rewrite (filter_map_keep (fun x => N.eqb (userId x) (userId c)) f)
      by (intros x; subst f; cbn beta; destruct (N.eqb (city_id x) (city_id c)); reflexivity).
    rewrite <- map_rev, !map_map. apply map_ext_in.
    intros d Hd. apply in_rev, filter_In in Hd as [Hd _].
    rewrite (shown_id w c d H96 Hc Hd). subst f. cbn beta.
    destruct (N.eqb (city_id d) (city_id c)) eqn:E; [|reflexivity].
    apply N.eqb_eq in E. now rewrite (NoDup_same_id _ c d Hids Hc Hd E).
Qed.

Lemma dashboard_list_stays_in_sync_witness :
  shownTo (snd (CityController.deleteCity Sample.env
                  (Sample.deleteReq Sample.alice Sample.osloId) Sample.world1))
          (hexValue 0 Sample.alice)
  = Dashboard.afterDelete Sample.osloId
      [mkView Sample.osloId "Oslo" (Some "NO") false].
Proof.
  destruct (dashboard_list_stays_in_sync Sample.env Sample.world1 Sample.alice
              (hexValue 0 Sample.alice)
              (reach_request Sample.env PostCities
                 (Sample.signedCreateReq Sample.alice " oslo " None) reach_start))
    as (_ & H & _).
  - vm_compute. discriminate.
  - reflexivity.
  - destruct (H (Sample.deleteReq Sample.alice Sample.osloId)
                (mkView Sample.osloId "Oslo" (Some "NO") false) eq_refl) as [_ H1].
    + left. reflexivity.
    + reflexivity.
    + exact H1.
Defined.


(* ===================================================================== *)
(** ** What an answer depends on *)
(* ===================================================================== *)

Lemma citiesOf_owned (w w' : World) (u : ObjectId) :
  citiesOf w u = citiesOf w' u <-> ownedBy u (cities (db w)) = ownedBy u (cities (db w')).
Proof.
  unfold citiesOf, ownedBy. split; intros H; [|now rewrite H].
  apply (f_equal (@rev ICity)) in H. now rewrite !rev_involutive in H.
Qed.

Lemma matches_owner (cid u : ObjectId) (d : ICity) :
  CityModel.matches cid u d = N.eqb (city_id d) cid && N.eqb (userId d) u.
Proof. reflexivity. Qed.

Lemma find_owned (cid u : ObjectId) (l : list ICity) :
  find (CityModel.matches cid u) l = find (CityModel.matches cid u) (ownedBy u l).
Proof.
  unfold ownedBy. induction l as [|d l IH]; [reflexivity|]. cbn [find filter].
  pose proof (matches_owner cid u d) as Hm.
  destruct (N.eqb (userId d) u) eqn:E.
  - cbn [find]. now rewrite IH.
  - rewrite andb_false_r in Hm. rewrite Hm. exact IH.
Qed.

Lemma removeFirst_owned (cid u : ObjectId) (l : list ICity) :
  ownedBy u (CityModel.removeFirst (CityModel.matches cid u) l)
  = CityModel.removeFirst (CityModel.matches cid u) (ownedBy u l).
Proof.
  unfold ownedBy. induction l as [|d l IH]; [reflexivity|].
  cbn [CityModel.removeFirst filter].
  pose proof (matches_owner cid u d) as Hm.
  destruct (N.eqb (userId d) u) eqn:E.
  - cbn [CityModel.removeFirst].
    destruct (CityModel.matches cid u d); [reflexivity|].
    cbn [filter]. now rewrite E, IH.
  - rewrite andb_false_r in Hm. rewrite Hm. cbn [filter]. now rewrite E.
Qed.

Lemma updateFirst_owned (cid u : ObjectId) (v : bool) (l : list ICity) :
  fst (CityModel.updateFirst (CityModel.matches cid u) (CityModel.setFavorite v) l)
  = fst (CityModel.updateFirst (CityModel.matches cid u) (CityModel.setFavorite v)
           (ownedBy u l))
  /\ ownedBy u (snd (CityModel.updateFirst (CityModel.matches cid u)
                       (CityModel.setFavorite v) l))
     = snd (CityModel.updateFirst (CityModel.matches cid u) (CityModel.setFavorite v)
              (ownedBy u l)).
Proof.
  unfold ownedBy. induction l as [|d l [IH1 IH2]]; [split; reflexivity|].
  cbn [CityModel.updateFirst filter].
  pose proof (matches_owner cid u d) as Hm.
  destruct (N.eqb (userId d) u) eqn:E.
  - cbn [CityModel.updateFirst].
    destruct (CityModel.matches cid u d); cbn [fst snd filter].
    + cbn [CityModel.setFavorite userId]. rewrite E. split; reflexivity.
    + destruct (CityModel.updateFirst _ _ l) as [r1 l1],
               (CityModel.updateFirst _ _ (filter _ l)) as [r2 l2].
      cbn [fst snd filter] in *. rewrite E. split; congruence.
  - rewrite andb_false_r in Hm. rewrite Hm.
    destruct (CityModel.updateFirst _ _ l) as [r1 l1]. cbn [fst snd filter] in *.
    rewrite E. split; assumption.
Qed.

Lemma hasKey_owned (u : ObjectId) (n : string) (c : option string) (l : list ICity) :
  hasKey l (u, n, c) = hasKey (ownedBy u l) (u, n, c).
Proof.
  unfold hasKey, ownedBy. induction l as [|d l IH]; [reflexivity|]. cbn [existsb filter].
  destruct (N.eqb (userId d) u) eqn:E.
  - cbn [existsb]. now rewrite IH.
  - rewrite IH. unfold CityModel.keyEqb, CityModel.indexKey. rewrite E. reflexivity.
Qed.

Lemma ownedBy_snoc (u : ObjectId) (l : list ICity) (c : ICity) :
  ownedBy u (l ++ [c])%list
  = if N.eqb (userId c) u then (ownedBy u l ++ [c])%list else ownedBy u l.
Proof.
  unfold ownedBy. rewrite filter_app. cbn [filter].
  destruct (N.eqb (userId c) u); [reflexivity | apply app_nil_r].
Qed.

Lemma getAiInsight_answer (env : Env) (q s : string) (w w' : World) :
  fst (AiService.getAiInsight env q s w) = fst (AiService.getAiInsight env q s w').
Proof.
  unfold AiService.getAiInsight.
  destruct (negb (JS.truthyStr (GEMINI_API_KEY env))); [reflexivity|].
  unfold tryCatch, bind, httpCall, ret.
  destruct (generate_content env _); reflexivity.
Qed.

(** The block that validates and saves looks at the store only through
    the caller's own documents and the id counter. *)
Lemma saveValidated_owned (env : Env) (p : CityRepository.Payload) (w w' : World)
      (u : ObjectId) :
  ObjectId_parse (CityRepository.p_userId p) = Some u ->
  ownedBy u (cities (db w)) = ownedBy u (cities (db w')) ->
  nextObjectId w = nextObjectId w' ->
  fst (CityController.saveValidated env p w) = fst (CityController.saveValidated env p w')
  /\ ownedBy u (cities (db (snd (CityController.saveValidated env p w))))
     = ownedBy u (cities (db (snd (CityController.saveValidated env p w')))).
Proof.
  intros Hp Ho Hn. rewrite !saveValidated_run, Hp. cbv zeta.
  unfold payloadKey. rewrite (hasKey_owned u _ _ (cities (db w))),
    (hasKey_owned u _ _ (cities (db w'))), Ho.
  destruct (hasApiKey env); cbn [andb].
  - destruct (reportsNotFound _); [split; [reflexivity | exact Ho]|].
    destruct (negb (payloadValid p)); [split; [reflexivity | exact Ho]|].
    destruct (hasKey _ _); [split; [reflexivity | exact Ho]|].
    unfold newCity. cbn [nextObjectId logCall drawId fst snd withCities db cities].
    rewrite Hn, !ownedBy_snoc, Ho. split; reflexivity.
  - destruct (negb (payloadValid p)); [split; [reflexivity | exact Ho]|].
    destruct (hasKey _ _); [split; [reflexivity | exact Ho]|].
    unfold newCity. cbn [nextObjectId logCall drawId fst snd withCities db cities].
    rewrite Hn, !ownedBy_snoc, Ho. split; reflexivity.
Qed.

Lemma createCity_owned (env : Env) (req : Request) (w w' : World) (uid : string)
      (u : ObjectId) :
  user req = Some uid -> ObjectId_parse uid = Some u ->
  ownedBy u (cities (db w)) = ownedBy u (cities (db w')) ->
  nextObjectId w = nextObjectId w' ->
  fst (CityController.createCity env req w) = fst (CityController.createCity env req w')
  /\ ownedBy u (cities (db (snd (CityController.createCity env req w))))
     = ownedBy u (cities (db (snd (CityController.createCity env req w')))).
Proof.
  intros Hu Hp Ho Hn. unfold CityController.createCity.
  unfold tryCatch, bind, json, ret, throw; cbv beta iota zeta. rewrite Hu.
  destruct (_ || _); [split; [reflexivity | exact Ho]|].
  destruct (_ && _); [split; [reflexivity | exact Ho]|].
  rewrite !resolveExactCity_run.
  destruct (hasApiKey env) eqn:Hk; [|split; [reflexivity | exact Ho]].
  destruct (geo_direct env _) as [raw|e]; [|split; [reflexivity | exact Ho]].
  assert (forall p c1 c2,
             CityRepository.p_userId p = uid ->
             let a := CityController.saveValidated env p (logCall w c1) in
             let b := CityController.saveValidated env p (logCall w' c2) in
             fst a = fst b
             /\ ownedBy u (cities (db (snd a))) = ownedBy u (cities (db (snd b)))) as Hblock.
  { intros p c1 c2 Hpu. cbv zeta. apply saveValidated_owned.
    - now rewrite Hpu.
    - exact Ho.
    - exact Hn. }
  destruct (JS.truthyStr (CityController.normalizedCountry req)).
  - destruct (filter _ (filter _ raw)) as [|best rest]; [split; [reflexivity | exact Ho]|].
    match goal with
    | |- context [CityController.saveValidated env ?p (logCall w ?c1)] =>
        destruct (Hblock p c1 c1 eq_refl) as [H1 H2]; revert H1 H2;
        destruct (CityController.saveValidated env p (logCall w c1)) as [[a|e] wa],
                 (CityController.saveValidated env p (logCall w' c1)) as [[b|e'] wb]
    end; cbn [fst snd]; intros H1 H2; try discriminate H1; split; congruence.
  - destruct (filter _ raw) as [|best rest]; [split; [reflexivity | exact Ho]|].
    destruct (1 <? _)%nat; [split; [reflexivity | exact Ho]|].
    match goal with
    | |- context [CityController.saveValidated env ?p (logCall w ?c1)] =>
        destruct (Hblock p c1 c1 eq_refl) as [H1 H2]; revert H1 H2;
        destruct (CityController.saveValidated env p (logCall w c1)) as [[a|e] wa],
                 (CityController.saveValidated env p (logCall w' c1)) as [[b|e'] wb]
    end; cbn [fst snd]; intros H1 H2; try discriminate H1; split; congruence.
Qed.

(** X24.  What a user is answered does not depend on the cities of the
    others.  Past the guard, in two worlds that hold the same cities of the
    caller in the same order and have the same id counter - whatever else
    they hold - each of the city and AI handlers gives the same answer,
    and afterwards the two worlds still hold the same cities of the
    caller. *)
Theorem answers_ignore_other_users
        (env : Env) (req : Request) (w w' : World) (uid : string) (u : ObjectId) :
  user req = Some uid -> ObjectId_parse uid = Some u ->
  citiesOf w u = citiesOf w' u -> nextObjectId w = nextObjectId w' ->
  Forall (fun h : Env -> Request -> M Response =>
            fst (h env req w) = fst (h env req w')
            /\ citiesOf (snd (h env req w)) u = citiesOf (snd (h env req w')) u)
         [ CityController.listCities; CityController.createCity;
           CityController.suggestCities; CityController.deleteCity;
           CityController.toggleFavorite; CityController.getCityWeather;
           AiController.getInsights ].
Proof.
  intros Hu Hp Hc Hn. pose proof (proj1 (citiesOf_owned w w' u) Hc) as Ho.
  repeat constructor.
  - now rewrite !(listCities_run env req _ uid Hu), Hp, Hc.
  - now rewrite !listCities_world.
  - now apply (createCity_owned env req w w' uid u).
  - apply citiesOf_owned. now apply (createCity_owned env req w w' uid u).
  - unfold CityController.suggestCities. run_handler. all: reflexivity.
  - apply citiesOf_owned. now rewrite !suggestCities_db.
  - rewrite !(deleteCity_run env req _ uid Hu), Hp.
    destruct (ObjectId_parse (params_id req)); reflexivity.
  - apply citiesOf_owned. rewrite !(deleteCity_run env req _ uid Hu), Hp.
    destruct (ObjectId_parse (params_id req)) as [cid|]; [|exact Ho].
    cbn [snd withCities db cities]. now rewrite !removeFirst_owned, Ho.
  - rewrite !(toggleFavorite_run env req _ uid Hu), Hp.
    destruct (ObjectId_parse (params_id req)) as [cid|]; [|reflexivity].
    cbv zeta. cbn [fst].
    destruct (updateFirst_owned cid u (JS.truthy (body_isFavorite req)) (cities (db w)))
      as [-> _].
    destruct (updateFirst_owned cid u (JS.truthy (body_isFavorite req)) (cities (db w')))
      as [-> _].
    now rewrite Ho.
  - apply citiesOf_owned. rewrite !(toggleFavorite_run env req _ uid Hu), Hp.
    destruct (ObjectId_parse (params_id req)) as [cid|]; [|exact Ho].
    cbv zeta. cbn [snd withCities db cities].
    destruct (updateFirst_owned cid u (JS.truthy (body_isFavorite req)) (cities (db w)))
      as [_ ->].
    destruct (updateFirst_owned cid u (JS.truthy (body_isFavorite req)) (cities (db w')))
      as [_ ->].
    now rewrite Ho.
  - rewrite !(getCityWeather_run env req _ uid Hu), Hp.
    destruct (ObjectId_parse (params_id req)) as [cid|]; [|reflexivity].
    rewrite (find_owned cid u (cities (db w))), (find_owned cid u (cities (db w'))), Ho.
    destruct (find _ _); [|reflexivity]. destruct (hasApiKey env); reflexivity.
  - apply citiesOf_owned. now rewrite !getCityWeather_db.
  - unfold AiController.getInsights. rewrite Hu.
    destruct (_ || _); [reflexivity|].
    unfold tryCatch, bind. rewrite !listCitiesForUser_run, Hp.
    fold (citiesOf w u). fold (citiesOf w' u). rewrite <- Hc.
    destruct (citiesOf w u) as [|c l]; [reflexivity|].
    pose proof (collectLines_run env (c :: l) [] w) as H1.
    pose proof (collectLines_run env (c :: l) [] w') as H2.
    destruct (AiController.collectLines env (c :: l) [] w) as [[l1|e1] w1];
      [|discriminate H1].
    destruct (AiController.collectLines env (c :: l) [] w') as [[l2|e2] w2];
      [|discriminate H2].
    cbn [fst] in H1, H2. injection H1 as ->. injection H2 as ->.
    match goal with
    | |- context [AiService.getAiInsight env ?q ?s w1] =>
        pose proof (getAiInsight_answer env q s w1 w2) as Ha;
        destruct (AiService.getAiInsight env q s w1) as [[r1|e1] w1'],
                 (AiService.getAiInsight env q s w2) as [[r2|e2] w2']
    end; cbn [fst] in Ha; try discriminate Ha; injection Ha as ->; reflexivity.
  - apply citiesOf_owned. now rewrite !getInsights_db.
Qed.

Lemma answers_ignore_other_users_witness :
  Forall (fun h : Env -> Request -> M Response =>
            fst (h Sample.env Scenario.aliceReq Sample.world2)
            = fst (h Sample.env Scenario.aliceReq Scenario.shared)
            /\ citiesOf (snd (h Sample.env Scenario.aliceReq Sample.world2))
                        (hexValue 0%N Sample.alice)
               = citiesOf (snd (h Sample.env Scenario.aliceReq Scenario.shared))
                          (hexValue 0%N Sample.alice))
         [ CityController.listCities; CityController.createCity;
           CityController.suggestCities; CityController.deleteCity;
           CityController.toggleFavorite; CityController.getCityWeather;
           AiController.getInsights ].
Proof.
  apply (answers_ignore_other_users Sample.env Scenario.aliceReq Sample.world2
           Scenario.shared Sample.alice (hexValue 0%N Sample.alice)).
  - reflexivity.
  - vm_compute. reflexivity.
  - vm_compute. reflexivity.
  - reflexivity.
Defined.
